(** * Calorie tracker: the Tracker Core of [js/app.js]

    A shallow embedding of the class [CalorieTracker] (menus, meals, goals,
    statistics, archival, import and export) and, of [UIController], of
    [changeDate] and the archive button, with the properties of its
    specification (parts 5 to 13 and 28 to 29) and further properties of the
    code (parts 14 to 26 and 30).

    The program is embedded at two levels. Parts 1 to 3 follow it on records
    of the data model: a menu, a meal and the goals with every field the
    program gives them. The module [Js] at the end of part 4 follows it on
    the values as [JSON.parse] gives them: any value as an entry of a
    collection, absent properties ([undefined]), a total that is NaN, and the
    [TypeError] of reading a property of [null]; there the constructor runs
    its loop over older records and [importData] returns for every file.
    Part 27 shows that on records of the data model the first level is the
    second.

    Conventions of the embedding.
    - Numbers of the data model (ids, calories, goals, time values) are
      integers, modelled in [Z]; the program computes with them in floating
      point, which is exact on integers up to 2^53. The two quotients of
      [calculateStats] are not integers: each is the rational quotient
      rounded to the nearest double ([binary64]), as the division of the
      program is.
    - A [Date] object is its time value, the milliseconds since the epoch.
      The date arithmetic follows the abstract operations of ECMAScript
      (Day, YearFromTime, MakeDay, ...); the local time zone is a fixed
      offset [LocalTZA] of the host, as in zones without daylight saving.
    - The text kept in [localStorage] and the text of an export file are
      identified with the JSON tree they denote ([JSON.stringify] followed by
      [JSON.parse] is the identity on such trees).
    - The clock ([Date.now()], [new Date()]) is an explicit argument [now].
    - At the first level menus, meals and goals are records of the data
      model, and an import is followed on the payloads whose entries are
      such records; the module [Js] has no such restriction.
    - [calculateBMR], [calculateRequiredCalories] and [checkStorageUsage]
      (floating point, byte sizes) are left out. *)

From Stdlib Require Import ZArith QArith Qround Qpower String Ascii List Lia Lqa
  Permutation Bool.
From stdpp Require Import base gmap strings.
Import ListNotations.

Local Open Scope string_scope.
Local Open Scope list_scope.
Local Open Scope Z_scope.

(** ** Part 1. ECMAScript time values *)

Definition msPerDay : Z := 86400000.
Definition msPerHour : Z := 3600000.
Definition msPerMinute : Z := 60000.
Definition msPerSecond : Z := 1000.

Definition Day (t : Z) : Z := t / msPerDay.
Definition TimeWithinDay (t : Z) : Z := t mod msPerDay.

Definition DaysInYear (y : Z) : Z :=
  if negb (y mod 4 =? 0) then 365
  else if negb (y mod 100 =? 0) then 366
  else if negb (y mod 400 =? 0) then 365
  else 366.

Definition DayFromYear (y : Z) : Z :=
  365 * (y - 1970) + (y - 1969) / 4 - (y - 1901) / 100 + (y - 1601) / 400.

Definition TimeFromYear (y : Z) : Z := msPerDay * DayFromYear y.

(** The largest year [y] with [TimeFromYear y <= t]: an estimate from the mean
    length of a year, corrected by at most one year (see [YearFromTime_spec]). *)
Definition YearFromTime (t : Z) : Z :=
  let d := Day t in
  let y := 1970 + (400 * d) / 146097 in
  if d <? DayFromYear y then y - 1
  else if DayFromYear (y + 1) <=? d then y + 1
  else y.

Definition InLeapYear (t : Z) : Z :=
  if DaysInYear (YearFromTime t) =? 366 then 1 else 0.

Definition DayWithinYear (t : Z) : Z := Day t - DayFromYear (YearFromTime t).

(** Day number, within its year, of the first day of month [m] (0 to 11);
    [leap] is 1 in a leap year and 0 otherwise. *)
Definition monthStart (m leap : Z) : Z :=
  match m with
  | 0 => 0
  | 1 => 31
  | 2 => 59 + leap
  | 3 => 90 + leap
  | 4 => 120 + leap
  | 5 => 151 + leap
  | 6 => 181 + leap
  | 7 => 212 + leap
  | 8 => 243 + leap
  | 9 => 273 + leap
  | 10 => 304 + leap
  | _ => 334 + leap
  end.

Definition MonthFromTime (t : Z) : Z :=
  let d := DayWithinYear t in
  let leap := InLeapYear t in
  if d <? 31 then 0
  else if d <? 59 + leap then 1
  else if d <? 90 + leap then 2
  else if d <? 120 + leap then 3
  else if d <? 151 + leap then 4
  else if d <? 181 + leap then 5
  else if d <? 212 + leap then 6
  else if d <? 243 + leap then 7
  else if d <? 273 + leap then 8
  else if d <? 304 + leap then 9
  else if d <? 334 + leap then 10
  else 11.

Definition DateFromTime (t : Z) : Z :=
  DayWithinYear t - monthStart (MonthFromTime t) (InLeapYear t) + 1.

Definition WeekDay (t : Z) : Z := (Day t + 4) mod 7.

Definition HourFromTime (t : Z) : Z := (t / msPerHour) mod 24.
Definition MinFromTime (t : Z) : Z := (t / msPerMinute) mod 60.
Definition SecFromTime (t : Z) : Z := (t / msPerSecond) mod 60.
Definition msFromTime (t : Z) : Z := t mod msPerSecond.

Definition MakeTime (hour min sec ms : Z) : Z :=
  hour * msPerHour + min * msPerMinute + sec * msPerSecond + ms.

(** [MakeDay]: months outside 0..11 carry into the year, and the day of the
    month is an offset from the first of that month, so that day 0 is the last
    day of the month before. *)
Definition MakeDay (year month date : Z) : Z :=
  let ym := year + month / 12 in
  let mn := month mod 12 in
  let leap := if DaysInYear ym =? 366 then 1 else 0 in
  DayFromYear ym + monthStart mn leap + date - 1.

Definition MakeDate (day time : Z) : Z := day * msPerDay + time.

(** *** The host: time zone and date parser *)

(** [LocalTZA] is the offset of local time from UTC, in milliseconds.
    [Date_parse s] is the time value of [new Date(s)] for a string [s], and
    [None] when the host answers Invalid Date (time value NaN). *)
Class Host := {
  LocalTZA : Z;
  Date_parse : string -> option Z
}.

Definition LocalTime `{Host} (t : Z) : Z := t + LocalTZA.
Definition UTC `{Host} (t : Z) : Z := t - LocalTZA.

(** [new Date(year, month, date)]: local midnight of that day. Years 0 to 99
    stand for 1900 to 1999. *)
Definition newDate `{Host} (year month date : Z) : Z :=
  let yr := if (0 <=? year) && (year <=? 99) then 1900 + year else year in
  UTC (MakeDate (MakeDay yr month date) (MakeTime 0 0 0 0)).

Definition getFullYear `{Host} (t : Z) : Z := YearFromTime (LocalTime t).
Definition getMonth `{Host} (t : Z) : Z := MonthFromTime (LocalTime t).
Definition getDate `{Host} (t : Z) : Z := DateFromTime (LocalTime t).
Definition getDay `{Host} (t : Z) : Z := WeekDay (LocalTime t).

(** [d.setDate(dt)] and [d.setMonth(month)] keep the local time of day. *)
Definition setDate `{Host} (t dt : Z) : Z :=
  let lt := LocalTime t in
  UTC (MakeDate (MakeDay (YearFromTime lt) (MonthFromTime lt) dt) (TimeWithinDay lt)).

Definition setMonth `{Host} (t month : Z) : Z :=
  let lt := LocalTime t in
  UTC (MakeDate (MakeDay (YearFromTime lt) month (DateFromTime lt)) (TimeWithinDay lt)).

(** Comparison of [new Date(s)] with a valid date: false on Invalid Date. *)
Definition date_lt (a : option Z) (b : Z) : bool :=
  match a with Some x => x <? b | None => false end.

Definition date_ge (a : option Z) (b : Z) : bool :=
  match a with Some x => b <=? x | None => false end.

(** *** Date strings *)

Definition digit (n : Z) : ascii := ascii_of_nat (48 + Z.to_nat (n mod 10)).

Definition pad2 (n : Z) : string :=
  String (digit (n / 10)) (String (digit n) EmptyString).

Definition pad3 (n : Z) : string := String (digit (n / 100)) (pad2 n).

Definition pad4 (n : Z) : string := String (digit (n / 1000)) (pad3 n).

Definition pad6 (n : Z) : string :=
  String (digit (n / 100000)) (String (digit (n / 10000)) (pad4 n)).

(** [d.toISOString()]: YYYY-MM-DDTHH:mm:ss.sssZ in UTC, with the expanded
    six-digit signed year outside 0..9999. *)
Definition toISOString (t : Z) : string :=
  let y := YearFromTime t in
  let year :=
    if (0 <=? y) && (y <=? 9999) then pad4 y
    else if y <? 0 then String "-" (pad6 (- y)) else String "+" (pad6 y) in
  year +:+ "-" +:+ pad2 (MonthFromTime t + 1) +:+ "-" +:+ pad2 (DateFromTime t)
    +:+ "T" +:+ pad2 (HourFromTime t) +:+ ":" +:+ pad2 (MinFromTime t) +:+ ":"
    +:+ pad2 (SecFromTime t) +:+ "." +:+ pad3 (msFromTime t) +:+ "Z".

Definition digit_of (c : ascii) : option Z :=
  let n := Z.of_nat (nat_of_ascii c) in
  if (48 <=? n) && (n <=? 57) then Some (n - 48) else None.

(** The date-only form YYYY-MM-DD, the value of an [<input type="date">],
    as V8 reads it: midnight UTC of that day; a month outside 1 to 12 or a
    day outside 1 to 31 gives Invalid Date, and a day from 29 to 31 that the
    month does not have runs over into the month after (2023-02-29 is read
    as 2023-03-01). Strings of any other form are Invalid Date for this
    parser. *)
Definition Date_parse_iso (s : string) : option Z :=
  match s with
  | String y1 (String y2 (String y3 (String y4 (String "-"
      (String m1 (String m2 (String "-" (String d1 (String d2 EmptyString))))))))) =>
    match digit_of y1, digit_of y2, digit_of y3, digit_of y4,
          digit_of m1, digit_of m2, digit_of d1, digit_of d2 with
    | Some a, Some b, Some c, Some d, Some e, Some f, Some g, Some h =>
      let year := 1000 * a + 100 * b + 10 * c + d in
      let month := 10 * e + f in
      let day := 10 * g + h in
      if (1 <=? month) && (month <=? 12) && (1 <=? day) && (day <=? 31)
      then Some (MakeDate (MakeDay year (month - 1) day) 0)
      else None
    | _, _, _, _, _, _, _, _ => None
    end
  | _ => None
  end.

(** Japan Standard Time (UTC+9, no daylight saving), the zone of the
    application's ja-JP locale, with the date-only parser. *)
Definition JST : Host :=
  {| LocalTZA := 9 * msPerHour; Date_parse := Date_parse_iso |}.

(** ** Part 2. JSON values and the data model *)

#[local] Set Warnings "-register-all".

(** The result of [JSON.parse]. A property that is absent (the JavaScript
    [undefined]) is the [None] of [get]. *)
Inductive value : Type :=
| JNull
| JBool (b : bool)
| JNum (n : Z)
| JStr (s : string)
| JArr (items : list value)
| JObj (props : list (string * value)).

Fixpoint lookup_prop (k : string) (props : list (string * value)) : option value :=
  match props with
  | [] => None
  | (k', v) :: rest => if String.eqb k k' then Some v else lookup_prop k rest
  end.

(** [v.k] for a value other than [null]: own properties of an object,
    [undefined] on numbers, strings, booleans and arrays (none of the keys read
    by the program is inherited). *)
Definition get (v : value) (k : string) : option value :=
  match v with
  | JObj props => lookup_prop k props
  | _ => None
  end.

(** ToBoolean. *)
Definition truthy (v : option value) : bool :=
  match v with
  | None => false
  | Some JNull => false
  | Some (JBool b) => b
  | Some (JNum n) => negb (n =? 0)
  | Some (JStr s) => negb (String.eqb s "")
  | Some (JArr _) => true
  | Some (JObj _) => true
  end.

Definition isArray (v : option value) : bool :=
  match v with Some (JArr _) => true | _ => false end.

(** [typeof v === "number"]. *)
Definition is_number (v : option value) : bool :=
  match v with Some (JNum _) => true | _ => false end.

(** Menu: [{id, name, calories}]. *)
Record Menu := {
  menu_id : Z;
  menu_name : string;
  menu_calories : Z
}.

(** Meal: [{id, date, menuId, menuName, menuCalories, customName,
    customCalories}], every field present; [None] is [null]. [meal_date] is
    the string the meal was entered with. (An older record that lacks
    fields is a value of the module [Js].) *)
Record Meal := {
  meal_id : Z;
  meal_date : string;
  menuId : option Z;
  menuName : option string;
  menuCalories : option Z;
  customName : option string;
  customCalories : option Z
}.

(** Goals: [{daily, userData}]. [userData] is a JSON value the core never
    looks into; [None] is an absent property. *)
Record Goals := {
  daily : Z;
  userData : option value
}.

(** [localStorage] is a map from keys to stored texts. *)
Record Tracker := {
  menus : list Menu;
  meals : list Meal;
  goals : Goals;
  storage : gmap string value
}.

Definition set_menus (st : Tracker) (ms : list Menu) : Tracker :=
  {| menus := ms; meals := meals st; goals := goals st; storage := storage st |}.

Definition set_meals (st : Tracker) (ms : list Meal) : Tracker :=
  {| menus := menus st; meals := ms; goals := goals st; storage := storage st |}.

Definition set_goals (st : Tracker) (g : Goals) : Tracker :=
  {| menus := menus st; meals := meals st; goals := g; storage := storage st |}.

(** [localStorage.setItem(key, text)]. *)
Definition setItem (st : Tracker) (key : string) (v : value) : Tracker :=
  {| menus := menus st; meals := meals st; goals := goals st;
     storage := <[key := v]> (storage st) |}.

(** *** The objects as JSON *)

Definition json_num (o : option Z) : value :=
  match o with Some n => JNum n | None => JNull end.

Definition json_str (o : option string) : value :=
  match o with Some s => JStr s | None => JNull end.

Definition Menu_to_json (m : Menu) : value :=
  JObj [("id", JNum (menu_id m)); ("name", JStr (menu_name m));
        ("calories", JNum (menu_calories m))].

Definition Meal_to_json (m : Meal) : value :=
  JObj [("id", JNum (meal_id m)); ("date", JStr (meal_date m));
        ("menuId", json_num (menuId m)); ("menuName", json_str (menuName m));
        ("menuCalories", json_num (menuCalories m));
        ("customName", json_str (customName m));
        ("customCalories", json_num (customCalories m))].

Definition Goals_to_json (g : Goals) : value :=
  JObj (("daily", JNum (daily g)) ::
        match userData g with Some u => [("userData", u)] | None => [] end).

Definition num_of (v : value) : option (option Z) :=
  match v with JNum n => Some (Some n) | JNull => Some None | _ => None end.

Definition str_of (v : value) : option (option string) :=
  match v with JStr s => Some (Some s) | JNull => Some None | _ => None end.

(** Reading an imported value as a record of the data model. The program
    stores imported entries as they are; the embedding follows it on the
    entries that have the shape the program itself creates, and gives [None]
    on any other. *)
Definition Menu_of_json (v : value) : option Menu :=
  match v with
  | JObj [("id", JNum i); ("name", JStr n); ("calories", JNum c)] =>
    Some {| menu_id := i; menu_name := n; menu_calories := c |}
  | _ => None
  end.

Definition Meal_of_json (v : value) : option Meal :=
  match v with
  | JObj [("id", JNum i); ("date", JStr d); ("menuId", mi); ("menuName", mn);
          ("menuCalories", mc); ("customName", cn); ("customCalories", cc)] =>
    match num_of mi, str_of mn, num_of mc, str_of cn, num_of cc with
    | Some mi', Some mn', Some mc', Some cn', Some cc' =>
      Some {| meal_id := i; meal_date := d; menuId := mi'; menuName := mn';
              menuCalories := mc'; customName := cn'; customCalories := cc' |}
    | _, _, _, _, _ => None
    end
  | _ => None
  end.

Definition Goals_of_json (v : value) : option Goals :=
  match v with
  | JObj [("daily", JNum d)] => Some {| daily := d; userData := None |}
  | JObj [("daily", JNum d); ("userData", u)] =>
    Some {| daily := d; userData := Some u |}
  | _ => None
  end.

Definition as_menus (v : option value) : option (list Menu) :=
  match v with Some (JArr items) => mapM Menu_of_json items | _ => None end.

Definition as_meals (v : option value) : option (list Meal) :=
  match v with Some (JArr items) => mapM Meal_of_json items | _ => None end.

Definition as_goals (v : option value) : option Goals :=
  match v with Some g => Goals_of_json g | None => None end.

(** ** Part 3. The class [CalorieTracker] *)

Definition saveMenus (st : Tracker) : Tracker :=
  setItem st "menus" (JArr (map Menu_to_json (menus st))).

Definition saveMeals (st : Tracker) : Tracker :=
  setItem st "meals" (JArr (map Meal_to_json (meals st))).

(** *** Menus *)

(** [addMenu(name, calories)]; [calories] is the integer that [parseInt]
    reads from the form field. *)
Definition addMenu (st : Tracker) (now : Z) (name : string) (calories : Z)
  : Tracker * Menu :=
  let menu := {| menu_id := now; menu_name := name; menu_calories := calories |} in
  (saveMenus (set_menus st (menus st ++ [menu])), menu).

Definition deleteMenu (st : Tracker) (id : Z) : Tracker :=
  saveMenus (set_menus st (List.filter (fun menu => negb (menu_id menu =? id)) (menus st))).

(** *** Meals *)

(** [addMeal(date, menuId, customName = null, customCalories = null)].
    [menuId] is a number or [null]; the test [if (menuId)] fails on [null]
    and on 0. [customCalories] is [null] or the integer that [parseInt]
    reads from the non-empty form field. *)
Definition addMeal (st : Tracker) (now : Z) (date : string) (menuId : option Z)
    (customName : option string) (customCalories : option Z) : Tracker * Meal :=
  let meal :=
    match menuId with
    | Some id =>
      if negb (id =? 0) then
        let menu := List.find (fun m => menu_id m =? id) (menus st) in
        {| meal_id := now; meal_date := date; menuId := Some id;
           menuName := match menu with Some m => Some (menu_name m) | None => None end;
           menuCalories := match menu with Some m => Some (menu_calories m) | None => None end;
           customName := None; customCalories := None |}
      else
        {| meal_id := now; meal_date := date; menuId := None;
           menuName := None; menuCalories := None;
           customName := customName; customCalories := customCalories |}
    | None =>
      {| meal_id := now; meal_date := date; menuId := None;
         menuName := None; menuCalories := None;
         customName := customName; customCalories := customCalories |}
    end in
  (saveMeals (set_meals st (meals st ++ [meal])), meal).

Definition deleteMeal (st : Tracker) (id : Z) : Tracker :=
  saveMeals (set_meals st (List.filter (fun meal => negb (meal_id meal =? id)) (meals st))).

(** *** Goals *)

(** [saveGoals(daily, userData = null)]; [daily] is the integer that
    [parseInt] reads from the form field, whose text is what is stored. *)
Definition saveGoals (st : Tracker) (daily' : Z) (userData' : value) : Tracker :=
  let st1 := set_goals st {| daily := daily'; userData := userData (goals st) |} in
  let st2 := setItem st1 "dailyGoal" (JNum daily') in
  if truthy (Some userData') then
    let st3 := set_goals st2 {| daily := daily (goals st2); userData := Some userData' |} in
    setItem st3 "userData" userData'
  else st2.

Definition getGoalForPeriod `{Host} (st : Tracker) (period : string) (targetDate : Z) : Z :=
  let dailyGoal := daily (goals st) in
  match period with
  | "daily" => dailyGoal
  | "weekly" => dailyGoal * 7
  | "monthly" =>
    let daysInMonth :=
      getDate (newDate (getFullYear targetDate) (getMonth targetDate + 1) 0) in
    dailyGoal * daysInMonth
  | _ => dailyGoal
  end.

(** *** Archival *)

Definition getOldData `{Host} (st : Tracker) (now : Z) : list Meal :=
  let sixMonthsAgo := setMonth now (getMonth now - 6) in
  List.filter (fun meal => date_lt (Date_parse (meal_date meal)) sixMonthsAgo) (meals st).

Definition removeOldData `{Host} (st : Tracker) (now : Z) : Tracker :=
  let sixMonthsAgo := setMonth now (getMonth now - 6) in
  saveMeals (set_meals st
    (List.filter (fun meal => date_ge (Date_parse (meal_date meal)) sixMonthsAgo) (meals st))).

(** *** Statistics *)

Definition calculateCaloriesForDateRange `{Host} (st : Tracker) (start end_ : Z) : Z :=
  fold_left (fun total meal =>
    let mealDate := Date_parse (meal_date meal) in
    if date_ge mealDate start && date_lt mealDate end_ then
      match customCalories meal with
      | Some c => total + c
      | None =>
        match menuCalories meal with
        | Some c => total + c
        | None =>
          let menu := List.find (fun m =>
            match menuId meal with Some id => menu_id m =? id | None => false end)
            (menus st) in
          total + match menu with Some m => menu_calories m | None => 0 end
        end
      end
    else total) (meals st) 0.

Definition calculateDailyCalories `{Host} (st : Tracker) (date : Z) : Z :=
  let dayStart := newDate (getFullYear date) (getMonth date) (getDate date) in
  let dayEnd := setDate dayStart (getDate dayStart + 1) in
  calculateCaloriesForDateRange st dayStart dayEnd.

Definition calculateWeeklyCalories `{Host} (st : Tracker) (date : Z) : Z :=
  let weekStart := setDate date (getDate date - getDay date) in
  let weekEnd := setDate weekStart (getDate weekStart + 7) in
  calculateCaloriesForDateRange st weekStart weekEnd.

Definition calculateMonthlyCalories `{Host} (st : Tracker) (date : Z) : Z :=
  let monthStart := newDate (getFullYear date) (getMonth date) 1 in
  let monthEnd := newDate (getFullYear date) (getMonth date + 1) 0 in
  calculateCaloriesForDateRange st monthStart monthEnd.

Record Stats := {
  total : Z;
  goal : Z;
  difference : Z;
  startDate : Z;
  endDate : Z;
  prediction : Z;
  elapsedRatio : Q
}.

(** [Math.round]: the nearest integer, halves upwards. *)
Definition Math_round (q : Q) : Z := Qfloor (q + (1 # 2))%Q.

(** *** Division in floating point

    The quotient of two doubles is the double nearest to their exact
    quotient, ties to the even significand. A double other than 0 is
    [m * 2^(e - 52)] with a significand [2^52 <= m < 2^53]; the range of the
    exponent [e] is not bounded here (the quotients of the program stay far
    from overflow and from the subnormal numbers). *)

Definition pow2 (k : Z) : Q := (2 ^ k)%Q.

(** The exponent of [0 < a]: the [e] with [2^e <= a < 2^(e+1)], which is
    the difference of the integer logarithms of numerator and denominator or
    one less (see [exponent_spec]). *)
Definition exponent (a : Q) : Z :=
  let k := Z.log2 (Qnum a) - Z.log2 (Zpos (Qden a)) in
  if Qle_bool (pow2 k) a then k else k - 1.

Definition roundTiesToEven (q : Q) : Z :=
  let n := Qfloor q in
  match (q - inject_Z n ?= 1 # 2)%Q with
  | Lt => n
  | Gt => n + 1
  | Eq => if Z.even n then n else n + 1
  end.

(** The double nearest to [0 < a]. *)
Definition nearest (a : Q) : Q :=
  let ulp := pow2 (exponent a - 52) in
  (inject_Z (roundTiesToEven (a / ulp)) * ulp)%Q.

Definition binary64 (q : Q) : Q :=
  match Qnum q with
  | 0 => 0%Q
  | Zpos _ => nearest q
  | Zneg _ => (- nearest (- q))%Q
  end.

(** [calculateStats(period, targetDate)]. The two quotients,
    [elapsedMs / totalMs] and [total / elapsedRatio], are rounded to the
    nearest double; the window of the three periods is never empty (see
    [totalMs_positive]). For any other period the window is empty and the
    quotient of the program is NaN or -Infinity, which the 0 of the rationals
    does not stand for. *)
Definition calculateStats `{Host} (st : Tracker) (now : Z) (period : string)
    (targetDate : Z) : Stats :=
  let '(startDate', endDate', total', goal') :=
    match period with
    | "daily" =>
      let startDate' :=
        newDate (getFullYear targetDate) (getMonth targetDate) (getDate targetDate) in
      let endDate' := setDate startDate' (getDate startDate' + 1) in
      (startDate', endDate', calculateDailyCalories st targetDate,
       getGoalForPeriod st period targetDate)
    | "weekly" =>
      let startDate' := setDate targetDate (getDate targetDate - getDay targetDate) in
      let endDate' := setDate startDate' (getDate startDate' + 7) in
      (startDate', endDate', calculateWeeklyCalories st targetDate,
       getGoalForPeriod st period targetDate)
    | "monthly" =>
      let startDate' := newDate (getFullYear targetDate) (getMonth targetDate) 1 in
      let endDate' := newDate (getFullYear targetDate) (getMonth targetDate + 1) 0 in
      (startDate', endDate', calculateMonthlyCalories st targetDate,
       getGoalForPeriod st period targetDate)
    | _ => (targetDate, targetDate, 0, 0)
    end in
  let totalMs := endDate' - startDate' in
  let elapsedMs := Z.min (now - startDate') totalMs in
  let elapsedRatio' := binary64 (inject_Z elapsedMs / inject_Z totalMs) in
  {| total := total';
     goal := goal';
     difference := goal' - total';
     startDate := startDate';
     endDate := endDate';
     prediction :=
       if negb (String.eqb period "daily") && negb (Qle_bool elapsedRatio' 0)
       then Math_round (binary64 (inject_Z total' / elapsedRatio'))
       else 0;
     elapsedRatio := elapsedRatio' |}.

(** *** Export and import *)

(** [exportData(data, filename)]: the content of the file that is offered for
    download, [{data, exportedAt}]. (The method itself returns [true].) *)
Definition exportData (data : value) (now : Z) : value :=
  JObj [("data", data); ("exportedAt", JStr (toISOString now))].


(** One flag for each of the three sections: [validation.details],
    [options.types] and [result.importedData]. *)
Record Sections := {
  of_menus : bool;
  of_meals : bool;
  of_goals : bool
}.

Record Validation := {
  isValid : bool;
  details : Sections
}.

Definition validateImportData (data : value) : Validation :=
  let details' :=
    {| of_menus := truthy (get data "menus") && isArray (get data "menus");
       of_meals := truthy (get data "meals") && isArray (get data "meals");
       of_goals := truthy (get data "goals") &&
                   is_number (match get data "goals" with
                              | Some g => get g "daily"
                              | None => None
                              end) |} in
  {| isValid := of_menus details' || of_meals details' || of_goals details';
     details := details' |}.

(** [mergeData(currentData, newData)] on two arrays: the current entries,
    then each new item whose id is not yet in the merged array. (On anything
    but two arrays the method returns [newData]; [importData] calls it on
    arrays only.) *)
Definition mergeData {A : Type} (id : A -> Z) (currentData newData : list A) : list A :=
  fold_left (fun merged item =>
    match List.find (fun existing => id existing =? id item) merged with
    | Some _ => merged
    | None => merged ++ [item]
    end) newData currentData.

Record ImportOptions := {
  merge : bool;
  types : Sections
}.

Definition defaultImportOptions : ImportOptions :=
  {| merge := false;
     types := {| of_menus := true; of_meals := true; of_goals := true |} |}.

(** The errors caught by [importData]: its own two, and the [TypeError] of
    the host on reading a property of [null]. *)
Inductive ImportError : Type :=
| InvalidFile
| InvalidFormat
| HostTypeError (property : string).

(** [{success: true, importedData}] or [{success: false, error}]. *)
Inductive ImportResult : Type :=
| Success (importedData : Sections)
| Failure (error : ImportError).

Definition importMenus (st : Tracker) (data : value) (validation : Validation)
    (options : ImportOptions) : option Tracker :=
  if of_menus (details validation) && of_menus (types options) then
    imported ← as_menus (get data "menus");
    Some (saveMenus (set_menus st
      (if merge options then mergeData menu_id (menus st) imported else imported)))
  else Some st.

Definition importMeals (st : Tracker) (data : value) (validation : Validation)
    (options : ImportOptions) : option Tracker :=
  if of_meals (details validation) && of_meals (types options) then
    imported ← as_meals (get data "meals");
    Some (saveMeals (set_meals st
      (if merge options then mergeData meal_id (meals st) imported else imported)))
  else Some st.

(** [{...this.goals, ...data.goals}]: the properties of [data.goals] win. *)
Definition spreadGoals (current imported : Goals) : Goals :=
  {| daily := daily imported;
     userData := match userData imported with
                 | Some u => Some u
                 | None => userData current
                 end |}.

Definition importGoals (st : Tracker) (data : value) (validation : Validation)
    (options : ImportOptions) : option Tracker :=
  if of_goals (details validation) && of_goals (types options) then
    imported ← as_goals (get data "goals");
    let st1 := set_goals st
      (if merge options then spreadGoals (goals st) imported else imported) in
    Some (setItem st1 "dailyGoal" (JNum (daily (goals st1))))
  else Some st.

(** [importData(file, options)], on the JSON value [importedData] parsed from
    the text of the file, for a tracker and imported sections that hold
    records of the data model. The result is [None] when a section that is
    imported holds an entry that is not such a record; [Js.importData]
    follows the program there, and on records the two agree (lemma
    [importData_records]). *)
Definition importData (st : Tracker) (importedData : value) (options : ImportOptions)
  : option (Tracker * ImportResult) :=
  match importedData with
  | JNull => Some (st, Failure (HostTypeError "data"))
  | _ =>
    if negb (truthy (get importedData "data"))
       || negb (truthy (get importedData "exportedAt"))
    then Some (st, Failure InvalidFile)
    else
      let data := default JNull (get importedData "data") in
      let validation := validateImportData data in
      if negb (isValid validation) then Some (st, Failure InvalidFormat)
      else
        st1 ← importMenus st data validation options;
        st2 ← importMeals st1 data validation options;
        st3 ← importGoals st2 data validation options;
        Some (st3, Success
          {| of_menus := of_menus (details validation) && of_menus (types options);
             of_meals := of_meals (details validation) && of_meals (types options);
             of_goals := of_goals (details validation) && of_goals (types options) |})
  end.

(** The steps of [importData] once the envelope is accepted. *)
Definition importSections (st : Tracker) (data : value) (options : ImportOptions)
  : option (Tracker * ImportResult) :=
  let validation := validateImportData data in
  st1 ← importMenus st data validation options;
  st2 ← importMeals st1 data validation options;
  st3 ← importGoals st2 data validation options;
  Some (st3, Success
    {| of_menus := of_menus (details validation) && of_menus (types options);
       of_meals := of_meals (details validation) && of_meals (types options);
       of_goals := of_goals (details validation) && of_goals (types options) |}).


(** *** Start

    [new CalorieTracker()] on a storage that holds records of the data
    model: the collections are read from [localStorage] (an absent key gives
    the default), then the meals are written back. The loop over the meals
    fills in [menuName] and [menuCalories] where they are [undefined]; a meal
    of the data model carries both, so the loop leaves it as it is. [None]
    when a stored collection is not a list of records of the data model;
    [Js.newCalorieTracker] runs the loop on older records, and on records of
    the data model the two agree (lemma [newCalorieTracker_records]). *)
Definition newCalorieTracker (store : gmap string value) : option Tracker :=
  menus' ← (if truthy (store !! "menus") then as_menus (store !! "menus") else Some []);
  meals' ← (if truthy (store !! "meals") then as_meals (store !! "meals") else Some []);
  daily' ← match store !! "dailyGoal" with
           | None => Some 2000
           | Some (JNum n) => Some (if n =? 0 then 2000 else n)
           | Some _ => None
           end;
  Some (saveMeals
    {| menus := menus'; meals := meals';
       goals := {| daily := daily';
                   userData := if truthy (store !! "userData")
                               then store !! "userData" else Some JNull |};
       storage := store |}).

(** ** Part 4. The statements of the specification *)

(** The effective calories of a meal, in the words of the specification:
    [customCalories] if non-null, else [menuCalories] if non-null, else the
    calories of the current menu whose id is the meal's [menuId], or 0. *)
Definition spec_effectiveCalories (ms : list Menu) (meal : Meal) : Z :=
  match customCalories meal, menuCalories meal, menuId meal with
  | Some c, _, _ => c
  | None, Some c, _ => c
  | None, None, Some id =>
    match List.find (fun m => menu_id m =? id) ms with
    | Some m => menu_calories m
    | None => 0
    end
  | None, None, None => 0
  end.

(** The date of the meal falls in [[start, end_)]. *)
Definition spec_inWindow `{Host} (start end_ : Z) (meal : Meal) : bool :=
  match Date_parse (meal_date meal) with
  | Some d => (start <=? d) && (d <? end_)
  | None => false
  end.

Fixpoint sumZ (l : list Z) : Z :=
  match l with
  | [] => 0
  | x :: rest => x + sumZ rest
  end.

Definition spec_total `{Host} (ms : list Menu) (start end_ : Z) (l : list Meal) : Z :=
  sumZ (map (spec_effectiveCalories ms) (List.filter (spec_inWindow start end_) l)).

(** An item is new for a collection when no entry of it has the id. *)
Definition spec_new_id {A : Type} (id : A -> Z) (current : list A) (item : A) : bool :=
  negb (existsb (fun existing => id existing =? id item) current).

(** A [menuId] resolves to the menu [m] when it is given (it passes the test
    [if (menuId)]: neither [null] nor 0) and [m] is the menu found with it. *)
Definition spec_resolves (st : Tracker) (menuId : option Z) (m : Menu) : Prop :=
  match menuId with
  | Some id => id <> 0 /\ List.find (fun m => menu_id m =? id) (menus st) = Some m
  | None => False
  end.

(** Of the items that share an id, the first. *)
Fixpoint spec_first_of_each_id {A : Type} (id : A -> Z) (l : list A) : list A :=
  match l with
  | [] => []
  | x :: rest =>
    x :: List.filter (fun y => negb (id y =? id x)) (spec_first_of_each_id id rest)
  end.

(** A section of the payload is structurally present. *)
Definition spec_menus_present (data : value) : bool := isArray (get data "menus").
Definition spec_meals_present (data : value) : bool := isArray (get data "meals").
Definition spec_goals_present (data : value) : bool :=
  match get data "goals" with
  | Some (JObj props) => is_number (lookup_prop "daily" props)
  | _ => false
  end.

(** A collection is written back in full: the stored text is that of the
    collection in memory. *)
Definition menus_persisted (st : Tracker) : Prop :=
  storage st !! "menus" = Some (JArr (map Menu_to_json (menus st))).

Definition meals_persisted (st : Tracker) : Prop :=
  storage st !! "meals" = Some (JArr (map Meal_to_json (meals st))).

Definition goals_persisted (st : Tracker) : Prop :=
  storage st !! "dailyGoal" = Some (JNum (daily (goals st)))
  /\ (truthy (userData (goals st)) = true ->
      storage st !! "userData" = userData (goals st)).

(** *** Sample data *)

Definition customMeal (id : Z) (date name : string) (kcal : Z) : Meal :=
  {| meal_id := id; meal_date := date; menuId := None; menuName := None;
     menuCalories := None; customName := Some name; customCalories := Some kcal |}.

(** 2024-01-15, 12:00 in Japan. *)
Definition mid_january : Z := 1705287600000.

(** A tracker with one meal in the middle and one on the last day of
    January 2024. *)
Definition january : Tracker :=
  saveMeals
    {| menus := [];
       meals := [customMeal 1 "2024-01-15" "lunch" 300;
                 customMeal 2 "2024-01-31" "dinner" 500];
       goals := {| daily := 2000; userData := Some JNull |};
       storage := ∅ |}.

Definition profile (age : string) : value :=
  JObj [("age", JStr age); ("currentWeight", JStr "60");
        ("targetWeight", JStr "2"); ("activityLevel", JStr "1.2")].

(** A tracker whose goals were saved with a profile. *)
Definition with_profile : Tracker := saveGoals january 2200 (profile "40").

(** An export file with a goals section. *)
Definition goals_file : value :=
  JObj [("data", JObj [("goals", JObj [("daily", JNum 1800);
                                           ("userData", profile "41")])]);
        ("exportedAt", JStr "2024-01-15T03:00:00.000Z")].

(** 2024-07-20, 12:00 in Japan. *)
Definition late_july : Z := 1721444400000.

(** 2024-01-15, a Monday, 00:48 in Japan. *)
Definition early_monday : Z := 1705247280000.

Definition rice : Menu := {| menu_id := 1700000000001; menu_name := "rice"; menu_calories := 250 |}.
Definition rice' : Menu := {| menu_id := 1700000000001; menu_name := "rice"; menu_calories := 999 |}.
Definition soup : Menu := {| menu_id := 1700000000002; menu_name := "soup"; menu_calories := 120 |}.

(** The January tracker after [addMenu("rice", "250")]. *)
Definition with_rice : Tracker := fst (addMenu january 1700000000001 "rice" 250).

(** *** Further code: navigation and archive *)

(** [changeDate(direction)] of the statistics view, on [this.currentDate] and
    the period chosen in the view: one day, seven days or one month back for
    ["prev"], forward for any other direction. *)
Definition changeDate `{Host} (currentDate : Z) (period direction : string) : Z :=
  match period with
  | "daily" =>
    if String.eqb direction "prev"
    then setDate currentDate (getDate currentDate - 1)
    else setDate currentDate (getDate currentDate + 1)
  | "weekly" =>
    if String.eqb direction "prev"
    then setDate currentDate (getDate currentDate - 7)
    else setDate currentDate (getDate currentDate + 7)
  | "monthly" =>
    if String.eqb direction "prev"
    then setMonth currentDate (getMonth currentDate - 1)
    else setMonth currentDate (getMonth currentDate + 1)
  | _ => currentDate
  end.

(** The payload of the archive button: [{meals: oldData}] with
    [oldData = getOldData()]. *)
Definition archiveData `{Host} (st : Tracker) (now : Z) : value :=
  JObj [("meals", JArr (map Meal_to_json (getOldData st now)))].

(** The number of days of month [m] (0 to 11) of a common or a leap year. *)
Definition spec_daysInMonth (leapYear : bool) (m : Z) : Z :=
  match m with
  | 1 => if leapYear then 29 else 28
  | 3 | 5 | 8 | 10 => 30
  | _ => 31
  end.

(** The year a [new Date(year, ...)] stands for. *)
Definition spec_fullYear (year : Z) : Z :=
  if (0 <=? year) && (year <=? 99) then 1900 + year else year.

(** A tracker that a restart on its own storage gives back as it is. *)
Definition spec_restart_stable (st : Tracker) : Prop :=
  newCalorieTracker (storage st) = Some st.

(** The meals that carry their calories: custom calories or the snapshot of a
    menu. *)
Definition spec_carries_calories (meal : Meal) : bool :=
  match customCalories meal, menuCalories meal with
  | None, None => false
  | _, _ => true
  end.

(** A host five hours west of Greenwich (UTC-5, no daylight saving), with
    the date-only parser. *)
Definition EST : Host :=
  {| LocalTZA := -5 * msPerHour; Date_parse := Date_parse_iso |}.

(** *** The program on the values of JavaScript

    The definitions above follow the program on records of the data model.
    The module [Js] follows it on the values as [JSON.parse] gives them: an
    entry of a collection is any value, a property may be absent
    ([undefined]), a sum may be NaN, and reading a property of [null] throws
    a [TypeError]. Part 27 shows that on records of the data model the two
    agree. *)

Module Js.

(** The completion of a step: a value, an error that is thrown, or [Beyond]
    where the embedding does not follow the program (a string concatenated
    by [+], the conversion of an array or an object to a primitive, a stored
    collection that is not an array). *)
Inductive result (A : Type) : Type :=
| Ok (a : A)
| Throws (error : ImportError)
| Beyond.

Arguments Ok {A} a.
Arguments Throws {A} error.
Arguments Beyond {A}.

#[global] Instance result_bind : MBind result :=
  fun A B k r =>
    match r with
    | Ok a => k a
    | Throws error => Throws error
    | Beyond => Beyond
    end.

(** A number of the program: an integer or NaN. *)
Inductive number : Type :=
| Int (n : Z)
| NaN.

Definition plus (a b : number) : number :=
  match a, b with
  | Int x, Int y => Int (x + y)
  | _, _ => NaN
  end.

(** [a === b] on two values read from parsed text ([None] is [undefined]).
    Arrays and objects are compared by identity, and two values that are
    read from different places of parsed text are never the same object. *)
Definition strict_eq (a b : option value) : bool :=
  match a, b with
  | None, None => true
  | Some JNull, Some JNull => true
  | Some (JBool x), Some (JBool y) => Bool.eqb x y
  | Some (JNum x), Some (JNum y) => x =? y
  | Some (JStr x), Some (JStr y) => String.eqb x y
  | _, _ => false
  end.

(** [v.k]: a [TypeError] on [null]. *)
Definition prop (v : value) (k : string) : result (option value) :=
  match v with
  | JNull => Throws (HostTypeError k)
  | _ => Ok (get v k)
  end.

(** [l.find((m) => m.id === id)]. *)
Fixpoint find_id (id : option value) (l : list value) : result (option value) :=
  match l with
  | [] => Ok None
  | m :: rest =>
    m_id ← prop m "id";
    if strict_eq m_id id then Ok (Some m) else find_id id rest
  end.

(** [merged.find((existing) => existing.id === item.id)]: [item.id] is read
    in the callback, once for every entry that is looked at. *)
Fixpoint find_existing (item : value) (merged : list value) : result (option value) :=
  match merged with
  | [] => Ok None
  | existing :: rest =>
    existing_id ← prop existing "id";
    item_id ← prop item "id";
    if strict_eq existing_id item_id then Ok (Some existing)
    else find_existing item rest
  end.

(** [mergeData(currentData, newData)] on two arrays. *)
Definition mergeData (currentData newData : list value) : result (list value) :=
  fold_left (fun acc item =>
    merged ← acc;
    existing ← find_existing item merged;
    Ok (if truthy existing then merged else merged ++ [item]))
    newData (Ok currentData).

(** [this]: the collections are arrays of any values, the goals an object. *)
Record Tracker := {
  menus : list value;
  meals : list value;
  goals : list (string * value);
  storage : gmap string value
}.

Definition set_menus (st : Tracker) (l : list value) : Tracker :=
  {| menus := l; meals := meals st; goals := goals st; storage := storage st |}.

Definition set_meals (st : Tracker) (l : list value) : Tracker :=
  {| menus := menus st; meals := l; goals := goals st; storage := storage st |}.

Definition set_goals (st : Tracker) (g : list (string * value)) : Tracker :=
  {| menus := menus st; meals := meals st; goals := g; storage := storage st |}.

Definition setItem (st : Tracker) (key : string) (v : value) : Tracker :=
  {| menus := menus st; meals := meals st; goals := goals st;
     storage := <[key := v]> (storage st) |}.

Definition saveMenus (st : Tracker) : Tracker := setItem st "menus" (JArr (menus st)).

Definition saveMeals (st : Tracker) : Tracker := setItem st "meals" (JArr (meals st)).

(** The entries of an array, the properties of an object. *)
Definition items (v : option value) : list value :=
  match v with Some (JArr l) => l | _ => [] end.

Definition props (v : option value) : list (string * value) :=
  match v with Some (JObj l) => l | _ => [] end.

(** [o.k = v] on the properties of [o]: an own property keeps its place, a
    new one comes last. A property set to [undefined] reads as an absent one
    and is left out by [JSON.stringify]. *)
Fixpoint set_prop (k : string) (v : value) (l : list (string * value))
  : list (string * value) :=
  match l with
  | [] => [(k, v)]
  | (k', v') :: rest =>
    if String.eqb k k' then (k', v) :: rest else (k', v') :: set_prop k v rest
  end.

Fixpoint delete_prop (k : string) (l : list (string * value)) : list (string * value) :=
  match l with
  | [] => []
  | (k', v') :: rest =>
    if String.eqb k k' then delete_prop k rest else (k', v') :: delete_prop k rest
  end.

Definition assign (o : value) (k : string) (v : option value) : value :=
  match o, v with
  | JObj l, Some v' => JObj (set_prop k v' l)
  | JObj l, None => JObj (delete_prop k l)
  | _, _ => o
  end.

(** [{...a, ...b}]. *)
Definition spread (a b : list (string * value)) : list (string * value) :=
  fold_left (fun acc kv => set_prop (fst kv) (snd kv) acc) b a.

Definition importMenus (st : Tracker) (data : value) (validation : Validation)
    (options : ImportOptions) : result Tracker :=
  if of_menus (details validation) && of_menus (types options) then
    imported ← (if merge options
                then mergeData (menus st) (items (get data "menus"))
                else Ok (items (get data "menus")));
    Ok (saveMenus (set_menus st imported))
  else Ok st.

Definition importMeals (st : Tracker) (data : value) (validation : Validation)
    (options : ImportOptions) : result Tracker :=
  if of_meals (details validation) && of_meals (types options) then
    imported ← (if merge options
                then mergeData (meals st) (items (get data "meals"))
                else Ok (items (get data "meals")));
    Ok (saveMeals (set_meals st imported))
  else Ok st.

Definition importGoals (st : Tracker) (data : value) (validation : Validation)
    (options : ImportOptions) : Tracker :=
  if of_goals (details validation) && of_goals (types options) then
    let st1 := set_goals st
      (if merge options then spread (goals st) (props (get data "goals"))
       else props (get data "goals")) in
    setItem st1 "dailyGoal" (default (JStr "undefined") (lookup_prop "daily" (goals st1)))
  else st.

(** The three sections of the [try] of [importData], once the envelope and
    the payload are accepted. An error thrown here is caught and returned,
    with the tracker as the sections before left it. *)
Definition importSections (st : Tracker) (data : value) (validation : Validation)
    (options : ImportOptions) : option (Tracker * ImportResult) :=
  match importMenus st data validation options with
  | Ok st1 =>
    match importMeals st1 data validation options with
    | Ok st2 =>
      Some (importGoals st2 data validation options,
            Success
              {| of_menus := of_menus (details validation) && of_menus (types options);
                 of_meals := of_meals (details validation) && of_meals (types options);
                 of_goals := of_goals (details validation) && of_goals (types options) |})
    | Throws error => Some (st1, Failure error)
    | Beyond => None
    end
  | Throws error => Some (st, Failure error)
  | Beyond => None
  end.

(** [importData(file, options)] on the value [importedData] parsed from the
    text of the file. Every error thrown in the [try] is caught and
    returned. The result is never [None]: no step of the [try] is beyond the
    embedding (see [importData_returns]). *)
Definition importData (st : Tracker) (importedData : value) (options : ImportOptions)
  : option (Tracker * ImportResult) :=
  match prop importedData "data" with
  | Ok data' =>
    if negb (truthy data') || negb (truthy (get importedData "exportedAt"))
    then Some (st, Failure InvalidFile)
    else
      let data := default JNull data' in
      let validation := validateImportData data in
      if negb (isValid validation) then Some (st, Failure InvalidFormat)
      else importSections st data validation options
  | Throws error => Some (st, Failure error)
  | Beyond => None
  end.

(** [JSON.parse(localStorage.getItem(key)) || []]. *)
Definition stored_array (v : option value) : result (list value) :=
  if truthy v then match v with Some (JArr l) => Ok l | _ => Beyond end else Ok [].

(** The body of the loop of the constructor, on one meal. *)
Definition repair (menus' : list value) (meal : value) : result value :=
  menuId ← prop meal "menuId";
  if truthy menuId
     && (strict_eq (get meal "menuName") None || strict_eq (get meal "menuCalories") None)
  then
    menu ← find_id menuId menus';
    match menu with
    | Some m =>
      if truthy menu
      then Ok (assign (assign meal "menuName" (get m "name")) "menuCalories"
                 (get m "calories"))
      else Ok meal
    | None => Ok meal
    end
  else Ok meal.

Fixpoint forEach_repair (menus' meals' : list value) : result (list value) :=
  match meals' with
  | [] => Ok []
  | meal :: rest =>
    meal' ← repair menus' meal;
    rest' ← forEach_repair menus' rest;
    Ok (meal' :: rest')
  end.

(** [new CalorieTracker()]. *)
Definition newCalorieTracker (store : gmap string value) : result Tracker :=
  menus' ← stored_array (store !! "menus");
  meals' ← stored_array (store !! "meals");
  daily' ← match store !! "dailyGoal" with
           | None => Ok 2000
           | Some (JNum n) => Ok (if n =? 0 then 2000 else n)
           | Some _ => Beyond
           end;
  repaired ← forEach_repair menus' meals';
  Ok (saveMeals
    {| menus := menus'; meals := repaired;
       goals := [("daily", JNum daily');
                 ("userData", if truthy (store !! "userData")
                              then default JNull (store !! "userData") else JNull)];
       storage := store |}).

(** [new Date(v)]: the time value, [None] for Invalid Date. *)
Definition new_Date `{Host} (v : option value) : result (option Z) :=
  match v with
  | None => Ok None
  | Some JNull => Ok (Some 0)
  | Some (JBool b) => Ok (Some (if b then 1 else 0))
  | Some (JNum n) =>
    Ok (if (-8640000000000000 <=? n) && (n <=? 8640000000000000) then Some n else None)
  | Some (JStr s) => Ok (Date_parse s)
  | Some (JArr _) | Some (JObj _) => Beyond
  end.

(** [total + v] for a number [total]. *)
Definition add (total : number) (v : option value) : result number :=
  match v with
  | None => Ok NaN
  | Some JNull => Ok total
  | Some (JBool b) => Ok (plus total (Int (if b then 1 else 0)))
  | Some (JNum n) => Ok (plus total (Int n))
  | Some (JStr _) | Some (JArr _) | Some (JObj _) => Beyond
  end.

(** The callback of the [reduce] of [calculateCaloriesForDateRange]. *)
Definition add_meal `{Host} (menus' : list value) (start end_ : Z) (total : number)
    (meal : value) : result number :=
  date ← prop meal "date";
  mealDate ← new_Date date;
  if date_ge mealDate start && date_lt mealDate end_ then
    if negb (strict_eq (get meal "customCalories") (Some JNull))
    then add total (get meal "customCalories")
    else if negb (strict_eq (get meal "menuCalories") (Some JNull))
    then add total (get meal "menuCalories")
    else
      menu ← find_id (get meal "menuId") menus';
      add total (match menu with
                 | Some m => if truthy menu then get m "calories" else Some (JNum 0)
                 | None => Some (JNum 0)
                 end)
  else Ok total.

Definition calculateCaloriesForDateRange `{Host} (st : Tracker) (start end_ : Z)
  : result number :=
  fold_left (fun acc meal => total ← acc; add_meal (menus st) start end_ total meal)
    (meals st) (Ok (Int 0)).

End Js.

(** The tracker of the program that holds the records of [st]. *)
Definition Js_of (st : Tracker) : Js.Tracker :=
  {| Js.menus := map Menu_to_json (menus st);
     Js.meals := map Meal_to_json (meals st);
     Js.goals := Js.props (Some (Goals_to_json (goals st)));
     Js.storage := storage st |}.

(** A record of the data model, as a value: not [null], with a numeric id. *)
Definition record_with_id {A : Type} (to_json : A -> value) (id : A -> Z) : Prop :=
  forall x, Js.prop (to_json x) "id" = Js.Ok (Some (JNum (id x)))
            /\ truthy (Some (to_json x)) = true.


(** An export file with the menu rice. *)
Definition rice_file : value :=
  JObj [("data", JObj [("menus", JArr [Menu_to_json rice])]);
        ("exportedAt", JStr "2024-01-15T03:00:00.000Z")].

(** A record from before the snapshot fields: [{id, date, menuId}]. *)
Definition legacy_meal (id : Z) (date : string) (menuId : Z) : value :=
  JObj [("id", JNum id); ("date", JStr date); ("menuId", JNum menuId)].

(** The same record once the constructor has filled in the snapshot. *)
Definition repaired_meal (id : Z) (date : string) (menu : Menu) : value :=
  JObj [("id", JNum id); ("date", JStr date); ("menuId", JNum (menu_id menu));
        ("menuName", JStr (menu_name menu)); ("menuCalories", JNum (menu_calories menu))].

(** A storage that holds a legacy meal of rice and no menu, the storage with
    the menu rice as well, and the tracker built from the first. *)
Definition legacy_meals_store : gmap string value :=
  {["meals" := JArr [legacy_meal 3 "2024-01-15" 1700000000001]]}.

Definition legacy_store : gmap string value :=
  <["menus" := JArr [Menu_to_json rice]]> legacy_meals_store.

Definition legacy_tracker : Js.Tracker :=
  Js.saveMeals
    {| Js.menus := [];
       Js.meals := [legacy_meal 3 "2024-01-15" 1700000000001];
       Js.goals := [("daily", JNum 2000); ("userData", JNull)];
       Js.storage := legacy_meals_store |}.

(** ** Part 5. Properties of the time values *)

Lemma MonthFromTime_range (t : Z) : 0 <= MonthFromTime t <= 11.
Proof.
  unfold MonthFromTime.
  repeat match goal with |- context [if ?c then _ else _] => destruct c end; lia.
Qed.

Lemma div_mod_small (m : Z) : 0 <= m <= 11 -> m / 12 = 0 /\ m mod 12 = m.
Proof. intros Hm. split; [apply Z.div_small | apply Z.mod_small]; lia. Qed.

(** The day number is recovered from the year, month and day of the month. *)
Lemma MakeDay_of_time (t dt : Z) :
  MakeDay (YearFromTime t) (MonthFromTime t) dt = Day t + (dt - DateFromTime t).
Proof.
  destruct (div_mod_small _ (MonthFromTime_range t)) as [Hd Hm].
  unfold MakeDay. rewrite Hd, Hm, Z.add_0_r.
  unfold DateFromTime, DayWithinYear, InLeapYear. lia.
Qed.

Lemma Day_TimeWithinDay (t : Z) : Day t * msPerDay + TimeWithinDay t = t.
Proof.
  unfold Day, TimeWithinDay.
  pose proof (Z.div_mod t msPerDay ltac:(discriminate)). lia.
Qed.

(** [setDate] moves a date by whole days. *)
Lemma setDate_shift `{Host} (t dt : Z) :
  setDate t dt = t + (dt - getDate t) * msPerDay.
Proof.
  unfold setDate, getDate, UTC, MakeDate. rewrite MakeDay_of_time.
  pose proof (Day_TimeWithinDay (LocalTime t)). unfold LocalTime in *. lia.
Qed.

Lemma DayFromYear_succ (y : Z) : DayFromYear (y + 1) = DayFromYear y + DaysInYear y.
Proof.
  unfold DayFromYear, DaysInYear.
  repeat match goal with |- context [?a =? ?b] => destruct (Z.eqb_spec a b) end;
    cbn [negb]; Z.to_euclidean_division_equations; lia.
Qed.

(** [YearFromTime t] is the year of [t]: the largest year that starts at or
    before the day of [t]. *)
Lemma YearFromTime_spec (t : Z) :
  DayFromYear (YearFromTime t) <= Day t < DayFromYear (YearFromTime t + 1).
Proof.
  unfold YearFromTime. generalize (Day t). intros d. cbv zeta.
  destruct (Z.ltb_spec d (DayFromYear (1970 + 400 * d / 146097))).
  - unfold DayFromYear in *. Z.to_euclidean_division_equations; lia.
  - destruct (Z.leb_spec (DayFromYear (1970 + 400 * d / 146097 + 1)) d).
    + unfold DayFromYear in *. Z.to_euclidean_division_equations; lia.
    + lia.
Qed.

Lemma DayWithinYear_range (t : Z) :
  0 <= DayWithinYear t < DaysInYear (YearFromTime t).
Proof.
  pose proof (YearFromTime_spec t). rewrite DayFromYear_succ in *.
  unfold DayWithinYear. lia.
Qed.

Lemma DaysInYear_cases (y : Z) : DaysInYear y = 365 \/ DaysInYear y = 366.
Proof.
  unfold DaysInYear.
  repeat match goal with |- context [if ?c then _ else _] => destruct c end; lia.
Qed.

Lemma DateFromTime_range (t : Z) : 1 <= DateFromTime t <= 31.
Proof.
  pose proof (DayWithinYear_range t) as Hr.
  unfold DateFromTime, MonthFromTime, InLeapYear in *.
  destruct (DaysInYear_cases (YearFromTime t)) as [Hy | Hy];
    rewrite Hy in *; cbn [Z.eqb Pos.eqb];
    repeat match goal with |- context [?a <? ?b] => destruct (Z.ltb_spec a b) end;
    cbn [monthStart]; lia.
Qed.

(** The last day of month [m] is at least 27 days after its first day. *)
Lemma MakeDay_month_end (yr m : Z) :
  0 <= m <= 11 -> 27 <= MakeDay yr (m + 1) 0 - MakeDay yr m 1 <= 30.
Proof.
  intros Hm.
  assert (Hc : m = 0 \/ m = 1 \/ m = 2 \/ m = 3 \/ m = 4 \/ m = 5 \/ m = 6 \/ m = 7
               \/ m = 8 \/ m = 9 \/ m = 10 \/ m = 11) by lia.
  unfold MakeDay.
  repeat destruct Hc as [Hc | Hc]; subst m;
    match goal with
    | |- context [(?a + 1) / 12] =>
      let q := eval vm_compute in ((a + 1) / 12) in
      let r := eval vm_compute in ((a + 1) mod 12) in
      change ((a + 1) / 12) with q; change ((a + 1) mod 12) with r
    end;
    match goal with
    | |- context [?a / 12] =>
      let q := eval vm_compute in (a / 12) in
      let r := eval vm_compute in (a mod 12) in
      change (a / 12) with q; change (a mod 12) with r
    end;
    cbn [monthStart]; rewrite ?Z.add_0_r; rewrite ?DayFromYear_succ;
    destruct (DaysInYear_cases yr) as [Hy | Hy]; rewrite ?Hy;
    cbn [Z.eqb Pos.eqb]; lia.
Qed.

(** Known dates. *)
Example toISOString_epoch : toISOString 0 = "1970-01-01T00:00:00.000Z".
Proof. reflexivity. Qed.

Example toISOString_before_epoch : toISOString (-1) = "1969-12-31T23:59:59.999Z".
Proof. reflexivity. Qed.

Example toISOString_leap_day : toISOString 951782400000 = "2000-02-29T00:00:00.000Z".
Proof. reflexivity. Qed.

Example toISOString_mid_january : toISOString mid_january = "2024-01-15T03:00:00.000Z".
Proof. reflexivity. Qed.

Example Date_parse_iso_last_of_january :
  Date_parse_iso "2024-01-31" = Some 1706659200000
  /\ toISOString 1706659200000 = "2024-01-31T00:00:00.000Z".
Proof. split; reflexivity. Qed.

Example Date_parse_iso_illegal :
  Date_parse_iso "2023-02-29" = Date_parse_iso "2023-03-01"
  /\ Date_parse_iso "2023-02-32" = None /\ Date_parse_iso "2024-13-01" = None
  /\ Date_parse_iso "someday" = None /\ Date_parse_iso "" = None.
Proof. repeat split. Qed.

(** In Japan, 2024-01-15 is a Monday; the local midnight that opens
    2024-01-31 is 15:00 UTC of the day before. *)
Example JST_dates :
  @getDay JST mid_january = 1
  /\ @getDate JST mid_january = 15
  /\ toISOString (@newDate JST 2024 0 31) = "2024-01-30T15:00:00.000Z"
  /\ @newDate JST 2024 1 0 = @newDate JST 2024 0 31
  /\ @newDate JST 2024 12 1 = @newDate JST 2025 0 1.
Proof. repeat split. Qed.

(** Six months before 2024-08-31 is "February 31", that is 2024-03-02. *)
Example setMonth_overflow :
  toISOString (@setMonth JST 1725073200000 (@getMonth JST 1725073200000 - 6))
  = "2024-03-02T03:00:00.000Z".
Proof. reflexivity. Qed.

(** ** Part 6. Statistics: the window and the elapsed ratio *)

(** *** Division in floating point *)

Lemma pow2_pos (k : Z) : (0 < pow2 k)%Q.
Proof. apply Qpower_0_lt. reflexivity. Qed.

Lemma pow2_le (a b : Z) : a <= b -> (pow2 a <= pow2 b)%Q.
Proof. intros H. apply Qpower_le_compat_l; [exact H | discriminate]. Qed.

Lemma pow2_plus (a b : Z) : (pow2 (a + b) == pow2 a * pow2 b)%Q.
Proof. apply Qpower_plus. discriminate. Qed.

Lemma pow2_Z (k : Z) : 0 <= k -> (pow2 k == inject_Z (2 ^ k))%Q.
Proof. intros H. unfold pow2. rewrite Zpower_Qpower by exact H. reflexivity. Qed.

Lemma pow2_succ (k : Z) : (pow2 (k + 1) == 2 * pow2 k)%Q.
Proof. rewrite pow2_plus. change (pow2 1) with 2%Q. ring. Qed.

(** The quotient of a numerator and a denominator lies within a factor 2 of
    the power of 2 given by their integer logarithms. *)
Lemma log2_bracket (a : Q) :
  (0 < a)%Q ->
  let k := Z.log2 (Qnum a) - Z.log2 (Zpos (Qden a)) in
  (pow2 (k - 1) <= a)%Q /\ (a < pow2 (k + 1))%Q.
Proof.
  intros Ha k. destruct a as [n d]. cbn [Qnum Qden] in k.
  assert (Hn : 0 < n) by (unfold Qlt in Ha; cbn in Ha; lia).
  pose proof (Z.log2_spec n Hn) as [Hn1 Hn2].
  pose proof (Z.log2_spec (Zpos d) eq_refl) as [Hd1 Hd2].
  pose proof (Z.log2_nonneg n) as Ln. pose proof (Z.log2_nonneg (Zpos d)) as Ld.
  set (ln := Z.log2 n) in *. set (ld := Z.log2 (Zpos d)) in *.
  assert (Hq : (n # d == inject_Z n / inject_Z (Zpos d))%Q) by apply Qmake_Qdiv.
  assert (H2 : forall x, (pow2 (x - ld) == pow2 x / pow2 ld)%Q).
  { intros x. apply Qpower_minus. discriminate. }
  assert (Pd : (0 < pow2 ld)%Q) by apply pow2_pos.
  assert (Dd : (0 < inject_Z (Zpos d))%Q) by reflexivity.
  split.
  - replace (k - 1) with ((ln - 1) - ld) by (subst k; lia).
    rewrite H2, Hq.
    apply Qle_shift_div_l; [exact Dd |].
    unfold Qdiv. rewrite <- Qmult_assoc, (Qmult_comm (/ _)), Qmult_assoc.
    apply Qle_shift_div_r; [exact Pd |].
    rewrite (pow2_Z ld Ld).
    replace (2 ^ Z.succ ld) with (2 * 2 ^ ld) in Hd2 by (symmetry; apply Z.pow_succ_r; lia).
    destruct (Z.eq_dec ln 0) as [E | E].
    + rewrite E. change (pow2 (0 - 1)) with (1 # 2)%Q.
      rewrite E in Hn1. change (2 ^ 0) with 1 in Hn1.
      unfold Qle, Qmult, inject_Z. cbn [Qnum Qden]. nia.
    + rewrite (pow2_Z (ln - 1)) by lia. rewrite <- !inject_Z_mult, <- Zle_Qle.
      assert (E2 : 2 ^ ln = 2 * 2 ^ (ln - 1)).
      { replace ln with (Z.succ (ln - 1)) at 1 by lia. apply Z.pow_succ_r. lia. }
      nia.
  - replace (k + 1) with ((ln + 1) - ld) by (subst k; lia).
    rewrite H2, Hq.
    apply Qlt_shift_div_l; [exact Pd |].
    unfold Qdiv. rewrite <- Qmult_assoc, (Qmult_comm (/ _)), Qmult_assoc.
    apply Qlt_shift_div_r; [exact Dd |].
    rewrite (pow2_Z ld Ld), (pow2_Z (ln + 1)) by lia.
    rewrite <- !inject_Z_mult, <- Zlt_Qlt.
    replace (ln + 1) with (Z.succ ln) by lia.
    nia.
Qed.

Lemma exponent_spec (a : Q) :
  (0 < a)%Q -> (pow2 (exponent a) <= a)%Q /\ (a < pow2 (exponent a + 1))%Q.
Proof.
  intros Ha. destruct (log2_bracket a Ha) as [H1 H2]. cbv zeta in H1, H2.
  unfold exponent. set (k := Z.log2 (Qnum a) - Z.log2 (Zpos (Qden a))) in *.
  destruct (Qle_bool (pow2 k) a) eqn:E.
  - apply Qle_bool_iff in E. split; assumption.
  - split; [exact H1 |]. replace (k - 1 + 1) with k by lia.
    apply Qnot_le_lt. intros Hc. apply Qle_bool_iff in Hc. congruence.
Qed.

Lemma exponent_mono (a b : Q) : (0 < a)%Q -> (a <= b)%Q -> exponent a <= exponent b.
Proof.
  intros Ha Hab.
  assert (Hb : (0 < b)%Q) by (eapply Qlt_le_trans; eassumption).
  destruct (exponent_spec a Ha) as [A1 _]. destruct (exponent_spec b Hb) as [_ B2].
  destruct (Z_lt_le_dec (exponent b) (exponent a)) as [Hlt | Hle]; [| exact Hle].
  exfalso.
  assert (H : (pow2 (exponent b + 1) <= pow2 (exponent a))%Q) by (apply pow2_le; lia).
  apply (Qlt_irrefl a).
  eapply Qle_lt_trans; [exact Hab |]. eapply Qlt_le_trans; [exact B2 |].
  eapply Qle_trans; [exact H | exact A1].
Qed.

(** Rounding to the nearest integer. *)
Lemma roundTiesToEven_cases (q : Q) :
  roundTiesToEven q = Qfloor q \/ roundTiesToEven q = Qfloor q + 1.
Proof.
  unfold roundTiesToEven.
  destruct (q - inject_Z (Qfloor q) ?= 1 # 2)%Q; [destruct (Z.even _) | |]; tauto.
Qed.

Lemma roundTiesToEven_integer (n : Z) : roundTiesToEven (inject_Z n) = n.
Proof.
  unfold roundTiesToEven. rewrite Qfloor_Z.
  replace (inject_Z n - inject_Z n ?= 1 # 2)%Q with Lt; [reflexivity |].
  symmetry. apply (proj1 (Qlt_alt _ _)). lra.
Qed.

Lemma roundTiesToEven_ge (q : Q) (n : Z) : (inject_Z n <= q)%Q -> n <= roundTiesToEven q.
Proof.
  intros H. apply Qfloor_resp_le in H. rewrite Qfloor_Z in H.
  destruct (roundTiesToEven_cases q) as [-> | ->]; lia.
Qed.

Lemma roundTiesToEven_le (q : Q) (n : Z) : (q <= inject_Z n)%Q -> roundTiesToEven q <= n.
Proof.
  intros H. pose proof (Qfloor_resp_le _ _ H) as Hf. rewrite Qfloor_Z in Hf.
  destruct (Z.eq_dec (Qfloor q) n) as [E | E].
  -     assert (Hq : (q == inject_Z n)%Q).
    { apply Qle_antisym; [exact H |]. rewrite <- E. apply Qfloor_le. }
    unfold roundTiesToEven. rewrite E.
    replace (q - inject_Z n ?= 1 # 2)%Q with Lt; [lia |].
    symmetry. apply (proj1 (Qlt_alt _ _)). lra.
  - destruct (roundTiesToEven_cases q) as [-> | ->]; lia.
Qed.

Lemma roundTiesToEven_mono (p q : Q) : (p <= q)%Q -> roundTiesToEven p <= roundTiesToEven q.
Proof.
  intros H. pose proof (Qfloor_resp_le _ _ H) as Hf.
  destruct (Z.eq_dec (Qfloor p) (Qfloor q)) as [E | E].
  - unfold roundTiesToEven. rewrite E. set (n := Qfloor q) in *.
    assert (Hd : (p - inject_Z n <= q - inject_Z n)%Q).
    { unfold Qminus. apply Qplus_le_l. exact H. }
    destruct (Qcompare_spec (p - inject_Z n) (1 # 2)) as [Ep | Ep | Ep];
      destruct (Qcompare_spec (q - inject_Z n) (1 # 2)) as [Eq | Eq | Eq];
      try destruct (Z.even n); try lia; exfalso; lra.
  - destruct (roundTiesToEven_cases p) as [-> | ->];
      destruct (roundTiesToEven_cases q) as [-> | ->]; lia.
Qed.

(** The significand of [nearest a] has 53 bits, so that [nearest a] stays in
    the binade of [a], ends included. *)
Lemma pow2_ulp (e : Z) (j : Z) : (pow2 (e + j) == pow2 (e - 52) * pow2 (52 + j))%Q.
Proof. rewrite <- pow2_plus. replace (e - 52 + (52 + j)) with (e + j) by lia. reflexivity. Qed.

Lemma significand_range (a : Q) :
  (0 < a)%Q ->
  (inject_Z (2 ^ 52) <= a / pow2 (exponent a - 52))%Q
  /\ (a / pow2 (exponent a - 52) <= inject_Z (2 ^ 53))%Q.
Proof.
  intros Ha. destruct (exponent_spec a Ha) as [H1 H2].
  pose proof (pow2_pos (exponent a - 52)) as Hu.
  rewrite <- (pow2_Z 52), <- (pow2_Z 53) by lia.
  split.
  - apply Qle_shift_div_l; [exact Hu |].
    rewrite Qmult_comm, <- (pow2_ulp (exponent a) 0), Z.add_0_r. exact H1.
  - apply Qle_shift_div_r; [exact Hu |].
    rewrite Qmult_comm. change 53 with (52 + 1). rewrite <- (pow2_ulp (exponent a) 1).
    apply Qlt_le_weak. exact H2.
Qed.

Lemma nearest_range (a : Q) :
  (0 < a)%Q ->
  (pow2 (exponent a) <= nearest a)%Q /\ (nearest a <= pow2 (exponent a + 1))%Q.
Proof.
  intros Ha. destruct (significand_range a Ha) as [H1 H2].
  apply roundTiesToEven_ge in H1. apply roundTiesToEven_le in H2.
  pose proof (pow2_pos (exponent a - 52)) as Hu.
  unfold nearest. set (m := roundTiesToEven _) in *.
  split.
  - rewrite <- (Z.add_0_r (exponent a)) at 1. rewrite pow2_ulp, Z.add_0_r, Qmult_comm.
    apply Qmult_le_compat_r; [| apply Qlt_le_weak; exact Hu].
    rewrite pow2_Z by lia. rewrite <- Zle_Qle. exact H1.
  - rewrite pow2_ulp, (Qmult_comm (pow2 (exponent a - 52))).
    apply Qmult_le_compat_r; [| apply Qlt_le_weak; exact Hu].
    change (52 + 1) with 53. rewrite pow2_Z by lia. rewrite <- Zle_Qle. exact H2.
Qed.

Lemma nearest_pos (a : Q) : (0 < a)%Q -> (0 < nearest a)%Q.
Proof.
  intros Ha. eapply Qlt_le_trans; [apply (pow2_pos (exponent a)) |].
  apply nearest_range. exact Ha.
Qed.

Lemma nearest_mono (a b : Q) : (0 < a)%Q -> (a <= b)%Q -> (nearest a <= nearest b)%Q.
Proof.
  intros Ha Hab.
  assert (Hb : (0 < b)%Q) by (eapply Qlt_le_trans; eassumption).
  pose proof (exponent_mono a b Ha Hab) as He.
  destruct (Z.eq_dec (exponent a) (exponent b)) as [E | E].
  - unfold nearest. rewrite E.
    pose proof (pow2_pos (exponent b - 52)) as Hu.
    apply Qmult_le_compat_r; [| apply Qlt_le_weak; exact Hu].
    rewrite <- Zle_Qle. apply roundTiesToEven_mono.
    apply Qmult_le_compat_r; [exact Hab |].
    apply Qlt_le_weak, Qinv_lt_0_compat. exact Hu.
  - eapply Qle_trans; [apply (nearest_range a Ha) |].
    eapply Qle_trans; [| apply (nearest_range b Hb)].
    apply pow2_le. lia.
Qed.

Lemma exponent_integer (n : Z) : 0 < n -> exponent (inject_Z n) = Z.log2 n.
Proof.
  intros Hn. unfold exponent. cbn [inject_Z Qnum Qden].
  change (Z.log2 1) with 0. rewrite Z.sub_0_r.
  pose proof (Z.log2_spec n Hn) as [H1 _]. pose proof (Z.log2_nonneg n) as H0.
  replace (Qle_bool (pow2 (Z.log2 n)) (inject_Z n)) with true; [reflexivity |].
  symmetry. apply Qle_bool_iff. rewrite pow2_Z by exact H0.
  rewrite <- Zle_Qle. exact H1.
Qed.

Lemma nearest_integer (n : Z) : 0 < n <= 2 ^ 53 -> (nearest (inject_Z n) == inject_Z n)%Q.
Proof.
  intros [Hn Hle]. unfold nearest. rewrite (exponent_integer n Hn).
  pose proof (Z.log2_spec n Hn) as [H1 H2]. pose proof (Z.log2_nonneg n) as H0.
  set (e := Z.log2 n) in *.
  pose proof (pow2_pos (e - 52)) as Hu.
  assert (He : e <= 53).
  { destruct (Z_lt_le_dec 53 e) as [Hc | Hc]; [| exact Hc]. exfalso.
    assert (2 ^ 54 <= 2 ^ e) by (apply Z.pow_le_mono_r; lia).
    assert (2 ^ 53 < 2 ^ 54) by reflexivity. lia. }
  destruct (Z_le_gt_dec e 52) as [Hs | Hs].
  - assert (Hi : (inject_Z n / pow2 (e - 52) == inject_Z (n * 2 ^ (52 - e)))%Q).
    { rewrite inject_Z_mult, <- pow2_Z by lia.
      replace (52 - e) with (- (e - 52)) by lia. unfold pow2 at 2.
      rewrite Qpower_opp. reflexivity. }
    assert (Hr : roundTiesToEven (inject_Z n / pow2 (e - 52)) = n * 2 ^ (52 - e)).
    { rewrite <- (roundTiesToEven_integer (n * 2 ^ (52 - e))).
      apply Z.le_antisymm; apply roundTiesToEven_mono; rewrite Hi; apply Qle_refl. }
    rewrite Hr, <- Hi. field. apply Qnot_eq_sym, Qlt_not_eq. exact Hu.
  - assert (e = 53) by lia. subst e.
    assert (n = 2 ^ 53).
    { rewrite H in H1. lia. }
    rewrite H, H3. reflexivity.
Qed.

(** The nearest double: it keeps the sign, the order and the integers up to
    2^53. *)
Lemma Qnum_pos (q : Q) : (0 < q)%Q <-> 0 < Qnum q.
Proof. unfold Qlt. cbn [Qnum Qden]. lia. Qed.

Lemma Qnum_neg (q : Q) : (q < 0)%Q <-> Qnum q < 0.
Proof. unfold Qlt. cbn [Qnum Qden]. lia. Qed.

Lemma Qnum_zero (q : Q) : (q == 0)%Q <-> Qnum q = 0.
Proof. unfold Qeq. cbn [Qnum Qden]. lia. Qed.

Lemma binary64_positive (q : Q) : (0 < q)%Q -> binary64 q = nearest q.
Proof.
  intros H. apply Qnum_pos in H. unfold binary64.
  destruct (Qnum q); [lia | reflexivity | lia].
Qed.

Lemma binary64_negative (q : Q) : (q < 0)%Q -> binary64 q = (- nearest (- q))%Q.
Proof.
  intros H. apply Qnum_neg in H. unfold binary64.
  destruct (Qnum q); [lia | lia | reflexivity].
Qed.

Lemma binary64_zero (q : Q) : (q == 0)%Q -> binary64 q = 0%Q.
Proof. intros H. apply Qnum_zero in H. unfold binary64. rewrite H. reflexivity. Qed.

Lemma binary64_sign (q : Q) :
  ((0 < q)%Q -> (0 < binary64 q)%Q)
  /\ ((q < 0)%Q -> (binary64 q < 0)%Q)
  /\ ((q == 0)%Q -> (binary64 q == 0)%Q).
Proof.
  split; [| split]; intros H.
  - rewrite (binary64_positive q H). apply nearest_pos. exact H.
  - rewrite (binary64_negative q H).
    assert (Hn : (0 < - q)%Q) by lra.
    pose proof (nearest_pos _ Hn). lra.
  - rewrite (binary64_zero q H). reflexivity.
Qed.

Lemma binary64_mono (p q : Q) : (p <= q)%Q -> (binary64 p <= binary64 q)%Q.
Proof.
  intros H.
  destruct (Q_dec p 0) as [[Hp | Hp] | Hp]; destruct (Q_dec q 0) as [[Hq | Hq] | Hq];
    try (exfalso; lra).
  - rewrite (binary64_negative p Hp), (binary64_negative q Hq).
    assert (Hm : (nearest (- q) <= nearest (- p))%Q) by (apply nearest_mono; lra).
    lra.
  - pose proof (proj1 (proj2 (binary64_sign p)) Hp).
    pose proof (proj1 (binary64_sign q) Hq). lra.
  - pose proof (proj1 (proj2 (binary64_sign p)) Hp).
    pose proof (proj2 (proj2 (binary64_sign q)) Hq). lra.
  - rewrite (binary64_positive p Hp), (binary64_positive q Hq).
    apply nearest_mono; assumption.
  - pose proof (proj2 (proj2 (binary64_sign p)) Hp).
    pose proof (proj1 (binary64_sign q) Hq). lra.
  - pose proof (proj2 (proj2 (binary64_sign p)) Hp).
    pose proof (proj2 (proj2 (binary64_sign q)) Hq). lra.
Qed.

Lemma binary64_comp (p q : Q) : (p == q)%Q -> (binary64 p == binary64 q)%Q.
Proof. intros H. apply Qle_antisym; apply binary64_mono; rewrite H; apply Qle_refl. Qed.

Lemma binary64_integer (n : Z) :
  - 2 ^ 53 <= n <= 2 ^ 53 -> (binary64 (inject_Z n) == inject_Z n)%Q.
Proof.
  intros Hn. destruct (Z.lt_trichotomy n 0) as [H | [H | H]].
  - rewrite binary64_negative by (rewrite (Zlt_Qlt n 0) in H; exact H).
    rewrite <- inject_Z_opp, nearest_integer by lia.
    rewrite inject_Z_opp. ring.
  - subst n. reflexivity.
  - rewrite binary64_positive by (rewrite (Zlt_Qlt 0 n) in H; exact H).
    apply nearest_integer. lia.
Qed.

Lemma binary64_le_1 (q : Q) : (q <= 1)%Q -> (binary64 q <= 1)%Q.
Proof.
  intros H. apply binary64_mono in H.
  rewrite (binary64_integer 1) in H by (split; discriminate). exact H.
Qed.

Lemma binary64_nonneg_iff (q : Q) : (0 <= binary64 q)%Q <-> (0 <= q)%Q.
Proof.
  destruct (binary64_sign q) as (Hp & Hn & Hz).
  destruct (Q_dec q 0) as [[H | H] | H].
  - specialize (Hn H). split; intros Hc; exfalso; lra.
  - specialize (Hp H). split; intros _; lra.
  - specialize (Hz H). split; intros _; lra.
Qed.

Lemma binary64_pos_iff (q : Q) : (0 < binary64 q)%Q <-> (0 < q)%Q.
Proof.
  destruct (binary64_sign q) as (Hp & Hn & Hz).
  destruct (Q_dec q 0) as [[H | H] | H].
  - specialize (Hn H). split; intros Hc; exfalso; lra.
  - specialize (Hp H). split; intros _; lra.
  - specialize (Hz H). split; intros Hc; exfalso; lra.
Qed.

(** *** The window *)

Lemma elapsedRatio_eq `{Host} (st : Tracker) (now : Z) (period : string) (targetDate : Z) :
  let s := calculateStats st now period targetDate in
  elapsedRatio s =
    binary64 (inject_Z (Z.min (now - startDate s) (endDate s - startDate s))
                / inject_Z (endDate s - startDate s)).
Proof.
  unfold calculateStats.
  destruct (match period with "daily" => _ | _ => _ end) as [[[a b] c] d].
  reflexivity.
Qed.

Lemma daily_window `{Host} (st : Tracker) (now targetDate : Z) :
  let s := calculateStats st now "daily" targetDate in
  startDate s = newDate (getFullYear targetDate) (getMonth targetDate) (getDate targetDate)
  /\ endDate s = startDate s + msPerDay.
Proof.
  split; [reflexivity |].
  change (endDate (calculateStats st now "daily" targetDate))
    with (let s := newDate (getFullYear targetDate) (getMonth targetDate) (getDate targetDate)
          in setDate s (getDate s + 1)).
  cbv zeta. rewrite setDate_shift.
  change (startDate (calculateStats st now "daily" targetDate))
    with (newDate (getFullYear targetDate) (getMonth targetDate) (getDate targetDate)).
  lia.
Qed.

Lemma weekly_window `{Host} (st : Tracker) (now targetDate : Z) :
  let s := calculateStats st now "weekly" targetDate in
  startDate s = setDate targetDate (getDate targetDate - getDay targetDate)
  /\ endDate s = startDate s + 7 * msPerDay.
Proof.
  split; [reflexivity |].
  change (endDate (calculateStats st now "weekly" targetDate))
    with (let s := setDate targetDate (getDate targetDate - getDay targetDate)
          in setDate s (getDate s + 7)).
  cbv zeta. rewrite (setDate_shift (setDate _ _)).
  change (startDate (calculateStats st now "weekly" targetDate))
    with (setDate targetDate (getDate targetDate - getDay targetDate)).
  lia.
Qed.

(** The monthly window ends at the local midnight that opens the last day of
    the month: one day before the first day of the next month. *)
Lemma monthly_window `{Host} (st : Tracker) (now targetDate : Z) :
  let s := calculateStats st now "monthly" targetDate in
  startDate s = newDate (getFullYear targetDate) (getMonth targetDate) 1
  /\ endDate s = newDate (getFullYear targetDate) (getMonth targetDate + 1) 0
  /\ endDate s = newDate (getFullYear targetDate) (getMonth targetDate + 1) 1 - msPerDay
  /\ 27 * msPerDay <= endDate s - startDate s <= 30 * msPerDay.
Proof.
  split; [reflexivity |]. split; [reflexivity |].
  change (endDate (calculateStats st now "monthly" targetDate))
    with (newDate (getFullYear targetDate) (getMonth targetDate + 1) 0).
  change (startDate (calculateStats st now "monthly" targetDate))
    with (newDate (getFullYear targetDate) (getMonth targetDate) 1).
  unfold newDate, UTC, MakeDate. cbv zeta.
  match goal with |- context [MakeDay ?y _ 0] => set (yr := y) end.
  pose proof (MakeDay_month_end yr (getMonth targetDate)
                (MonthFromTime_range (LocalTime targetDate))) as Hm.
  split.
  - unfold MakeDay. unfold msPerDay. lia.
  - unfold msPerDay. lia.
Qed.

Lemma totalMs_positive `{Host} (st : Tracker) (now : Z) (period : string) (targetDate : Z) :
  period = "daily" \/ period = "weekly" \/ period = "monthly" ->
  let s := calculateStats st now period targetDate in
  0 < endDate s - startDate s.
Proof.
  intros [-> | [-> | ->]] s; subst s.
  - destruct (daily_window st now targetDate) as [_ ->]. unfold msPerDay. lia.
  - destruct (weekly_window st now targetDate) as [_ ->]. unfold msPerDay. lia.
  - destruct (monthly_window st now targetDate) as (_ & _ & _ & Hw).
    unfold msPerDay in Hw. lia.
Qed.

Lemma ratio_le_1 (elapsed totalMs : Z) :
  0 < totalMs -> (inject_Z (Z.min elapsed totalMs) / inject_Z totalMs <= 1)%Q.
Proof.
  intros Ht. destruct totalMs as [| p | p]; try lia.
  rewrite <- Qmake_Qdiv. unfold Qle. cbn [Qnum Qden]. lia.
Qed.

Lemma ratio_nonneg (elapsed totalMs : Z) :
  0 < totalMs ->
  (0 <= inject_Z (Z.min elapsed totalMs) / inject_Z totalMs)%Q <-> 0 <= elapsed.
Proof.
  intros Ht. destruct totalMs as [| p | p]; try lia.
  rewrite <- Qmake_Qdiv. unfold Qle. cbn [Qnum Qden]. lia.
Qed.

(** C2, as amended. For each of the three periods and every reference date,
    [elapsedRatio] is at most 1 (the elapsed time is capped by the length of
    the window), and it is not capped from below: it is non-negative exactly
    when now is at or after the start of the window, and negative for a window
    that starts in the future. *)
Theorem elapsedRatio_capped_above `{Host} (st : Tracker) (now : Z) (period : string)
    (targetDate : Z) :
  period = "daily" \/ period = "weekly" \/ period = "monthly" ->
  let s := calculateStats st now period targetDate in
  (elapsedRatio s <= 1)%Q
  /\ ((0 <= elapsedRatio s)%Q <-> startDate s <= now)
  /\ (now < startDate s -> (elapsedRatio s < 0)%Q).
Proof.
  intros Hp s. subst s.
  pose proof (totalMs_positive st now period targetDate Hp) as Ht. cbv zeta in Ht.
  rewrite (elapsedRatio_eq st now period targetDate).
  assert (Hn := ratio_nonneg (now - startDate (calculateStats st now period targetDate)) _ Ht).
  split; [apply binary64_le_1, ratio_le_1; exact Ht |]. split.
  - split; intros Hc.
    + apply binary64_nonneg_iff, Hn in Hc. lia.
    + apply binary64_nonneg_iff, Hn. lia.
  - intros Hlt. apply Qnot_le_lt. intros Hc. apply binary64_nonneg_iff, Hn in Hc. lia.
Qed.

(** The theorem of C2 at the weekly window of 2024-01-15. *)
Lemma elapsedRatio_capped_above_witness :
  ("weekly" = "daily" \/ "weekly" = "weekly" \/ "weekly" = "monthly")
  /\ (elapsedRatio (@calculateStats JST january mid_january "weekly" mid_january) <= 1)%Q
  /\ ((0 <= elapsedRatio (@calculateStats JST january mid_january "weekly" mid_january))%Q
      <-> startDate (@calculateStats JST january mid_january "weekly" mid_january)
          <= mid_january).
Proof.
  split; [right; left; reflexivity |].
  destruct (@elapsedRatio_capped_above JST january mid_january "weekly" mid_january
              (or_intror (or_introl eq_refl))) as (Hle & Hiff & _).
  split; [exact Hle | exact Hiff].
Defined.

Lemma elapsedRatio_for_tomorrow :
  (elapsedRatio (@calculateStats JST january mid_january "daily" (mid_january + msPerDay))
     == - (1 # 2))%Q.
Proof. vm_compute. reflexivity. Qed.

(** C2, as stated, fails: seen at noon of 2024-01-15, half a day before the
    daily window of 2024-01-16 opens, the ratio is -1/2 and so outside
    [[0, 1]]. *)
Lemma elapsedRatio_outside_unit_interval :
  ~ (0 <= elapsedRatio
            (@calculateStats JST january mid_january "daily" (mid_january + msPerDay))
     /\ elapsedRatio
          (@calculateStats JST january mid_january "daily" (mid_january + msPerDay)) <= 1)%Q.
Proof. intros [Hc _]. vm_compute in Hc. apply Hc. reflexivity. Qed.

(** ** Part 7. Totals over a window *)

Lemma find_none_false {A : Type} (l : list A) : List.find (fun _ => false) l = None.
Proof. induction l as [| x l IH]; [reflexivity | exact IH]. Qed.

Lemma inWindow_eq `{Host} (start end_ : Z) (meal : Meal) :
  date_ge (Date_parse (meal_date meal)) start && date_lt (Date_parse (meal_date meal)) end_
  = spec_inWindow start end_ meal.
Proof. unfold spec_inWindow. destruct (Date_parse (meal_date meal)); reflexivity. Qed.

(** One step of the [reduce] adds the effective calories of a meal in the
    window and nothing for any other meal. *)
Lemma reduce_from `{Host} (ms : list Menu) (start end_ : Z) (l : list Meal) (acc : Z) :
  fold_left (fun total meal =>
    let mealDate := Date_parse (meal_date meal) in
    if date_ge mealDate start && date_lt mealDate end_ then
      match customCalories meal with
      | Some c => total + c
      | None =>
        match menuCalories meal with
        | Some c => total + c
        | None =>
          let menu := List.find (fun m =>
            match menuId meal with Some id => menu_id m =? id | None => false end) ms in
          total + match menu with Some m => menu_calories m | None => 0 end
        end
      end
    else total) l acc
  = acc + spec_total ms start end_ l.
Proof.
  revert acc. induction l as [| meal l IH]; intros acc.
  - unfold spec_total. cbn. lia.
  - cbn [fold_left]. rewrite IH. cbv zeta. rewrite inWindow_eq.
    unfold spec_total. cbn [List.filter].
    destruct (spec_inWindow start end_ meal); [| reflexivity].
    cbn [map sumZ]. unfold spec_effectiveCalories.
    destruct (customCalories meal); [lia |].
    destruct (menuCalories meal); [lia |].
    destruct (menuId meal); [lia |].
    rewrite find_none_false. lia.
Qed.

Lemma spec_total_Permutation `{Host} (ms : list Menu) (start end_ : Z) (l l' : list Meal) :
  Permutation l l' -> spec_total ms start end_ l = spec_total ms start end_ l'.
Proof.
  unfold spec_total.
  induction 1 as [| x l l' _ IH | x y l | l l' l'' _ IH1 _ IH2].
  - reflexivity.
  - cbn [List.filter]. destruct (spec_inWindow start end_ x); cbn [map sumZ]; lia.
  - cbn [List.filter].
    destruct (spec_inWindow start end_ x), (spec_inWindow start end_ y);
      cbn [map sumZ]; lia.
  - lia.
Qed.

(** On records of the data model, which carry every field,
    [calculateCaloriesForDateRange(start, end)] is the sum, over the meals
    whose date falls in [[start, end)], of the effective calories of the
    meal, and it does not depend on the order of the meals. (With older
    records, which lack fields, it is not: see part 29.) *)
Theorem calculateCaloriesForDateRange_sum `{Host} (st : Tracker) (start end_ : Z) :
  calculateCaloriesForDateRange st start end_
    = sumZ (map (spec_effectiveCalories (menus st))
               (List.filter (spec_inWindow start end_) (meals st)))
  /\ forall st' : Tracker,
       menus st' = menus st -> Permutation (meals st) (meals st') ->
       calculateCaloriesForDateRange st' start end_
         = calculateCaloriesForDateRange st start end_.
Proof.
  assert (Hsum : forall s : Tracker,
    calculateCaloriesForDateRange s start end_ = spec_total (menus s) start end_ (meals s)).
  { intros s. unfold calculateCaloriesForDateRange. rewrite reduce_from. lia. }
  split.
  - rewrite Hsum. reflexivity.
  - intros st' Hm Hp. rewrite !Hsum, Hm. symmetry.
    apply spec_total_Permutation, Hp.
Qed.

(** The monthly total is the sum over the window that stops at the midnight
    opening the last day of the month. *)
Lemma calculateMonthlyCalories_window `{Host} (st : Tracker) (date : Z) :
  calculateMonthlyCalories st date
  = spec_total (menus st)
      (newDate (getFullYear date) (getMonth date) 1)
      (newDate (getFullYear date) (getMonth date + 1) 1 - msPerDay)
      (meals st).
Proof.
  destruct (monthly_window st 0 date) as (_ & He & He' & _).
  rewrite <- He', He. unfold calculateMonthlyCalories, calculateCaloriesForDateRange.
  cbv zeta. rewrite reduce_from. lia.
Qed.

(** C1, on the code. For January 2024 the monthly window ends at the local
    midnight that opens January 31, not at the first day of February, and the
    meal dated 2024-01-31 is left out of the monthly total, while the goal
    counts all 31 days. (The general form is [monthly_window].) *)
Theorem monthly_total_misses_last_day :
  let s := @calculateStats JST january mid_january "monthly" mid_january in
  startDate s = @newDate JST 2024 0 1
  /\ endDate s = @newDate JST 2024 0 31
  /\ endDate s <> @newDate JST 2024 1 1
  /\ total s = 300
  /\ @calculateCaloriesForDateRange JST january (@newDate JST 2024 0 1) (@newDate JST 2024 1 1)
     = 800
  /\ goal s = 31 * 2000.
Proof. vm_compute. repeat split; discriminate. Qed.

(** ** Part 8. Archival *)

Lemma date_ge_lt (d : option Z) (c : Z) :
  d <> None -> date_ge d c = negb (date_lt d c).
Proof.
  destruct d as [x |]; [intros _ | congruence].
  cbn. rewrite Z.ltb_antisym, negb_involutive. reflexivity.
Qed.

Lemma filter_split {A : Type} (p q : A -> bool) (l : list A) :
  Forall (fun x => q x = negb (p x)) l ->
  Permutation (List.filter p l ++ List.filter q l) l.
Proof.
  induction 1 as [| x l Hx _ IH]; [constructor |].
  cbn [List.filter]. rewrite Hx. destruct (p x); cbn [negb app].
  - constructor. exact IH.
  - symmetry. apply Permutation_cons_app. symmetry. exact IH.
Qed.

Lemma getOldData_eq `{Host} (st : Tracker) (now : Z) :
  getOldData st now
  = List.filter (fun meal => date_lt (Date_parse (meal_date meal))
                               (setMonth now (getMonth now - 6))) (meals st).
Proof. reflexivity. Qed.

Lemma removeOldData_meals `{Host} (st : Tracker) (now : Z) :
  meals (removeOldData st now)
  = List.filter (fun meal => date_ge (Date_parse (meal_date meal))
                               (setMonth now (getMonth now - 6))) (meals st).
Proof. reflexivity. Qed.

Lemma removeOldData_persisted `{Host} (st : Tracker) (now : Z) :
  meals_persisted (removeOldData st now).
Proof.
  unfold meals_persisted, removeOldData, saveMeals, setItem.
  cbn [storage meals set_meals]. apply lookup_insert_eq.
Qed.

(** C8, as amended. With a fixed now and meals whose dates are valid dates,
    [getOldData()] returns exactly the meals dated strictly before now minus
    six months, [removeOldData()] leaves exactly the meals dated at or after
    that time, written back to storage, and the two lists partition the
    meals. *)
Theorem old_data_partition `{Host} (st : Tracker) (now : Z) :
  Forall (fun meal => Date_parse (meal_date meal) <> None) (meals st) ->
  let sixMonthsAgo := setMonth now (getMonth now - 6) in
  (forall meal, In meal (getOldData st now) <->
     In meal (meals st) /\
     exists d, Date_parse (meal_date meal) = Some d /\ d < sixMonthsAgo)
  /\ (forall meal, In meal (meals (removeOldData st now)) <->
        In meal (meals st) /\
        exists d, Date_parse (meal_date meal) = Some d /\ sixMonthsAgo <= d)
  /\ meals (removeOldData st now)
     = List.filter (fun meal => negb (date_lt (Date_parse (meal_date meal)) sixMonthsAgo))
         (meals st)
  /\ Permutation (getOldData st now ++ meals (removeOldData st now)) (meals st)
  /\ meals_persisted (removeOldData st now).
Proof.
  intros Hvalid. cbv zeta.
  assert (Hsaved : meals_persisted (removeOldData st now)) by apply removeOldData_persisted.
  rewrite getOldData_eq, removeOldData_meals.
  generalize (setMonth now (getMonth now - 6)). intros sixMonthsAgo.
  assert (Hv : forall meal, In meal (meals st) -> Date_parse (meal_date meal) <> None)
    by exact (proj1 (List.Forall_forall _ _) Hvalid).
  split; [| split; [| split; [| split]]].
  - intros meal. rewrite filter_In.
    split; intros [Hin Hd]; (split; [exact Hin |]).
    + destruct (Date_parse (meal_date meal)) as [d |]; [| discriminate].
      exists d. split; [reflexivity |]. cbn [date_lt] in Hd. lia.
    + destruct Hd as (d & -> & Hlt). cbn [date_lt]. lia.
  - intros meal. rewrite filter_In.
    split; intros [Hin Hd]; (split; [exact Hin |]).
    + destruct (Date_parse (meal_date meal)) as [d |]; [| discriminate].
      exists d. split; [reflexivity |]. cbn [date_ge] in Hd. lia.
    + destruct Hd as (d & -> & Hle). cbn [date_ge]. lia.
  - apply filter_ext_in. intros meal Hin. apply date_ge_lt, Hv, Hin.
  - apply filter_split, List.Forall_forall. intros meal Hin.
    apply date_ge_lt, Hv, Hin.
  - exact Hsaved.
Qed.

(** A meal whose date is not a valid date is on neither side of the six
    months: both comparisons with Invalid Date are false, so [getOldData()]
    does not return the meal and [removeOldData()] does not keep it. The
    meal is removed without having been returned as old, and the two results
    do not partition the meals. *)
Lemma removeOldData_drops_undated_meals `{Host} (st : Tracker) (now : Z) (meal : Meal) :
  In meal (meals st) ->
  Date_parse (meal_date meal) = None ->
  ~ In meal (getOldData st now)
  /\ ~ In meal (meals (removeOldData st now))
  /\ ~ Permutation (getOldData st now ++ meals (removeOldData st now)) (meals st).
Proof.
  intros Hin Hd. rewrite getOldData_eq, removeOldData_meals.
  generalize (setMonth now (getMonth now - 6)). intros sixMonthsAgo.
  assert (Hold : ~ In meal (List.filter
            (fun meal => date_lt (Date_parse (meal_date meal)) sixMonthsAgo) (meals st))).
  { intros H1. apply filter_In in H1. rewrite Hd in H1. destruct H1 as [_ H1].
    discriminate H1. }
  assert (Hkept : ~ In meal (List.filter
            (fun meal => date_ge (Date_parse (meal_date meal)) sixMonthsAgo) (meals st))).
  { intros H1. apply filter_In in H1. rewrite Hd in H1. destruct H1 as [_ H1].
    discriminate H1. }
  split; [exact Hold |]. split; [exact Hkept |].
  intros Hp. apply (Permutation_in meal (Permutation_sym Hp)) in Hin.
  apply in_app_or in Hin. tauto.
Qed.

(** ** Part 9. Menus, meals and the snapshot of a menu *)

Lemma deleteMenu_meals (st : Tracker) (id : Z) : meals (deleteMenu st id) = meals st.
Proof. reflexivity. Qed.

Lemma deleteMenu_menus (st : Tracker) (id : Z) (menu : Menu) :
  In menu (menus (deleteMenu st id)) <-> In menu (menus st) /\ menu_id menu <> id.
Proof.
  unfold deleteMenu. cbn [menus saveMenus setItem set_menus]. rewrite filter_In.
  destruct (Z.eqb_spec (menu_id menu) id); cbn [negb]; intuition congruence.
Qed.

(** C9. [deleteMenu(id)] removes the menus with that id and no other, and
    leaves the meals as they are. A meal added with a [menuId] that resolves
    to the menu [m] carries the name and the calories of [m], and still does
    after [m] is deleted. *)
Theorem snapshot_survives_deleteMenu (st : Tracker) (now : Z) (date : string)
    (menuId' : option Z) (m : Menu) (cn : option string) (cc : option Z) :
  spec_resolves st menuId' m ->
  let st1 := fst (addMeal st now date menuId' cn cc) in
  let meal := snd (addMeal st now date menuId' cn cc) in
  (forall (s : Tracker) (id' : Z),
     meals (deleteMenu s id') = meals s
     /\ forall menu, In menu (menus (deleteMenu s id')) <->
                     In menu (menus s) /\ menu_id menu <> id')
  /\ menuId meal = menuId'
  /\ menuName meal = Some (menu_name m)
  /\ menuCalories meal = Some (menu_calories m)
  /\ meals st1 = meals st ++ [meal]
  /\ meals (deleteMenu st1 (menu_id m)) = meals st ++ [meal]
  /\ List.find (fun m' => menu_id m' =? menu_id m) (menus (deleteMenu st1 (menu_id m))) = None.
Proof.
  destruct menuId' as [id |]; [| intros []].
  intros [Hid Hfind] st1 meal.
  assert (Hne : negb (id =? 0) = true) by (apply negb_true_iff, Z.eqb_neq, Hid).
  assert (Hm : menu_id m = id).
  { apply find_some in Hfind. destruct Hfind as [_ Hm]. apply Z.eqb_eq, Hm. }
  split; [intros s id'; split; [apply deleteMenu_meals | apply deleteMenu_menus] |].
  subst st1 meal. unfold addMeal. rewrite Hne, Hfind, Hm.
  cbn [fst snd menuId menuName menuCalories meals saveMeals setItem set_meals].
  repeat split.
  unfold deleteMenu. cbn [menus saveMenus saveMeals setItem set_menus set_meals].
  destruct (List.find _ (List.filter _ (menus st))) as [m' |] eqn:Hf; [| reflexivity].
  apply find_some in Hf. destruct Hf as [Hin Heq].
  apply filter_In in Hin. destruct Hin as [_ Hneq].
  rewrite Heq in Hneq. discriminate.
Qed.

(** ** Part 10. Merging by id *)

Lemma find_existsb {A : Type} (p : A -> bool) (l : list A) :
  existsb p l = match List.find p l with Some _ => true | None => false end.
Proof.
  induction l as [| x l IH]; [reflexivity |].
  cbn. destruct (p x); [reflexivity | exact IH].
Qed.

Lemma mergeData_cons {A : Type} (id : A -> Z) (cur new : list A) (item : A) :
  mergeData id cur (item :: new)
  = mergeData id (if spec_new_id id cur item then cur ++ [item] else cur) new.
Proof.
  unfold mergeData, spec_new_id. cbn [fold_left]. rewrite find_existsb.
  destruct (List.find _ cur); reflexivity.
Qed.


Lemma filter_twice {A : Type} (p q : A -> bool) (l : list A) :
  List.filter p (List.filter q l) = List.filter (fun x => q x && p x) l.
Proof.
  induction l as [| x l IH]; [reflexivity |].
  cbn [List.filter]. destruct (q x); cbn [List.filter andb]; rewrite IH; reflexivity.
Qed.

Lemma spec_new_id_app {A : Type} (id : A -> Z) (cur : list A) (x y : A) :
  spec_new_id id (cur ++ [x]) y = negb (id y =? id x) && spec_new_id id cur y.
Proof.
  unfold spec_new_id. rewrite existsb_app. cbn [existsb]. rewrite orb_false_r.
  rewrite negb_orb, (Z.eqb_sym (id x) (id y)). apply andb_comm.
Qed.

Lemma first_of_each_id_distinct {A : Type} (id : A -> Z) (l : list A) :
  List.NoDup (map id l) -> spec_first_of_each_id id l = l.
Proof.
  induction l as [| x l IH]; [reflexivity |].
  cbn [map]. intros Hnd. apply List.NoDup_cons_iff in Hnd. destruct Hnd as [Hx Hnd].
  cbn [spec_first_of_each_id]. rewrite (IH Hnd). f_equal.
  apply forallb_filter_id, forallb_forall. intros y Hy.
  apply negb_true_iff, Z.eqb_neq. intros He. apply Hx. rewrite <- He.
  apply in_map, Hy.
Qed.

(** C6, as amended. In a merge import the current entries are kept as they
    are, in place, and exactly the imported items whose id is not in the
    current collection are appended, in their order, of several imported items
    with one id only the first; with pairwise distinct imported ids these are
    all the imported items with a new id, and importing one id that is present
    and one that is new adds exactly one entry. *)
Theorem mergeData_appends_new_ids {A : Type} (id : A -> Z) (cur new : list A) :
  mergeData id cur new
    = cur ++ List.filter (spec_new_id id cur) (spec_first_of_each_id id new)
  /\ (List.NoDup (map id new) ->
      mergeData id cur new = cur ++ List.filter (spec_new_id id cur) new)
  /\ forall a b : A,
       new = [a; b] -> spec_new_id id cur a = false -> spec_new_id id cur b = true ->
       mergeData id cur new = cur ++ [b].
Proof.
  assert (Heq : forall cur, mergeData id cur new
    = cur ++ List.filter (spec_new_id id cur) (spec_first_of_each_id id new)).
  { clear cur. induction new as [| x new IH]; intros cur.
    - cbn. symmetry. apply app_nil_r.
    - rewrite mergeData_cons, IH. cbn [spec_first_of_each_id List.filter].
      rewrite filter_twice. destruct (spec_new_id id cur x) eqn:Hx.
      + rewrite <- app_assoc. cbn [app]. do 2 f_equal.
        apply filter_ext. intros y. apply spec_new_id_app.
      + f_equal. apply filter_ext_in. intros y _.
        destruct (Z.eqb_spec (id y) (id x)) as [He |]; [| reflexivity].
        cbn [negb andb]. unfold spec_new_id in *. rewrite He. exact Hx. }
  split; [apply Heq |]. split.
  - intros Hnd. rewrite Heq, (first_of_each_id_distinct id new Hnd). reflexivity.
  - intros a b -> Ha Hb. rewrite Heq. cbn [spec_first_of_each_id List.filter].
    rewrite Ha. destruct (Z.eqb_spec (id b) (id a)) as [He |]; cbn [negb List.filter].
    + unfold spec_new_id in *. rewrite He, Ha in Hb. discriminate Hb.
    + rewrite Hb. reflexivity.
Qed.

(** C6, as stated, fails on an import in which two items share a new id: the
    items whose id is not in the current collection are both of them, and only
    the first is appended. *)
Lemma mergeData_one_entry_for_an_id :
  List.filter (spec_new_id menu_id [soup]) [rice; rice'] = [rice; rice']
  /\ mergeData menu_id [soup] [rice; rice'] = [soup; rice]
  /\ mergeData menu_id [soup] [rice; rice']
     <> [soup] ++ List.filter (spec_new_id menu_id [soup]) [rice; rice'].
Proof. repeat split. discriminate. Qed.

(** ** Part 11. Export and import *)

Lemma Menu_of_to_json (m : Menu) : Menu_of_json (Menu_to_json m) = Some m.
Proof. destruct m; reflexivity. Qed.

Lemma Meal_of_to_json (m : Meal) : Meal_of_json (Meal_to_json m) = Some m.
Proof. destruct m as [i d [mi |] [mn |] [mc |] [cn |] [cc |]]; reflexivity. Qed.

Lemma Goals_of_to_json (g : Goals) : Goals_of_json (Goals_to_json g) = Some g.
Proof. destruct g as [d [u |]]; reflexivity. Qed.

Lemma mapM_of_to_json {A : Type} (of_json : value -> option A) (to_json : A -> value)
    (l : list A) :
  (forall x, of_json (to_json x) = Some x) ->
  mapM of_json (map to_json l) = Some l.
Proof.
  intros Hx. induction l as [| x l IH]; [reflexivity |].
  cbn. rewrite Hx. cbn. rewrite IH. reflexivity.
Qed.

Lemma as_menus_to_json (l : list Menu) :
  as_menus (Some (JArr (map Menu_to_json l))) = Some l.
Proof. apply mapM_of_to_json, Menu_of_to_json. Qed.

Lemma as_meals_to_json (l : list Meal) :
  as_meals (Some (JArr (map Meal_to_json l))) = Some l.
Proof. apply mapM_of_to_json, Meal_of_to_json. Qed.

(** A merge import of menus, and one of meals, is [mergeData] on the current
    and the imported list. *)
Lemma importMenus_merge (st : Tracker) (data : value) (options : ImportOptions)
    (imported : list Menu) :
  merge options = true -> of_menus (types options) = true ->
  get data "menus" = Some (JArr (map Menu_to_json imported)) ->
  importMenus st data (validateImportData data) options
  = Some (saveMenus (set_menus st (mergeData menu_id (menus st) imported))).
Proof.
  intros Hm Ht Hg. unfold importMenus, validateImportData.
  cbn [details of_menus]. rewrite Hg, Ht, Hm, as_menus_to_json. reflexivity.
Qed.

Lemma importMeals_merge (st : Tracker) (data : value) (options : ImportOptions)
    (imported : list Meal) :
  merge options = true -> of_meals (types options) = true ->
  get data "meals" = Some (JArr (map Meal_to_json imported)) ->
  importMeals st data (validateImportData data) options
  = Some (saveMeals (set_meals st (mergeData meal_id (meals st) imported))).
Proof.
  intros Hm Ht Hg. unfold importMeals, validateImportData.
  cbn [details of_meals]. rewrite Hg, Ht, Hm, as_meals_to_json. reflexivity.
Qed.

(** The time stamp of an export is never the empty string. *)
Lemma toISOString_truthy (t : Z) : truthy (Some (JStr (toISOString t))) = true.
Proof.
  unfold toISOString. cbv zeta.
  destruct (_ && _); [| destruct (_ <? _)]; reflexivity.
Qed.

Lemma importData_accepted (st : Tracker) (file data : value) (options : ImportOptions) :
  get file "data" = Some data ->
  truthy (Some data) = true ->
  truthy (get file "exportedAt") = true ->
  isValid (validateImportData data) = true ->
  importData st file options = importSections st data options.
Proof.
  intros Hd Ht He Hv. unfold importData.
  destruct file; try discriminate Hd.
  rewrite Hd, Ht, He. cbn [negb orb]. unfold default. cbn [from_option id].
  rewrite Hv. reflexivity.
Qed.


(** Validation is the disjunction of the three structural tests: an array is
    always truthy, and a value with a numeric [daily] is an object. *)
Lemma validateImportData_spec (data : value) :
  of_menus (details (validateImportData data)) = spec_menus_present data
  /\ of_meals (details (validateImportData data)) = spec_meals_present data
  /\ of_goals (details (validateImportData data)) = spec_goals_present data
  /\ isValid (validateImportData data)
     = spec_menus_present data || spec_meals_present data || spec_goals_present data.
Proof.
  assert (Ha : forall v, truthy v && isArray v = isArray v).
  { intros [[| b | n | s | l | props] |]; cbn [truthy isArray];
      rewrite ?andb_false_r; reflexivity. }
  assert (Hg : of_goals (details (validateImportData data)) = spec_goals_present data).
  { unfold validateImportData, spec_goals_present. cbn [details of_goals].
    destruct (get data "goals") as [[| b | n | s | l | props] |]; cbn [truthy get is_number andb];
      try reflexivity.
    - destruct b; reflexivity.
    - destruct (negb _); reflexivity.
    - destruct (negb _); reflexivity. }
  unfold validateImportData in *. cbn [details isValid of_menus of_meals of_goals] in *.
  unfold spec_menus_present, spec_meals_present. rewrite !Ha, Hg. repeat split.
Qed.

Lemma importSections_not_Failure (st st' : Tracker) (data : value) (options : ImportOptions)
    (e : ImportError) :
  importSections st data options <> Some (st', Failure e).
Proof.
  unfold importSections.
  destruct (importMenus _ _ _ _) as [st1 |]; [| discriminate]. cbn [mbind option_bind].
  destruct (importMeals _ _ _ _) as [st2 |]; [| discriminate]. cbn [mbind option_bind].
  destruct (importGoals _ _ _ _) as [st3 |]; discriminate.
Qed.

(** C10. An empty array counts as a section that is present: the payload
    [{menus: []}] is valid with [details.menus] true, and importing it with
    [merge: false] and the menus type enabled replaces the whole menu list by
    the empty list (and writes it back), whatever the list was. *)
Theorem import_empty_menus_replaces (st : Tracker) (exportedAt : value)
    (importMeals' importGoals' : bool) :
  truthy (Some exportedAt) = true ->
  let data := JObj [("menus", JArr [])] in
  let options := {| merge := false;
                    types := {| of_menus := true; of_meals := importMeals';
                                of_goals := importGoals' |} |} in
  isValid (validateImportData data) = true
  /\ of_menus (details (validateImportData data)) = true
  /\ exists st' : Tracker,
       importData st (JObj [("data", data); ("exportedAt", exportedAt)]) options
         = Some (st', Success {| of_menus := true; of_meals := false; of_goals := false |})
       /\ menus st' = []
       /\ menus_persisted st'
       /\ meals st' = meals st
       /\ goals st' = goals st.
Proof.
  intros He data options. split; [reflexivity |]. split; [reflexivity |].
  rewrite (importData_accepted st _ data); [| reflexivity | reflexivity | exact He | reflexivity].
  eexists. split; [reflexivity |].
  repeat split. apply lookup_insert_eq.
Qed.

(** The theorem of C10 on a tracker that holds one menu. *)
Lemma import_empty_menus_replaces_witness :
  truthy (Some (JStr "2024-01-15T03:00:00.000Z")) = true
  /\ exists st' : Tracker,
       importData with_rice
         (JObj [("data", JObj [("menus", JArr [])]);
                ("exportedAt", JStr "2024-01-15T03:00:00.000Z")])
         defaultImportOptions
         = Some (st', Success {| of_menus := true; of_meals := false; of_goals := false |})
       /\ menus st' = [].
Proof.
  split; [reflexivity |].
  destruct (import_empty_menus_replaces with_rice
              (JStr "2024-01-15T03:00:00.000Z") true true eq_refl)
    as (_ & _ & st' & Hi & Hm & _).
  exists st'. split; [exact Hi | exact Hm].
Defined.

(** ** Part 12. Persistence *)

Lemma addMenu_persisted (st : Tracker) (now : Z) (name : string) (calories : Z) :
  menus_persisted (fst (addMenu st now name calories)).
Proof. apply lookup_insert_eq. Qed.

Lemma deleteMenu_persisted (st : Tracker) (id : Z) : menus_persisted (deleteMenu st id).
Proof. apply lookup_insert_eq. Qed.

Lemma addMeal_persisted (st : Tracker) (now : Z) (date : string) (id : option Z)
    (cn : option string) (cc : option Z) :
  meals_persisted (fst (addMeal st now date id cn cc)).
Proof. apply lookup_insert_eq. Qed.

Lemma deleteMeal_persisted (st : Tracker) (id : Z) : meals_persisted (deleteMeal st id).
Proof. apply lookup_insert_eq. Qed.

(** [saveGoals] writes the daily goal, and the profile when it is given. *)
Lemma saveGoals_persisted (st : Tracker) (daily' : Z) (userData' : value) :
  goals_persisted st -> goals_persisted (saveGoals st daily' userData').
Proof.
  intros [_ Hu]. unfold saveGoals, goals_persisted.
  destruct (truthy (Some userData')) eqn:Ht;
    cbn [storage goals daily userData setItem set_goals].
  - split.
    + rewrite lookup_insert_ne by discriminate. apply lookup_insert_eq.
    + intros _. apply lookup_insert_eq.
  - split; [apply lookup_insert_eq |].
    intros Hx. rewrite lookup_insert_ne by discriminate. apply Hu, Hx.
Qed.

(** [importData] never writes the key [userData]. *)
Lemma importData_keeps_stored_userData (st st' : Tracker) (file : value)
    (options : ImportOptions) (r : ImportResult) :
  importData st file options = Some (st', r) ->
  storage st' !! "userData" = storage st !! "userData".
Proof.
  assert (Hs : forall s s' data, importSections s data options = Some (s', r) ->
                 storage s' !! "userData" = storage s !! "userData").
  { intros s s' data. unfold importSections, importMenus, importMeals, importGoals.
    repeat match goal with
      | |- context [if ?c then _ else _] => destruct c
      | |- context [as_menus ?x] => destruct (as_menus x)
      | |- context [as_meals ?x] => destruct (as_meals x)
      | |- context [as_goals ?x] => destruct (as_goals x)
      | |- _ => progress cbn [mbind option_bind]
      end;
      intros Hr; try discriminate Hr; injection Hr as <- _;
      cbn [storage saveMenus saveMeals setItem set_menus set_meals set_goals];
      rewrite ?lookup_insert_ne by discriminate; reflexivity. }
  unfold importData. destruct file;
    repeat match goal with
      | |- context [if ?c then _ else _] => destruct c
      end;
    intros Hr; try (injection Hr as <- _; reflexivity);
    eapply Hs; exact Hr.
Qed.

(** What [importData] imports, it writes back, but for the profile: the
    menus under [menus], the meals under [meals], and of the goals the daily
    goal under [dailyGoal]. *)
Lemma importData_persisted (st st' : Tracker) (file : value) (options : ImportOptions)
    (imported : Sections) :
  importData st file options = Some (st', Success imported) ->
  (of_menus imported = true -> menus_persisted st')
  /\ (of_meals imported = true -> meals_persisted st')
  /\ (of_goals imported = true ->
      storage st' !! "dailyGoal" = Some (JNum (daily (goals st')))).
Proof.
  assert (Hs : forall data, importSections st data options = Some (st', Success imported) ->
    (of_menus imported = true -> menus_persisted st')
    /\ (of_meals imported = true -> meals_persisted st')
    /\ (of_goals imported = true ->
        storage st' !! "dailyGoal" = Some (JNum (daily (goals st'))))).
  { intros data. unfold importSections, importMenus, importMeals, importGoals.
    unfold menus_persisted, meals_persisted.
    destruct (of_menus (details (validateImportData data)) && of_menus (types options));
      [destruct (as_menus _) as [l1 |]; [| discriminate] |];
      cbn [mbind option_bind];
      (destruct (of_meals (details (validateImportData data)) && of_meals (types options));
        [destruct (as_meals _) as [l2 |]; [| discriminate] |]);
      cbn [mbind option_bind];
      (destruct (of_goals (details (validateImportData data)) && of_goals (types options));
        [destruct (as_goals _) as [g |]; [| discriminate] |]);
      cbn [mbind option_bind];
      intros Hr; injection Hr as <- <-;
      cbn [storage menus meals goals saveMenus saveMeals setItem set_menus set_meals
           set_goals of_menus of_meals of_goals];
      repeat split; intros Hf; try discriminate Hf;
      rewrite ?lookup_insert_eq; try reflexivity;
      repeat (rewrite lookup_insert_ne by discriminate; rewrite ?lookup_insert_eq);
      reflexivity. }
  unfold importData. destruct file;
    repeat match goal with
      | |- context [if ?c then _ else _] => destruct c
      end;
    intros Hr; try discriminate Hr; eapply Hs; exact Hr.
Qed.

(** C3, on the code. A tracker whose goals are written back imports a file
    with a goals section: the imported profile is in memory, the stored
    profile is still the former one, so the goals are no longer written back
    in full, and a tracker started from this storage has the former profile
    with the new daily goal. *)
Theorem importData_goals_profile_not_persisted :
  goals_persisted with_profile
  /\ exists st' : Tracker,
       importData with_profile goals_file defaultImportOptions
         = Some (st', Success {| of_menus := false; of_meals := false; of_goals := true |})
       /\ goals st' = {| daily := 1800; userData := Some (profile "41") |}
       /\ storage st' !! "dailyGoal" = Some (JNum 1800)
       /\ storage st' !! "userData" = Some (profile "40")
       /\ ~ goals_persisted st'
       /\ (goals <$> newCalorieTracker (storage st'))
          = Some {| daily := 1800; userData := Some (profile "40") |}.
Proof.
  split.
  - split; [| intros _]; vm_compute; reflexivity.
  - eexists. split; [vm_compute; reflexivity |].
    split; [reflexivity |].
    split; [vm_compute; reflexivity |].
    split; [vm_compute; reflexivity |].
    split; [| vm_compute; reflexivity].
    intros [_ Hu]. specialize (Hu eq_refl). vm_compute in Hu. discriminate Hu.
Qed.

(** ** Part 13. The theorems at sample data *)

(** The theorem of C8 on the January tracker, seen on 2024-07-20: the meal of
    2024-01-15 is old, the meal of 2024-01-31 stays. *)
Lemma old_data_partition_witness :
  Forall (fun meal => @Date_parse JST (meal_date meal) <> None) (meals january)
  /\ @getOldData JST january late_july = [customMeal 1 "2024-01-15" "lunch" 300]
  /\ meals (@removeOldData JST january late_july) = [customMeal 2 "2024-01-31" "dinner" 500]
  /\ Permutation (@getOldData JST january late_july
                    ++ meals (@removeOldData JST january late_july)) (meals january).
Proof.
  assert (Hv : Forall (fun meal => @Date_parse JST (meal_date meal) <> None) (meals january))
    by (repeat constructor; discriminate).
  split; [exact Hv |].
  destruct (@old_data_partition JST january late_july Hv) as (_ & _ & _ & Hp & _).
  split; [vm_compute; reflexivity |]. split; [vm_compute; reflexivity | exact Hp].
Defined.

(** The theorem of C9 on a meal of rice. *)
Lemma snapshot_survives_deleteMenu_witness :
  spec_resolves with_rice (Some 1700000000001) rice
  /\ menuName (snd (addMeal with_rice 1700000000500 "2024-01-16" (Some 1700000000001)
                      None None)) = Some "rice"
  /\ menuCalories (snd (addMeal with_rice 1700000000500 "2024-01-16" (Some 1700000000001)
                          None None)) = Some 250
  /\ meals (deleteMenu (fst (addMeal with_rice 1700000000500 "2024-01-16"
                              (Some 1700000000001) None None)) 1700000000001)
     = meals with_rice
         ++ [snd (addMeal with_rice 1700000000500 "2024-01-16" (Some 1700000000001)
                    None None)].
Proof.
  assert (Hr : spec_resolves with_rice (Some 1700000000001) rice).
  { split; [discriminate | reflexivity]. }
  split; [exact Hr |].
  destruct (snapshot_survives_deleteMenu with_rice 1700000000500 "2024-01-16"
              (Some 1700000000001) rice None None Hr) as (_ & _ & Hn & Hc & _ & Hm & _).
  split; [exact Hn |]. split; [exact Hc | exact Hm].
Defined.

(** A merge at sample data: rice is present and keeps its calories, soup is
    new. *)
Example mergeData_rice_and_soup : mergeData menu_id [rice] [rice'; soup] = [rice; soup].
Proof. reflexivity. Qed.

(** A stored date that is not a date is on neither side of the six months. *)
Example undated_meal_on_neither_side :
  let st := set_meals january [customMeal 3 "someday" "snack" 100] in
  @getOldData JST st late_july = [] /\ meals (@removeOldData JST st late_july) = [].
Proof. split; reflexivity. Qed.

(** C8, as stated, fails on the January tracker with a third meal, dated
    "someday", seen on 2024-07-20: the meal of 2024-01-15 is returned as old,
    the meal of 2024-01-31 is kept, and the third meal is on neither side, so
    that the two results do not partition the meals. *)
Lemma old_data_not_partitioned :
  @Date_parse JST "someday" = None
  /\ @getOldData JST (set_meals january (meals january ++ [customMeal 3 "someday" "snack" 100]))
       late_july
     = [customMeal 1 "2024-01-15" "lunch" 300]
  /\ meals (@removeOldData JST
              (set_meals january (meals january ++ [customMeal 3 "someday" "snack" 100]))
              late_july)
     = [customMeal 2 "2024-01-31" "dinner" 500]
  /\ ~ Permutation
        (@getOldData JST
           (set_meals january (meals january ++ [customMeal 3 "someday" "snack" 100]))
           late_july
         ++ meals (@removeOldData JST
                     (set_meals january
                        (meals january ++ [customMeal 3 "someday" "snack" 100]))
                     late_july))
        (meals january ++ [customMeal 3 "someday" "snack" 100]).
Proof.
  assert (Hd : @Date_parse JST (meal_date (customMeal 3 "someday" "snack" 100)) = None)
    by reflexivity.
  split; [exact Hd |]. split; [vm_compute; reflexivity |]. split; [vm_compute; reflexivity |].
  assert (Hin : In (customMeal 3 "someday" "snack" 100)
                  (meals (set_meals january
                            (meals january ++ [customMeal 3 "someday" "snack" 100]))))
    by (right; right; left; reflexivity).
  destruct (@removeOldData_drops_undated_meals JST _ late_july _ Hin Hd) as (_ & _ & Hp).
  exact Hp.
Qed.

(** ** Part 14. The calendar of a day number *)

Lemma DayFromYear_unique (a b d : Z) :
  DayFromYear a <= d < DayFromYear (a + 1) ->
  DayFromYear b <= d < DayFromYear (b + 1) -> a = b.
Proof.
  unfold DayFromYear. intros Ha Hb. Z.to_euclidean_division_equations. lia.
Qed.

(** Day [d] of month [m] of year [y] is read back from its day number. *)
Lemma civil_of_MakeDay (y m d t : Z) :
  0 <= m <= 11 ->
  1 <= d <= spec_daysInMonth (DaysInYear y =? 366) m ->
  Day t = MakeDay y m d ->
  YearFromTime t = y /\ MonthFromTime t = m /\ DateFromTime t = d.
Proof.
  intros Hm Hd Ht.
  destruct (div_mod_small m Hm) as [Hq Hr].
  unfold MakeDay in Ht. rewrite Hq, Hr, Z.add_0_r in Ht.
  assert (Hc : m = 0 \/ m = 1 \/ m = 2 \/ m = 3 \/ m = 4 \/ m = 5 \/ m = 6 \/ m = 7
               \/ m = 8 \/ m = 9 \/ m = 10 \/ m = 11) by lia.
  assert (Hy : YearFromTime t = y).
  { apply (DayFromYear_unique _ _ (Day t)); [apply YearFromTime_spec |].
    rewrite DayFromYear_succ, Ht.
    destruct (DaysInYear_cases y) as [E | E]; rewrite E in *;
      cbn [Z.eqb Pos.eqb] in *;
      repeat destruct Hc as [Hc | Hc]; subst m; cbn [monthStart spec_daysInMonth] in *; lia. }
  split; [exact Hy |].
  unfold DateFromTime, MonthFromTime, DayWithinYear, InLeapYear. rewrite Hy, Ht.
  destruct (DaysInYear_cases y) as [E | E]; rewrite E in *;
    cbn [Z.eqb Pos.eqb] in *;
    repeat destruct Hc as [Hc | Hc]; subst m; cbn [monthStart spec_daysInMonth] in *;
    repeat match goal with |- context [?a <? ?b] => destruct (Z.ltb_spec a b); try lia end;
    cbn [monthStart]; lia.
Qed.

Lemma LocalTime_UTC `{Host} (t : Z) : LocalTime (UTC t) = t.
Proof. unfold LocalTime, UTC. lia. Qed.

Lemma Day_MakeDate (day time : Z) :
  0 <= time < msPerDay -> Day (MakeDate day time) = day.
Proof.
  intros Ht. unfold Day, MakeDate.
  rewrite Z.add_comm, Z.div_add by discriminate. rewrite Z.div_small by exact Ht. lia.
Qed.

Lemma spec_daysInMonth_range (leapYear : bool) (m : Z) :
  28 <= spec_daysInMonth leapYear m <= 31.
Proof.
  unfold spec_daysInMonth.
  destruct leapYear; destruct m as [| p | p]; try lia;
    repeat (destruct p as [p | p |]; try lia).
Qed.

(** Day 0 of the next month is the last day of the month. *)
Lemma MakeDay_last_day (y m : Z) :
  0 <= m <= 11 ->
  MakeDay y (m + 1) 0 = MakeDay y m (spec_daysInMonth (DaysInYear y =? 366) m).
Proof.
  intros Hm.
  assert (Hc : m = 0 \/ m = 1 \/ m = 2 \/ m = 3 \/ m = 4 \/ m = 5 \/ m = 6 \/ m = 7
               \/ m = 8 \/ m = 9 \/ m = 10 \/ m = 11) by lia.
  unfold MakeDay.
  repeat destruct Hc as [Hc | Hc]; subst m;
    match goal with
    | |- context [(?a + 1) / 12] =>
      let q := eval vm_compute in ((a + 1) / 12) in
      let r := eval vm_compute in ((a + 1) mod 12) in
      change ((a + 1) / 12) with q; change ((a + 1) mod 12) with r
    end;
    match goal with
    | |- context [?a / 12] =>
      let q := eval vm_compute in (a / 12) in
      let r := eval vm_compute in (a mod 12) in
      change (a / 12) with q; change (a mod 12) with r
    end;
    cbn [monthStart spec_daysInMonth]; rewrite ?Z.add_0_r; rewrite ?DayFromYear_succ;
    destruct (DaysInYear_cases y) as [Hy | Hy]; rewrite ?Hy;
    cbn [Z.eqb Pos.eqb]; lia.
Qed.

(** X1. The goal of a period is the daily goal for a day and seven times the
    daily goal for a week. For a month it is the daily goal times a number of
    days from 28 to 31: for a reference date whose local year is not one of 0
    to 99, the number of days of the month of the reference date (February
    has 29 in a leap year); for a local year [y] from 0 to 99, which
    [new Date(y, ...)] reads as 1900 + [y], the number of days that the
    month has in the year 1900 + [y], not in the year of the reference
    date. *)
Theorem getGoalForPeriod_days `{Host} (st : Tracker) (targetDate : Z) :
  getGoalForPeriod st "daily" targetDate = daily (goals st)
  /\ getGoalForPeriod st "weekly" targetDate = daily (goals st) * 7
  /\ (~ (0 <= getFullYear targetDate <= 99) ->
      getGoalForPeriod st "monthly" targetDate
      = daily (goals st)
        * spec_daysInMonth (DaysInYear (getFullYear targetDate) =? 366)
            (getMonth targetDate))
  /\ (0 <= getFullYear targetDate <= 99 ->
      getGoalForPeriod st "monthly" targetDate
      = daily (goals st)
        * spec_daysInMonth (DaysInYear (1900 + getFullYear targetDate) =? 366)
            (getMonth targetDate))
  /\ (exists days, 28 <= days <= 31
        /\ getGoalForPeriod st "monthly" targetDate = daily (goals st) * days).
Proof.
  split; [reflexivity |]. split; [reflexivity |].
  assert (Hgen : getGoalForPeriod st "monthly" targetDate
                 = daily (goals st)
                   * spec_daysInMonth
                       (DaysInYear (spec_fullYear (getFullYear targetDate)) =? 366)
                       (getMonth targetDate));
    [| split; [| split];
       [intros Hy; rewrite Hgen; unfold spec_fullYear;
        destruct (Z.leb_spec 0 (getFullYear targetDate));
          destruct (Z.leb_spec (getFullYear targetDate) 99); cbn [andb];
          first [reflexivity | lia]
       | intros Hy; rewrite Hgen; unfold spec_fullYear;
         destruct (Z.leb_spec 0 (getFullYear targetDate));
           destruct (Z.leb_spec (getFullYear targetDate) 99); cbn [andb];
           first [reflexivity | lia]
       | eexists; split; [apply spec_daysInMonth_range | exact Hgen]]].
  change (getGoalForPeriod st "monthly" targetDate)
    with (daily (goals st)
          * getDate (newDate (getFullYear targetDate) (getMonth targetDate + 1) 0)).
  f_equal. unfold getDate, newDate. cbv zeta. rewrite LocalTime_UTC.
  fold (spec_fullYear (getFullYear targetDate)).
  set (yr := spec_fullYear (getFullYear targetDate)).
  pose proof (MonthFromTime_range (LocalTime targetDate)) as Hm. fold (getMonth targetDate) in Hm.
  pose proof (spec_daysInMonth_range (DaysInYear yr =? 366) (getMonth targetDate)) as Hr.
  apply (civil_of_MakeDay yr (getMonth targetDate)); [exact Hm | lia |].
  rewrite Day_MakeDate by (vm_compute; split; [discriminate | reflexivity]).
  apply MakeDay_last_day, Hm.
Qed.

(** ** Part 15. The windows of the statistics *)

Lemma TimeWithinDay_range (t : Z) : 0 <= TimeWithinDay t < msPerDay.
Proof. unfold TimeWithinDay. apply Z.mod_pos_bound. reflexivity. Qed.

Lemma Day_shift (t n : Z) : Day (t + n * msPerDay) = Day t + n.
Proof. unfold Day. apply Z.div_add. discriminate. Qed.

Lemma TimeWithinDay_shift (t n : Z) : TimeWithinDay (t + n * msPerDay) = TimeWithinDay t.
Proof. unfold TimeWithinDay. apply Z.mod_add. discriminate. Qed.

(** X2. The weekly window starts on the Sunday at or before the reference
    date, at the time of day of the reference date (not at midnight), lasts
    seven days and holds the reference date. *)
Theorem weekly_window_from_sunday `{Host} (st : Tracker) (now targetDate : Z) :
  let s := calculateStats st now "weekly" targetDate in
  getDay (startDate s) = 0
  /\ startDate s = targetDate - getDay targetDate * msPerDay
  /\ 0 <= getDay targetDate <= 6
  /\ TimeWithinDay (LocalTime (startDate s)) = TimeWithinDay (LocalTime targetDate)
  /\ endDate s = startDate s + 7 * msPerDay
  /\ startDate s <= targetDate < endDate s.
Proof.
  destruct (weekly_window st now targetDate) as [Hs He]. cbv zeta in *.
  rewrite He, Hs, setDate_shift.
  assert (Hw : 0 <= getDay targetDate <= 6).
  { unfold getDay, WeekDay. pose proof (Z.mod_pos_bound (Day (LocalTime targetDate) + 4) 7).
    lia. }
  assert (Hstart : targetDate + (getDate targetDate - getDay targetDate - getDate targetDate)
                     * msPerDay = targetDate - getDay targetDate * msPerDay) by lia.
  rewrite Hstart.
  assert (Hl : LocalTime (targetDate - getDay targetDate * msPerDay)
               = LocalTime targetDate + (- getDay targetDate) * msPerDay).
  { unfold LocalTime. lia. }
  split.
  - unfold getDay at 1. rewrite Hl. unfold WeekDay. rewrite Day_shift.
    unfold getDay, WeekDay. Z.to_euclidean_division_equations. lia.
  - split; [reflexivity |]. split; [exact Hw |]. split.
    + rewrite Hl. apply TimeWithinDay_shift.
    + split; [reflexivity |]. unfold msPerDay. lia.
Qed.

(** X3. For a reference date whose year is not one of 0 to 99, the daily
    window is the local calendar day of the reference date: it starts at the
    local midnight at or before it and ends one day later. *)
Theorem daily_window_is_the_day `{Host} (st : Tracker) (now targetDate : Z) :
  ~ (0 <= getFullYear targetDate <= 99) ->
  let s := calculateStats st now "daily" targetDate in
  TimeWithinDay (LocalTime (startDate s)) = 0
  /\ Day (LocalTime (startDate s)) = Day (LocalTime targetDate)
  /\ endDate s = startDate s + msPerDay
  /\ startDate s <= targetDate < endDate s.
Proof.
  intros Hy. destruct (daily_window st now targetDate) as [Hs He]. cbv zeta in *.
  rewrite He, Hs. clear Hs He.
  assert (Hstart : newDate (getFullYear targetDate) (getMonth targetDate) (getDate targetDate)
                   = UTC (Day (LocalTime targetDate) * msPerDay)).
  { unfold newDate. cbv zeta.
    destruct (Z.leb_spec 0 (getFullYear targetDate));
      destruct (Z.leb_spec (getFullYear targetDate) 99); cbn [andb]; try lia;
      unfold getFullYear, getMonth, getDate; rewrite MakeDay_of_time;
      unfold MakeDate, MakeTime; f_equal; lia. }
  rewrite Hstart, LocalTime_UTC.
  pose proof (Day_TimeWithinDay (LocalTime targetDate)) as Hd.
  pose proof (TimeWithinDay_range (LocalTime targetDate)) as Hr.
  split.
  - unfold TimeWithinDay. apply Z.mod_mul. discriminate.
  - split.
    + unfold Day at 1. apply Z.div_mul. discriminate.
    + split; [reflexivity |]. unfold UTC, LocalTime in *. lia.
Qed.

(** The theorem of X3 at noon of 2024-01-15 in Japan. *)
Lemma daily_window_is_the_day_witness :
  ~ (0 <= @getFullYear JST mid_january <= 99)
  /\ startDate (@calculateStats JST january mid_january "daily" mid_january) <= mid_january
  /\ mid_january < endDate (@calculateStats JST january mid_january "daily" mid_january).
Proof.
  assert (Hy : ~ (0 <= @getFullYear JST mid_january <= 99)).
  { vm_compute. intros [_ Hc]. apply Hc. reflexivity. }
  split; [exact Hy |].
  destruct (@daily_window_is_the_day JST january mid_january mid_january Hy)
    as (_ & _ & _ & Hc).
  exact Hc.
Defined.

Lemma MakeDay_date (y m a b : Z) : MakeDay y m a = MakeDay y m b + (a - b).
Proof. unfold MakeDay. lia. Qed.

(** X4. For a reference date whose year is not one of 0 to 99, the monthly
    window starts at the local midnight of the first day of the month of the
    reference date, at or before the reference date, and spans the days of
    that month but the last one. *)
Theorem monthly_window_from_first_day `{Host} (st : Tracker) (now targetDate : Z) :
  ~ (0 <= getFullYear targetDate <= 99) ->
  let s := calculateStats st now "monthly" targetDate in
  getFullYear (startDate s) = getFullYear targetDate
  /\ getMonth (startDate s) = getMonth targetDate
  /\ getDate (startDate s) = 1
  /\ TimeWithinDay (LocalTime (startDate s)) = 0
  /\ startDate s <= targetDate
  /\ endDate s
     = startDate s
       + (spec_daysInMonth (DaysInYear (getFullYear targetDate) =? 366) (getMonth targetDate)
          - 1) * msPerDay.
Proof.
  intros Hy. destruct (monthly_window st now targetDate) as (Hs & He & _). cbv zeta in *.
  rewrite He, Hs. clear Hs He.
  assert (Hyr : spec_fullYear (getFullYear targetDate) = getFullYear targetDate).
  { unfold spec_fullYear.
    destruct (Z.leb_spec 0 (getFullYear targetDate));
      destruct (Z.leb_spec (getFullYear targetDate) 99); cbn [andb]; lia. }
  pose proof (MonthFromTime_range (LocalTime targetDate)) as Hm.
  fold (getMonth targetDate) in Hm.
  assert (Hnew : forall m d, newDate (getFullYear targetDate) m d
                   = UTC (MakeDay (getFullYear targetDate) m d * msPerDay)).
  { intros m d. unfold newDate. cbv zeta. fold (spec_fullYear (getFullYear targetDate)).
    rewrite Hyr. unfold MakeDate, MakeTime. f_equal. lia. }
  rewrite !Hnew.
  pose proof (spec_daysInMonth_range (DaysInYear (getFullYear targetDate) =? 366)
                (getMonth targetDate)) as Hr.
  assert (Hday : Day (MakeDay (getFullYear targetDate) (getMonth targetDate) 1 * msPerDay)
                 = MakeDay (getFullYear targetDate) (getMonth targetDate) 1).
  { unfold Day. apply Z.div_mul. discriminate. }
  assert (H1 : 1 <= 1 <= spec_daysInMonth (DaysInYear (getFullYear targetDate) =? 366)
                            (getMonth targetDate)) by lia.
  destruct (civil_of_MakeDay (getFullYear targetDate) (getMonth targetDate) 1
              (MakeDay (getFullYear targetDate) (getMonth targetDate) 1 * msPerDay)
              Hm H1 Hday) as (Hy' & Hm' & Hd').
  assert (Hget : forall x, getFullYear (UTC x) = YearFromTime x
                           /\ getMonth (UTC x) = MonthFromTime x
                           /\ getDate (UTC x) = DateFromTime x).
  { intros x. unfold getFullYear, getMonth, getDate. rewrite LocalTime_UTC. repeat split. }
  destruct (Hget (MakeDay (getFullYear targetDate) (getMonth targetDate) 1 * msPerDay))
    as (-> & -> & ->).
  rewrite LocalTime_UTC.
  split; [exact Hy' |]. split; [exact Hm' |]. split; [exact Hd' |].
  split; [unfold TimeWithinDay; apply Z.mod_mul; discriminate |].
  split.
  - pose proof (MakeDay_of_time (LocalTime targetDate) 1) as Hmk.
    fold (getFullYear targetDate) (getMonth targetDate) in Hmk.
    pose proof (DateFromTime_range (LocalTime targetDate)) as Hdr.
    pose proof (Day_TimeWithinDay (LocalTime targetDate)) as Hdt.
    pose proof (TimeWithinDay_range (LocalTime targetDate)) as Htr.
    rewrite Hmk. unfold UTC, LocalTime, msPerDay in *. lia.
  - rewrite (MakeDay_last_day _ _ Hm).
    rewrite (MakeDay_date _ _ (spec_daysInMonth _ _) 1). unfold UTC. lia.
Qed.

(** The theorem of X4 at noon of 2024-01-15 in Japan. *)
Lemma monthly_window_from_first_day_witness :
  ~ (0 <= @getFullYear JST mid_january <= 99)
  /\ @getDate JST (startDate (@calculateStats JST january mid_january "monthly" mid_january))
     = 1
  /\ startDate (@calculateStats JST january mid_january "monthly" mid_january) <= mid_january.
Proof.
  assert (Hy : ~ (0 <= @getFullYear JST mid_january <= 99)).
  { vm_compute. intros [_ Hc]. apply Hc. reflexivity. }
  split; [exact Hy |].
  destruct (@monthly_window_from_first_day JST january mid_january mid_january Hy)
    as (_ & _ & Hd & _ & Hc & _).
  split; [exact Hd | exact Hc].
Defined.

Lemma prediction_eq `{Host} (st : Tracker) (now : Z) (period : string) (targetDate : Z) :
  let s := calculateStats st now period targetDate in
  prediction s =
    if negb (String.eqb period "daily") && negb (Qle_bool (elapsedRatio s) 0)
    then Math_round (binary64 (inject_Z (total s) / elapsedRatio s))
    else 0.
Proof.
  unfold calculateStats.
  destruct (match period with "daily" => _ | _ => _ end) as [[[a b] c] d].
  reflexivity.
Qed.

Lemma Math_round_integer (n : Z) : Math_round (inject_Z n) = n.
Proof.
  unfold Math_round, Qfloor, Qplus, inject_Z. cbn [Qnum Qden Pos.mul].
  Z.to_euclidean_division_equations. lia.
Qed.

Lemma Math_round_Qeq (p q : Q) : (p == q)%Q -> Math_round p = Math_round q.
Proof. intros Hq. unfold Math_round. apply Qfloor_comp. rewrite Hq. reflexivity. Qed.

Lemma inject_Z_pos (z : Z) : (0 < inject_Z z)%Q <-> 0 < z.
Proof. unfold Qlt, inject_Z. cbn [Qnum Qden]. lia. Qed.

Lemma inject_Z_nonneg (z : Z) : (0 <= inject_Z z)%Q <-> 0 <= z.
Proof. unfold Qle, inject_Z. cbn [Qnum Qden]. lia. Qed.

Lemma Math_round_ge (q : Q) (n : Z) : (inject_Z n <= q)%Q -> n <= Math_round q.
Proof.
  intros Hq. rewrite <- (Qfloor_Z n). unfold Math_round. apply Qfloor_resp_le. lra.
Qed.

(** X5. No projection is made for a day. For a week or a month the
    projection is 0 as long as the window has not started. Once it has
    started, the projection is the total divided by the elapsed ratio and
    rounded to an integer, where the elapsed ratio is the elapsed time (at
    most the length of the window) divided by the length of the window, and
    each of the two quotients is rounded to the nearest double. For a total
    from 0 to 2^53 this projection is at least the total, and once the
    window is over it is the total itself (for a total of at most 2^53 in
    absolute value). *)
Theorem prediction_by_pace `{Host} (st : Tracker) (now : Z) (period : string)
    (targetDate : Z) :
  period = "weekly" \/ period = "monthly" ->
  let s := calculateStats st now period targetDate in
  let elapsedMs := Z.min (now - startDate s) (endDate s - startDate s) in
  prediction (calculateStats st now "daily" targetDate) = 0
  /\ (now <= startDate s -> prediction s = 0)
  /\ (startDate s < now ->
      prediction s
      = Math_round
          (binary64 (inject_Z (total s)
                       / binary64 (inject_Z elapsedMs
                                     / inject_Z (endDate s - startDate s)))))
  /\ (startDate s < now -> 0 <= total s <= 2 ^ 53 -> total s <= prediction s)
  /\ (endDate s <= now -> - 2 ^ 53 <= total s <= 2 ^ 53 -> prediction s = total s).
Proof.
  intros Hp s elapsedMs.
  assert (Hp3 : period = "daily" \/ period = "weekly" \/ period = "monthly") by tauto.
  assert (Hnd : negb (String.eqb period "daily") = true) by (destruct Hp as [-> | ->]; reflexivity).
  pose proof (totalMs_positive st now period targetDate Hp3) as Ht.
  pose proof (prediction_eq st now period targetDate) as Hpr.
  pose proof (elapsedRatio_eq st now period targetDate) as Hr.
  cbv zeta in Ht, Hpr, Hr. fold s in Ht, Hpr, Hr. rewrite Hnd in Hpr. cbn [andb] in Hpr.
  fold elapsedMs in Hr.
  set (T := endDate s - startDate s) in *.
  assert (HT : (0 < inject_Z T)%Q) by (apply inject_Z_pos; exact Ht).
  assert (Hq : (0 < inject_Z elapsedMs / inject_Z T)%Q <-> 0 < elapsedMs).
  { split; intros Hc.
    - apply inject_Z_pos.
      apply Qnot_le_lt. intros Hn. apply (Qlt_not_le _ _ Hc).
      apply Qle_shift_div_r; [exact HT | lra].
    - apply inject_Z_pos in Hc.
      apply Qlt_shift_div_l; [exact HT | lra]. }
  assert (Hsign : Qle_bool (elapsedRatio s) 0 = true <-> elapsedMs <= 0).
  { rewrite Qle_bool_iff, Hr. split; intros Hc.
    - destruct (Z_le_gt_dec elapsedMs 0) as [Hle | Hgt]; [exact Hle | exfalso].
      assert (Hpos : 0 < elapsedMs) by lia.
      apply Hq, binary64_pos_iff in Hpos. lra.
    - apply Qnot_lt_le. intros Hn. apply binary64_pos_iff, Hq in Hn. lia. }
  assert (Hrun : 0 < elapsedMs ->
            prediction s = Math_round (binary64 (inject_Z (total s) / elapsedRatio s))).
  { intros He. rewrite Hpr.
    destruct (Qle_bool (elapsedRatio s) 0) eqn:Hb;
      [pose proof (proj1 Hsign eq_refl); lia | reflexivity]. }
  assert (Hle1 : (elapsedRatio s <= 1)%Q).
  { rewrite Hr. apply binary64_le_1. apply Qle_shift_div_r; [exact HT |].
    rewrite Qmult_1_l, <- Zle_Qle. subst elapsedMs. lia. }
  split; [| split; [| split; [| split]]].
  - rewrite (prediction_eq st now "daily" targetDate). reflexivity.
  - intros Hn. rewrite Hpr.
    destruct (Qle_bool (elapsedRatio s) 0) eqn:Hb; [reflexivity |].
    exfalso. assert (Hle : elapsedMs <= 0) by (subst elapsedMs; lia).
    apply Hsign in Hle. discriminate Hle.
  - intros Hn. rewrite Hrun by (subst elapsedMs; lia). rewrite Hr. reflexivity.
  - intros Hn Htot. assert (He : 0 < elapsedMs) by (subst elapsedMs; lia).
    rewrite (Hrun He). apply Math_round_ge.
    apply (Qle_trans _ (binary64 (inject_Z (total s)))).
    { apply Qle_lteq. right. symmetry. apply binary64_integer. lia. }
    apply binary64_mono.
    assert (Hrp : (0 < elapsedRatio s)%Q).
    { rewrite Hr. apply binary64_pos_iff, Hq. exact He. }
    apply Qle_shift_div_l; [exact Hrp |].
    assert (H0 : (0 <= inject_Z (total s))%Q) by (apply inject_Z_nonneg; lia).
    nra.
  - intros Hn Htot. rewrite Hrun by (subst elapsedMs; lia).
    rewrite <- (Math_round_integer (total s)) at 2. apply Math_round_Qeq.
    apply (Qeq_trans _ (binary64 (inject_Z (total s)))); [| apply binary64_integer; lia].
    apply binary64_comp.
    assert (H1 : (elapsedRatio s == 1)%Q).
    { rewrite Hr. replace elapsedMs with T by (subst elapsedMs; lia).
      apply (Qeq_trans _ (binary64 (inject_Z 1)));
        [| apply binary64_integer; split; discriminate].
      apply binary64_comp. change (inject_Z 1) with 1%Q. field. lra. }
    rewrite H1. field.
Qed.

(** The week of the reference date 2024-01-15, 12:00, starts on Sunday at
    noon. At 00:48 on Monday it is 12.8 hours old and holds 300 kcal. The
    exact quotient 300 / (12.8 / 168) is 3937.5, which rounds to 3938; the
    two divisions of the program give a double just below it, and the
    projection is 3937. *)
Example prediction_rounds_each_quotient :
  startDate (@calculateStats JST january early_monday "weekly" mid_january)
    = early_monday - 46080000
  /\ total (@calculateStats JST january early_monday "weekly" mid_january) = 300
  /\ Math_round (inject_Z 300 / (inject_Z 46080000 / inject_Z (7 * msPerDay))) = 3938
  /\ prediction (@calculateStats JST january early_monday "weekly" mid_january) = 3937.
Proof. vm_compute. repeat split. Qed.

(** The theorem of X5 on the week of 2024-01-15, seen on 2024-07-20. *)
Lemma prediction_by_pace_witness :
  ("weekly" = "weekly" \/ "weekly" = "monthly")
  /\ endDate (@calculateStats JST january late_july "weekly" mid_january) <= late_july
  /\ - 2 ^ 53 <= total (@calculateStats JST january late_july "weekly" mid_january) <= 2 ^ 53
  /\ prediction (@calculateStats JST january late_july "weekly" mid_january)
     = total (@calculateStats JST january late_july "weekly" mid_january).
Proof.
  split; [left; reflexivity |].
  assert (He : endDate (@calculateStats JST january late_july "weekly" mid_january)
               <= late_july) by (vm_compute; discriminate).
  assert (Ht : - 2 ^ 53 <= total (@calculateStats JST january late_july "weekly" mid_january)
               <= 2 ^ 53) by (vm_compute; split; discriminate).
  split; [exact He |]. split; [exact Ht |].
  destruct (@prediction_by_pace JST january late_july "weekly" mid_january
              (or_introl eq_refl)) as (_ & _ & _ & _ & Hover).
  exact (Hover He Ht).
Defined.

(** ** Part 16. Restart *)

Lemma restart_stable_iff (st : Tracker) :
  spec_restart_stable st <->
  (if truthy (storage st !! "menus") then as_menus (storage st !! "menus") else Some [])
    = Some (menus st)
  /\ meals_persisted st
  /\ match storage st !! "dailyGoal" with
     | None => Some 2000
     | Some (JNum n) => Some (if n =? 0 then 2000 else n)
     | Some _ => None
     end = Some (daily (goals st))
  /\ (if truthy (storage st !! "userData") then storage st !! "userData" else Some JNull)
     = userData (goals st).
Proof.
  unfold spec_restart_stable, newCalorieTracker, meals_persisted.
  destruct st as [ms ml [d u] sto]. cbn [storage menus meals goals daily userData].
  split.
  - destruct (if truthy (sto !! "menus") then _ else _) as [ms' |]; [| discriminate].
    cbn [mbind option_bind].
    destruct (if truthy (sto !! "meals") then _ else _) as [ml' |]; [| discriminate].
    cbn [mbind option_bind].
    destruct (match sto !! "dailyGoal" with None => _ | _ => _ end) as [d' |];
      [| discriminate].
    cbn [mbind option_bind]. unfold saveMeals, setItem. cbn [storage menus meals goals].
    intros Hs. injection Hs as -> -> -> Hu Hsto.
    repeat split; try assumption.
    rewrite <- Hsto at 1. apply lookup_insert_eq.
  - intros (Hm & Hl & Hd & Hu). rewrite Hm, Hl, Hd, Hu. cbn [truthy mbind option_bind].
    rewrite as_meals_to_json. cbn [mbind option_bind].
    unfold saveMeals, setItem. cbn [storage menus meals goals].
    rewrite (insert_id _ _ _ Hl). reflexivity.
Qed.

(** X7. After [addMenu], [deleteMenu], [addMeal], [deleteMeal] or
    [removeOldData] on a tracker that a restart gives back as it is, a restart
    gives back the tracker as the operation left it: nothing the operation did
    is lost and nothing else has changed. *)
Theorem menu_and_meal_operations_survive_restart `{Host} (st : Tracker) (now : Z) :
  spec_restart_stable st ->
  (forall name calories, spec_restart_stable (fst (addMenu st now name calories)))
  /\ (forall id, spec_restart_stable (deleteMenu st id))
  /\ (forall date id cn cc, spec_restart_stable (fst (addMeal st now date id cn cc)))
  /\ (forall id, spec_restart_stable (deleteMeal st id))
  /\ spec_restart_stable (removeOldData st now).
Proof.
  intros Hs. apply restart_stable_iff in Hs. destruct Hs as (Hm & Hl & Hd & Hu).
  assert (Hmenus : forall ms, spec_restart_stable (saveMenus (set_menus st ms))).
  { intros ms. apply restart_stable_iff. unfold meals_persisted, saveMenus, setItem.
    cbn [storage menus meals goals set_menus].
    rewrite lookup_insert_eq. repeat (rewrite lookup_insert_ne by discriminate).
    cbn [truthy]. rewrite as_menus_to_json.
    repeat split; first [assumption | reflexivity]. }
  assert (Hmeals : forall ml, spec_restart_stable (saveMeals (set_meals st ml))).
  { intros ml. apply restart_stable_iff. unfold meals_persisted, saveMeals, setItem.
    cbn [storage menus meals goals set_meals].
    rewrite lookup_insert_eq. repeat (rewrite lookup_insert_ne by discriminate).
    repeat split; first [assumption | reflexivity]. }
  repeat split; intros; first [apply Hmenus | apply Hmeals].
Qed.

(** The theorem of X7 on the January tracker. *)
Lemma menu_and_meal_operations_survive_restart_witness :
  spec_restart_stable january
  /\ newCalorieTracker (storage (fst (addMenu january 1700000000001 "rice" 250)))
     = Some (fst (addMenu january 1700000000001 "rice" 250)).
Proof.
  assert (Hs : spec_restart_stable january) by (vm_compute; reflexivity).
  split; [exact Hs |].
  destruct (@menu_and_meal_operations_survive_restart JST january 1700000000001 Hs)
    as (Ha & _).
  exact (Ha "rice" 250).
Defined.

Lemma restart_stable_saveMenus (st : Tracker) (ms : list Menu) :
  spec_restart_stable st -> spec_restart_stable (saveMenus (set_menus st ms)).
Proof.
  intros Hs. apply restart_stable_iff in Hs. destruct Hs as (Hm & Hl & Hd & Hu).
  apply restart_stable_iff. unfold meals_persisted, saveMenus, setItem.
  cbn [storage menus meals goals set_menus].
  rewrite lookup_insert_eq. repeat (rewrite lookup_insert_ne by discriminate).
  cbn [truthy]. rewrite as_menus_to_json.
  repeat split; first [assumption | reflexivity].
Qed.

Lemma restart_stable_saveMeals (st : Tracker) (ml : list Meal) :
  spec_restart_stable st -> spec_restart_stable (saveMeals (set_meals st ml)).
Proof.
  intros Hs. apply restart_stable_iff in Hs. destruct Hs as (Hm & Hl & Hd & Hu).
  apply restart_stable_iff. unfold meals_persisted, saveMeals, setItem.
  cbn [storage menus meals goals set_meals].
  rewrite lookup_insert_eq. repeat (rewrite lookup_insert_ne by discriminate).
  repeat split; first [assumption | reflexivity].
Qed.

(** X8. [saveGoals(daily, userData)] sets the daily goal, replaces the profile
    only by a truthy one, and touches neither menus nor meals. A restart gives
    the tracker back with that profile and that daily goal, except for a daily
    goal of 0, which comes back as 2000. *)
Theorem saveGoals_then_restart (st : Tracker) (daily' : Z) (userData' : value) :
  spec_restart_stable st ->
  let st' := saveGoals st daily' userData' in
  daily (goals st') = daily'
  /\ userData (goals st')
     = (if truthy (Some userData') then Some userData' else userData (goals st))
  /\ menus st' = menus st
  /\ meals st' = meals st
  /\ newCalorieTracker (storage st')
     = Some (set_goals st' {| daily := if daily' =? 0 then 2000 else daily';
                              userData := userData (goals st') |}).
Proof.
  intros Hs st'. apply restart_stable_iff in Hs. destruct Hs as (Hm & Hl & Hd & Hu).
  subst st'. unfold saveGoals.
  destruct (truthy (Some userData')) eqn:Ht;
    cbn [daily userData goals menus meals set_goals setItem storage];
    (repeat split; [idtac]);
    match goal with
    | |- newCalorieTracker ?sto = Some ?T =>
      change (spec_restart_stable T); apply restart_stable_iff
    end;
    unfold meals_persisted; cbn [daily userData goals menus meals set_goals setItem storage].
  - rewrite lookup_insert_eq. repeat (rewrite lookup_insert_ne by discriminate).
    rewrite lookup_insert_eq. rewrite Ht.
    repeat split; first [assumption | reflexivity].
  - rewrite lookup_insert_eq. repeat (rewrite lookup_insert_ne by discriminate).
    repeat split; first [assumption | reflexivity].
Qed.

(** The theorem of X8: a daily goal of 0 on the January tracker. *)
Lemma saveGoals_then_restart_witness :
  spec_restart_stable january
  /\ daily (goals (saveGoals january 0 JNull)) = 0
  /\ (goals <$> newCalorieTracker (storage (saveGoals january 0 JNull)))
     = Some {| daily := 2000; userData := Some JNull |}.
Proof.
  assert (Hs : spec_restart_stable january) by (vm_compute; reflexivity).
  split; [exact Hs |].
  destruct (saveGoals_then_restart january 0 JNull Hs) as (Hd & _ & _ & _ & Hr).
  split; [exact Hd |]. rewrite Hr. reflexivity.
Defined.

(** ** Part 17. What an import leaves alone *)

Lemma importData_Success_sections (st st' : Tracker) (file : value) (options : ImportOptions)
    (imported : Sections) :
  importData st file options = Some (st', Success imported) ->
  exists data, get file "data" = Some data
    /\ importSections st data options = Some (st', Success imported).
Proof.
  unfold importData. destruct file; try discriminate;
    (destruct (truthy (get _ "data")) eqn:Hd; cbn [negb orb]; [| discriminate]);
    (destruct (negb (truthy (get _ "exportedAt"))); [discriminate |]);
    (destruct (get _ "data") as [data |] eqn:Hg; [| discriminate Hd]);
    unfold default; cbn [from_option id];
    (destruct (negb (isValid (validateImportData data))); [discriminate |]);
    intros Hr; exists data; split; [reflexivity | exact Hr].
Qed.

Lemma importData_goals_file :
  exists st' : Tracker,
    importData with_profile goals_file defaultImportOptions
      = Some (st', Success {| of_menus := false; of_meals := false; of_goals := true |}).
Proof. eexists. vm_compute. reflexivity. Defined.

(** X9. An import reports a section as imported exactly when the payload
    holds it and the options enable it, and a section that is not imported is
    left alone, in memory and in storage. *)
Theorem importData_leaves_other_sections (st st' : Tracker) (file : value)
    (options : ImportOptions) (imported : Sections) :
  importData st file options = Some (st', Success imported) ->
  (exists data, get file "data" = Some data
     /\ of_menus imported = spec_menus_present data && of_menus (types options)
     /\ of_meals imported = spec_meals_present data && of_meals (types options)
     /\ of_goals imported = spec_goals_present data && of_goals (types options))
  /\ (of_menus imported = false ->
      menus st' = menus st /\ storage st' !! "menus" = storage st !! "menus")
  /\ (of_meals imported = false ->
      meals st' = meals st /\ storage st' !! "meals" = storage st !! "meals")
  /\ (of_goals imported = false ->
      goals st' = goals st /\ storage st' !! "dailyGoal" = storage st !! "dailyGoal").
Proof.
  intros Hi. apply importData_Success_sections in Hi. destruct Hi as (data & Hg & Hs).
  destruct (validateImportData_spec data) as (Hvm & Hvl & Hvg & _).
  revert Hs. unfold importSections, importMenus, importMeals, importGoals.
  rewrite Hvm, Hvl, Hvg.
  destruct (spec_menus_present data && of_menus (types options)) eqn:E1;
    [destruct (as_menus _) as [l1 |]; [| discriminate] |];
    cbn [mbind option_bind];
    (destruct (spec_meals_present data && of_meals (types options)) eqn:E2;
      [destruct (as_meals _) as [l2 |]; [| discriminate] |]);
    cbn [mbind option_bind];
    (destruct (spec_goals_present data && of_goals (types options)) eqn:E3;
      [destruct (as_goals _) as [g |]; [| discriminate] |]);
    cbn [mbind option_bind];
    intros Hr; injection Hr as <- <-;
    (split; [exists data; cbn [of_menus of_meals of_goals];
             rewrite E1, E2, E3; repeat split; exact Hg |]);
    cbn [storage menus meals goals saveMenus saveMeals setItem set_menus set_meals
         set_goals of_menus of_meals of_goals];
    repeat split; intros; try congruence;
    repeat (rewrite lookup_insert_ne by discriminate); reflexivity.
Qed.

(** The theorem of X9 on the import of the goals file. *)
Lemma importData_leaves_other_sections_witness :
  exists st' : Tracker,
    importData with_profile goals_file defaultImportOptions
      = Some (st', Success {| of_menus := false; of_meals := false; of_goals := true |})
    /\ menus st' = menus with_profile
    /\ meals st' = meals with_profile.
Proof.
  destruct importData_goals_file as (st' & Hi).
  exists st'. split; [exact Hi |].
  destruct (importData_leaves_other_sections _ _ _ _ _ Hi) as (_ & Hm & Hl & _).
  split; [apply Hm | apply Hl]; reflexivity.
Defined.

(** ** Part 18. More on merging *)

Lemma spec_new_id_false_In {A : Type} (id : A -> Z) (cur : list A) (x : A) :
  spec_new_id id cur x = false <-> In (id x) (map id cur).
Proof.
  unfold spec_new_id. rewrite negb_false_iff, existsb_exists, in_map_iff.
  split; intros (y & H1 & H2).
  - exists y. split; [apply Z.eqb_eq, H2 | exact H1].
  - exists y. split; [exact H2 | apply Z.eqb_eq, H1].
Qed.







(** ** Part 19. The archive *)

Lemma date_lt_ge_exclusive (d : option Z) (c : Z) :
  date_ge d c = true -> date_lt d c = false.
Proof. destruct d as [x |]; cbn; [lia | discriminate]. Qed.

Lemma filter_filter_none {A : Type} (p q : A -> bool) (l : list A) :
  (forall x, q x = true -> p x = false) -> List.filter p (List.filter q l) = [].
Proof.
  intros Hpq. induction l as [| x l IH]; [reflexivity |].
  cbn [List.filter]. destruct (q x) eqn:Hq; [| exact IH].
  cbn [List.filter]. rewrite (Hpq x Hq). exact IH.
Qed.

Lemma filter_filter_same {A : Type} (q : A -> bool) (l : list A) :
  List.filter q (List.filter q l) = List.filter q l.
Proof.
  induction l as [| x l IH]; [reflexivity |].
  cbn [List.filter]. destruct (q x) eqn:Hq; [| exact IH].
  cbn [List.filter]. rewrite Hq, IH. reflexivity.
Qed.

(** X13. Once [removeOldData()] has run, [getOldData()] at the same time
    finds nothing, a second [removeOldData()] removes nothing more, and menus
    and goals are as before; every meal that stays was there before. *)
Theorem removeOldData_leaves_nothing_old `{Host} (st : Tracker) (now : Z) :
  getOldData (removeOldData st now) now = []
  /\ meals (removeOldData (removeOldData st now) now) = meals (removeOldData st now)
  /\ menus (removeOldData st now) = menus st
  /\ goals (removeOldData st now) = goals st
  /\ (forall meal, In meal (meals (removeOldData st now)) -> In meal (meals st)).
Proof.
  rewrite getOldData_eq, !removeOldData_meals.
  generalize (setMonth now (getMonth now - 6)). intros c.
  split; [| split; [| split; [| split]]].
  - apply filter_filter_none. intros meal. apply date_lt_ge_exclusive.
  - apply filter_filter_same.
  - reflexivity.
  - reflexivity.
  - intros meal Hin. apply filter_In in Hin. apply Hin.
Qed.

Lemma NoDup_map_filter {A B : Type} (f : A -> B) (p : A -> bool) (l : list A) :
  List.NoDup (map f l) -> List.NoDup (map f (List.filter p l)).
Proof.
  induction l as [| x l IH]; [intros H; exact H |].
  cbn [map List.filter]. intros Hnd. apply List.NoDup_cons_iff in Hnd.
  destruct Hnd as [Hx Hnd]. destruct (p x); [| apply IH, Hnd].
  cbn [map]. constructor; [| apply IH, Hnd].
  intros Hin. apply Hx. apply in_map_iff in Hin. destruct Hin as (y & Hy & Hin).
  apply filter_In in Hin. rewrite <- Hy. apply in_map, Hin.
Qed.

Lemma NoDup_map_In_inj {A B : Type} (f : A -> B) (l : list A) (x y : A) :
  List.NoDup (map f l) -> In x l -> In y l -> f x = f y -> x = y.
Proof.
  induction l as [| z l IH]; [intros _ [] |].
  cbn [map]. intros Hnd. apply List.NoDup_cons_iff in Hnd. destruct Hnd as [Hz Hnd].
  intros [-> | Hx] [-> | Hy] Hf.
  - reflexivity.
  - exfalso. apply Hz. rewrite Hf. apply in_map, Hy.
  - exfalso. apply Hz. rewrite <- Hf. apply in_map, Hx.
  - apply IH; assumption.
Qed.

Lemma mergeData_all_new {A : Type} (id : A -> Z) (cur new : list A) :
  List.NoDup (map id new) ->
  (forall x, In x new -> ~ In (id x) (map id cur)) ->
  mergeData id cur new = cur ++ new.
Proof.
  revert cur. induction new as [| y new IH]; intros cur Hnd Hnew.
  - cbn. symmetry. apply app_nil_r.
  - cbn [map] in Hnd. apply List.NoDup_cons_iff in Hnd. destruct Hnd as [Hy Hnd].
    rewrite mergeData_cons.
    assert (Hf : spec_new_id id cur y = true).
    { destruct (spec_new_id id cur y) eqn:Hn; [reflexivity |].
      exfalso. apply (Hnew y); [left; reflexivity | apply spec_new_id_false_In, Hn]. }
    rewrite Hf, IH, <- app_assoc; [reflexivity | exact Hnd |].
    intros x Hx. rewrite map_app. intros Hin. apply in_app_or in Hin.
    destruct Hin as [Hin | [Hin | []]].
    + apply (Hnew x); [right; exact Hx | exact Hin].
    + apply Hy. rewrite Hin. apply in_map, Hx.
Qed.

(** X14. The archive button exports [{meals: getOldData()}] and then calls
    [removeOldData()], each with its own reading of the clock. When the meals
    have valid dates and pairwise distinct ids and no meal changes sides
    between the two readings, importing the archive file into the tracker
    left by [removeOldData()] succeeds and reports the meals alone; with
    [merge: true] the meals in memory are the kept ones followed by the
    archived ones, a rearrangement of the meals before archival; with
    [merge: false] they are the archived ones alone. Menus and goals are
    untouched and the meals are written to storage. *)
Theorem archive_then_import `{Host} (st : Tracker) (now1 now2 exportedAt : Z)
    (options : ImportOptions) :
  Forall (fun meal => Date_parse (meal_date meal) <> None) (meals st) ->
  List.NoDup (map meal_id (meals st)) ->
  Forall (fun meal =>
            date_lt (Date_parse (meal_date meal)) (setMonth now2 (getMonth now2 - 6))
            = date_lt (Date_parse (meal_date meal)) (setMonth now1 (getMonth now1 - 6)))
         (meals st) ->
  of_meals (types options) = true ->
  exists st' : Tracker,
    importData (removeOldData st now2) (exportData (archiveData st now1) exportedAt) options
      = Some (st', Success {| of_menus := false; of_meals := true; of_goals := false |})
    /\ meals st' = (if merge options
                    then meals (removeOldData st now2) ++ getOldData st now1
                    else getOldData st now1)
    /\ (merge options = true -> Permutation (meals st') (meals st))
    /\ menus st' = menus st
    /\ goals st' = goals st
    /\ meals_persisted st'.
Proof.
  intros Hdates Hnd Hsame Ht.
  rewrite (importData_accepted _ _ (archiveData st now1));
    [| reflexivity | reflexivity | apply toISOString_truthy | reflexivity].
  unfold importSections, archiveData, importMenus, importMeals, importGoals,
    validateImportData.
  cbn [get lookup_prop String.eqb Ascii.eqb Bool.eqb truthy isArray is_number andb orb negb
       isValid details of_menus of_meals of_goals mbind option_bind].
  rewrite Ht, as_meals_to_json.
  cbn [mbind option_bind andb].
  eexists. split; [reflexivity |].
  assert (Hkept : meals (removeOldData st now2)
                  = List.filter (fun meal => negb (date_lt (Date_parse (meal_date meal))
                                     (setMonth now1 (getMonth now1 - 6)))) (meals st)).
  { rewrite removeOldData_meals. apply filter_ext_in. intros meal Hin.
    rewrite List.Forall_forall in Hdates, Hsame.
    rewrite (date_ge_lt _ _ (Hdates meal Hin)), (Hsame meal Hin). reflexivity. }
  assert (Hmerge : mergeData meal_id (meals (removeOldData st now2)) (getOldData st now1)
                   = meals (removeOldData st now2) ++ getOldData st now1).
  { apply mergeData_all_new.
    - rewrite getOldData_eq. apply NoDup_map_filter, Hnd.
    - intros x Hx Hin. rewrite Hkept in Hin. rewrite getOldData_eq in Hx.
      apply in_map_iff in Hin. destruct Hin as (y & Hy & Hin).
      apply filter_In in Hx, Hin. destruct Hx as [Hx Hpx], Hin as [Hin Hpy].
      assert (y = x) by (eapply NoDup_map_In_inj; eauto). subst y.
      rewrite Hpx in Hpy. discriminate Hpy. }
  cbn [meals menus goals saveMeals set_meals setItem storage].
  split; [| split; [| split; [| split]]].
  - destruct (merge options); [exact Hmerge | reflexivity].
  - intros Hm. rewrite Hm, Hmerge, Hkept, getOldData_eq.
    etransitivity; [apply Permutation_app_comm |].
    apply filter_split. apply List.Forall_forall. intros; reflexivity.
  - reflexivity.
  - reflexivity.
  - unfold meals_persisted. cbn [storage meals saveMeals set_meals setItem].
    apply lookup_insert_eq.
Qed.

(** The theorem of X14 on the January tracker, archived on 2024-07-20 with
    five seconds between the two readings of the clock: the meal of
    2024-01-15 is archived and comes back behind the meal of 2024-01-31. *)
Lemma archive_then_import_witness :
  Forall (fun meal => @Date_parse JST (meal_date meal) <> None) (meals january)
  /\ List.NoDup (map meal_id (meals january))
  /\ exists st' : Tracker,
       importData (@removeOldData JST january (late_july + 5000))
         (exportData (@archiveData JST january late_july) late_july)
         {| merge := true;
            types := {| of_menus := true; of_meals := true; of_goals := true |} |}
       = Some (st', Success {| of_menus := false; of_meals := true; of_goals := false |})
       /\ meals st' = [customMeal 2 "2024-01-31" "dinner" 500;
                       customMeal 1 "2024-01-15" "lunch" 300]
       /\ Permutation (meals st') (meals january).
Proof.
  assert (Hv : Forall (fun meal => @Date_parse JST (meal_date meal) <> None) (meals january))
    by (repeat constructor; discriminate).
  assert (Hnd : List.NoDup (map meal_id (meals january))).
  { repeat constructor; cbn; [intros [E | []]; discriminate E | intros []]. }
  assert (Hsame : Forall (fun meal =>
            date_lt (@Date_parse JST (meal_date meal))
              (@setMonth JST (late_july + 5000) (@getMonth JST (late_july + 5000) - 6))
            = date_lt (@Date_parse JST (meal_date meal))
                (@setMonth JST late_july (@getMonth JST late_july - 6)))
         (meals january)) by (repeat constructor).
  split; [exact Hv |]. split; [exact Hnd |].
  destruct (@archive_then_import JST january late_july (late_july + 5000) late_july
              {| merge := true;
                 types := {| of_menus := true; of_meals := true; of_goals := true |} |}
              Hv Hnd Hsame eq_refl) as (st' & Hi & Hm & Hp & _).
  exists st'. split; [exact Hi |]. split; [exact Hm | exact (Hp eq_refl)].
Defined.

(** When a meal does change sides between the two readings, it is removed
    without being archived: here the clock passes 09:00 of 2024-07-15 in
    Japan, the time at which the meal of 2024-01-15 becomes old. *)
Example archive_race_loses_a_meal :
  let now1 := 1721001599000 in
  let now2 := 1721001601000 in
  @getOldData JST january now1 = []
  /\ meals (@removeOldData JST january now2) = [customMeal 2 "2024-01-31" "dinner" 500].
Proof. vm_compute. split; reflexivity. Qed.

(** ** Part 20. Importing goals *)

(** X15. Importing an export file whose payload is a goals section alone
    succeeds and reports the goals alone. The daily goal becomes the imported
    one and is written to storage under [dailyGoal], no other key of the
    storage changes, and menus and meals are untouched. The profile becomes
    the imported one when the file has one; when it has none, [merge: true]
    keeps the current profile and [merge: false] leaves the goals without
    one. *)
Theorem import_goals_merge_or_replace (st : Tracker) (g : Goals) (exportedAt : Z)
    (m : bool) :
  exists st' : Tracker,
    importData st (exportData (JObj [("goals", Goals_to_json g)]) exportedAt)
      {| merge := m; types := {| of_menus := true; of_meals := true; of_goals := true |} |}
    = Some (st', Success {| of_menus := false; of_meals := false; of_goals := true |})
    /\ daily (goals st') = daily g
    /\ userData (goals st')
       = match userData g with
         | Some u => Some u
         | None => if m then userData (goals st) else None
         end
    /\ menus st' = menus st
    /\ meals st' = meals st
    /\ storage st' = <["dailyGoal" := JNum (daily g)]> (storage st).
Proof.
  assert (Hv : isValid (validateImportData (JObj [("goals", Goals_to_json g)])) = true).
  { destruct g as [d [u |]]; reflexivity. }
  rewrite (importData_accepted st _ (JObj [("goals", Goals_to_json g)]));
    [| reflexivity | reflexivity | apply toISOString_truthy | exact Hv].
  unfold importSections, importMenus, importMeals, importGoals, validateImportData.
  cbn [get lookup_prop String.eqb Ascii.eqb Bool.eqb truthy isArray andb orb negb
       isValid details of_menus of_meals of_goals types merge as_goals mbind option_bind].
  rewrite Goals_of_to_json.
  destruct g as [d [u |]], m;
    cbn [Goals_to_json userData daily get lookup_prop String.eqb Ascii.eqb Bool.eqb
         truthy is_number andb app mbind option_bind];
    eexists; (split; [reflexivity |]); repeat split.
Qed.

(** ** Part 21. Statistics and the menu list *)

(** The total over a window reads the menu list only for meals that carry
    no calories of their own. *)
Lemma total_without_menus `{Host} (st st' : Tracker) (start end_ : Z) :
  meals st' = meals st ->
  Forall (fun meal => spec_carries_calories meal = true) (meals st) ->
  calculateCaloriesForDateRange st' start end_ = calculateCaloriesForDateRange st start end_.
Proof.
  intros Hm Hc. unfold calculateCaloriesForDateRange.
  rewrite !reduce_from, Hm. unfold spec_total. do 2 f_equal.
  apply map_ext_in. intros meal Hin. apply filter_In in Hin. destruct Hin as [Hin _].
  rewrite List.Forall_forall in Hc. specialize (Hc meal Hin).
  unfold spec_carries_calories in Hc. unfold spec_effectiveCalories.
  destruct (customCalories meal); [reflexivity |].
  destruct (menuCalories meal); [reflexivity | discriminate Hc].
Qed.

Lemma calculateStats_ext `{Host} (st st' : Tracker) (now : Z) (period : string)
    (targetDate : Z) :
  (forall start end_,
     calculateCaloriesForDateRange st' start end_
     = calculateCaloriesForDateRange st start end_) ->
  goals st' = goals st ->
  calculateStats st' now period targetDate = calculateStats st now period targetDate.
Proof.
  intros Hc Hg.
  unfold calculateStats, calculateDailyCalories, calculateWeeklyCalories,
    calculateMonthlyCalories, getGoalForPeriod.
  cbv zeta. rewrite !Hc, Hg. reflexivity.
Qed.

(** X16. When every meal carries calories (custom calories or the snapshot
    of its menu), no statistic reads the menu list: deleting a menu and adding
    a menu leave the result of [calculateStats] as it is, for every period,
    reference date and clock, and the total of every window too. *)
Theorem menu_changes_keep_stats `{Host} (st : Tracker) :
  Forall (fun meal => spec_carries_calories meal = true) (meals st) ->
  forall (id t calories : Z) (name : string),
    (forall now period targetDate,
       calculateStats (deleteMenu st id) now period targetDate
       = calculateStats st now period targetDate
       /\ calculateStats (fst (addMenu st t name calories)) now period targetDate
          = calculateStats st now period targetDate)
    /\ (forall start end_,
          calculateCaloriesForDateRange (deleteMenu st id) start end_
          = calculateCaloriesForDateRange st start end_
          /\ calculateCaloriesForDateRange (fst (addMenu st t name calories)) start end_
             = calculateCaloriesForDateRange st start end_).
Proof.
  intros Hc id t calories name.
  assert (Hd : forall start end_,
            calculateCaloriesForDateRange (deleteMenu st id) start end_
            = calculateCaloriesForDateRange st start end_).
  { intros. apply total_without_menus; [reflexivity | exact Hc]. }
  assert (Ha : forall start end_,
            calculateCaloriesForDateRange (fst (addMenu st t name calories)) start end_
            = calculateCaloriesForDateRange st start end_).
  { intros. apply total_without_menus; [reflexivity | exact Hc]. }
  split.
  - intros now period targetDate.
    split; apply calculateStats_ext; first [exact Hd | exact Ha | reflexivity].
  - intros start end_. split; [apply Hd | apply Ha].
Qed.

(** The theorem of X16 on the January tracker, whose meals have custom
    calories, and the menu rice. *)
Lemma menu_changes_keep_stats_witness :
  Forall (fun meal => spec_carries_calories meal = true) (meals january)
  /\ @calculateStats JST (deleteMenu january 1700000000001) mid_january "monthly" mid_january
     = @calculateStats JST january mid_january "monthly" mid_january
  /\ @calculateStats JST with_rice mid_january "monthly" mid_january
     = @calculateStats JST january mid_january "monthly" mid_january.
Proof.
  assert (Hc : Forall (fun meal => spec_carries_calories meal = true) (meals january))
    by (repeat constructor).
  split; [exact Hc |].
  exact (proj1 (@menu_changes_keep_stats JST january Hc 1700000000001 1700000000001 250 "rice")
           mid_january "monthly" mid_january).
Defined.

(** A meal that names a menu without carrying its calories (an imported or
    older record) does follow the menu list: it counts the calories of the
    menu while the menu exists, and 0 once the menu is deleted. *)
Example total_follows_menu_without_snapshot :
  let meal := {| meal_id := 3; meal_date := "2024-01-15"; menuId := Some 1700000000001;
                 menuName := None; menuCalories := None;
                 customName := None; customCalories := None |} in
  let st := saveMeals (set_meals with_rice [meal]) in
  @calculateDailyCalories JST st mid_january = 250
  /\ @calculateDailyCalories JST (deleteMenu st 1700000000001) mid_january = 0.
Proof. vm_compute. split; reflexivity. Qed.

(** ** Part 22. Adding and deleting *)

Lemma filter_app_last {A : Type} (id : A -> Z) (l : list A) (x : A) :
  List.filter (fun y => negb (id y =? id x)) (l ++ [x])
  = List.filter (fun y => negb (id y =? id x)) l.
Proof.
  rewrite List.filter_app. cbn [List.filter]. rewrite Z.eqb_refl. cbn [negb].
  apply app_nil_r.
Qed.

Lemma filter_all {A : Type} (p : A -> bool) (l : list A) :
  (forall x, In x l -> p x = true) -> List.filter p l = l.
Proof.
  induction l as [| x l IH]; [reflexivity |]. intros Hp.
  cbn [List.filter]. rewrite (Hp x (or_introl eq_refl)), IH; [reflexivity |].
  intros y Hy. apply Hp. right. exact Hy.
Qed.

(** X17. Deleting the menu that [addMenu] has just returned leaves the menus
    that were there before without those of the same id (the id is the clock
    reading, so a menu added in the same millisecond goes with it); when no
    menu had that id, the menu list in memory and in storage is the one
    before the addition. The same holds for [addMeal] and [deleteMeal]. *)
Theorem delete_after_add (st : Tracker) (now : Z) (name date : string) (calories : Z)
    (menuId' : option Z) (customName' : option string) (customCalories' : option Z) :
  let added_menu := addMenu st now name calories in
  let added_meal := addMeal st now date menuId' customName' customCalories' in
  let st1 := deleteMenu (fst added_menu) (menu_id (snd added_menu)) in
  let st2 := deleteMeal (fst added_meal) (meal_id (snd added_meal)) in
  menu_id (snd added_menu) = now
  /\ meal_id (snd added_meal) = now
  /\ menus st1 = List.filter (fun menu => negb (menu_id menu =? now)) (menus st)
  /\ meals st2 = List.filter (fun meal => negb (meal_id meal =? now)) (meals st)
  /\ ((forall menu, In menu (menus st) -> menu_id menu <> now) ->
      menus st1 = menus st
      /\ storage st1 !! "menus" = Some (JArr (map Menu_to_json (menus st))))
  /\ ((forall meal, In meal (meals st) -> meal_id meal <> now) ->
      meals st2 = meals st
      /\ storage st2 !! "meals" = Some (JArr (map Meal_to_json (meals st))))
  /\ meals st1 = meals st /\ goals st1 = goals st
  /\ menus st2 = menus st /\ goals st2 = goals st.
Proof.
  intros added_menu added_meal st1 st2.
  assert (Hid : meal_id (snd added_meal) = now).
  { unfold added_meal, addMeal. cbn [snd].
    destruct menuId' as [id |]; [destruct (negb (id =? 0)) |]; reflexivity. }
  assert (Hmenus : menus st1
                   = List.filter (fun menu => negb (menu_id menu =? now)) (menus st)).
  { unfold st1, added_menu, addMenu, deleteMenu.
    cbn [fst snd menu_id menus saveMenus set_menus setItem].
    apply (filter_app_last menu_id (menus st)
             {| menu_id := now; menu_name := name; menu_calories := calories |}). }
  assert (Hmeals : meals st2
                   = List.filter (fun meal => negb (meal_id meal =? now)) (meals st)).
  { assert (E : fst added_meal
                 = saveMeals (set_meals st (meals st ++ [snd added_meal]))) by reflexivity.
    unfold st2, deleteMeal. rewrite E.
    cbn [meals saveMeals set_meals setItem].
    rewrite List.filter_app. cbn [List.filter]. rewrite Hid, Z.eqb_refl.
    cbn [negb]. apply app_nil_r. }
  split; [reflexivity |]. split; [exact Hid |].
  split; [exact Hmenus |]. split; [exact Hmeals |].
  split; [| split; [| repeat split]].
  - intros Hnew.
    assert (E : menus st1 = menus st).
    { rewrite Hmenus. apply filter_all. intros menu Hin.
      apply negb_true_iff, Z.eqb_neq, Hnew, Hin. }
    split; [exact E |]. rewrite <- E. unfold st1, deleteMenu, saveMenus, setItem.
    cbn [storage menus set_menus]. apply lookup_insert_eq.
  - intros Hnew.
    assert (E : meals st2 = meals st).
    { rewrite Hmeals. apply filter_all. intros meal Hin.
      apply negb_true_iff, Z.eqb_neq, Hnew, Hin. }
    split; [exact E |]. rewrite <- E. unfold st2, deleteMeal, saveMeals, setItem.
    cbn [storage meals set_meals]. apply lookup_insert_eq.
Qed.

(** ** Part 23. Navigation in the statistics view *)

Lemma LocalTime_shift `{Host} (t n : Z) :
  LocalTime (t + n * msPerDay) = LocalTime t + n * msPerDay.
Proof. unfold LocalTime. lia. Qed.

Lemma getDay_week `{Host} (t n : Z) : getDay (t + (7 * n) * msPerDay) = getDay t.
Proof.
  unfold getDay, WeekDay. rewrite LocalTime_shift, Day_shift.
  Z.to_euclidean_division_equations. lia.
Qed.

(** X18. In the daily and the weekly view, [changeDate] moves the date of
    the view by exactly one day and by exactly seven days, back for ["prev"]
    and forward for any other direction, so that next and previous undo each
    other; the weekly window of the date after [changeDate("next")] starts
    where the weekly window of the date before it ends, and the one after
    [changeDate("prev")] ends where that one starts. *)
Theorem changeDate_by_days `{Host} (st : Tracker) (now currentDate : Z)
    (direction : string) :
  changeDate currentDate "daily" direction
  = (if String.eqb direction "prev" then currentDate - msPerDay else currentDate + msPerDay)
  /\ changeDate currentDate "weekly" direction
     = (if String.eqb direction "prev"
        then currentDate - 7 * msPerDay else currentDate + 7 * msPerDay)
  /\ changeDate (changeDate currentDate "daily" "prev") "daily" "next" = currentDate
  /\ changeDate (changeDate currentDate "daily" "next") "daily" "prev" = currentDate
  /\ changeDate (changeDate currentDate "weekly" "prev") "weekly" "next" = currentDate
  /\ changeDate (changeDate currentDate "weekly" "next") "weekly" "prev" = currentDate
  /\ startDate (calculateStats st now "weekly" (changeDate currentDate "weekly" "next"))
     = endDate (calculateStats st now "weekly" currentDate)
  /\ endDate (calculateStats st now "weekly" (changeDate currentDate "weekly" "prev"))
     = startDate (calculateStats st now "weekly" currentDate).
Proof.
  assert (Hd : forall d dir, changeDate d "daily" dir
                 = if String.eqb dir "prev" then d - msPerDay else d + msPerDay).
  { intros d dir. unfold changeDate. destruct (String.eqb dir "prev");
      rewrite setDate_shift; lia. }
  assert (Hw : forall d dir, changeDate d "weekly" dir
                 = if String.eqb dir "prev" then d - 7 * msPerDay else d + 7 * msPerDay).
  { intros d dir. unfold changeDate. destruct (String.eqb dir "prev");
      rewrite setDate_shift; lia. }
  assert (Hstart : forall d, startDate (calculateStats st now "weekly" d)
                             = d - getDay d * msPerDay).
  { intros d. destruct (weekly_window st now d) as [Hs _]. cbv zeta in Hs.
    rewrite Hs, setDate_shift. lia. }
  assert (Hend : forall d, endDate (calculateStats st now "weekly" d)
                           = d - getDay d * msPerDay + 7 * msPerDay).
  { intros d. destruct (weekly_window st now d) as [_ He]. cbv zeta in He.
    rewrite He, Hstart. reflexivity. }
  split; [apply Hd |]. split; [apply Hw |].
  rewrite !Hd, !Hw, Hstart, !Hend, Hstart. cbn [String.eqb Ascii.eqb Bool.eqb].
  pose proof (getDay_week currentDate 1) as Hn.
  pose proof (getDay_week currentDate (-1)) as Hp.
  replace (currentDate + 7 * 1 * msPerDay) with (currentDate + 7 * msPerDay) in Hn by lia.
  replace (currentDate + 7 * -1 * msPerDay) with (currentDate - 7 * msPerDay) in Hp by lia.
  rewrite Hn, Hp. repeat split; lia.
Qed.

Lemma MakeDay_carry (y m d : Z) : MakeDay y m d = MakeDay (y + m / 12) (m mod 12) d.
Proof.
  unfold MakeDay. cbv zeta.
  rewrite Z.mod_mod by discriminate.
  rewrite (Z.div_small (m mod 12)) by (apply Z.mod_pos_bound; lia).
  rewrite Z.add_0_r. reflexivity.
Qed.

Lemma TimeWithinDay_MakeDate (day time : Z) :
  0 <= time < msPerDay -> TimeWithinDay (MakeDate day time) = time.
Proof.
  intros Ht. unfold TimeWithinDay, MakeDate.
  rewrite Z.add_comm, Z.mod_add by discriminate. apply Z.mod_small, Ht.
Qed.

(** [setMonth] on a date whose day of the month exists in every month. *)
Lemma setMonth_civil `{Host} (t month : Z) :
  getDate t <= 28 ->
  getFullYear (setMonth t month) = getFullYear t + month / 12
  /\ getMonth (setMonth t month) = month mod 12
  /\ getDate (setMonth t month) = getDate t
  /\ TimeWithinDay (LocalTime (setMonth t month)) = TimeWithinDay (LocalTime t).
Proof.
  intros Hd.
  pose proof (TimeWithinDay_range (LocalTime t)) as Hr.
  pose proof (DateFromTime_range (LocalTime t)) as Hdr. fold (getDate t) in Hdr.
  pose proof (Z.mod_pos_bound month 12 ltac:(lia)) as Hm.
  pose proof (spec_daysInMonth_range (DaysInYear (getFullYear t + month / 12) =? 366)
                (month mod 12)) as Hs.
  assert (Hm' : 0 <= month mod 12 <= 11) by lia.
  assert (Hd' : 1 <= getDate t
                <= spec_daysInMonth (DaysInYear (getFullYear t + month / 12) =? 366)
                     (month mod 12)) by lia.
  assert (Hl : LocalTime (setMonth t month)
               = MakeDate (MakeDay (getFullYear t + month / 12) (month mod 12) (getDate t))
                   (TimeWithinDay (LocalTime t))).
  { unfold setMonth. cbv zeta. rewrite LocalTime_UTC, MakeDay_carry. reflexivity. }
  unfold getFullYear at 1, getMonth at 1, getDate at 1. rewrite Hl.
  destruct (civil_of_MakeDay _ _ _ _ Hm' Hd' (Day_MakeDate _ _ Hr)) as (Hy & Hmo & Hda).
  split; [exact Hy |]. split; [exact Hmo |]. split; [exact Hda |].
  apply TimeWithinDay_MakeDate, Hr.
Qed.

Lemma setMonth_eq `{Host} (t month : Z) :
  setMonth t month
  = UTC (MakeDate (MakeDay (getFullYear t) month (getDate t)) (TimeWithinDay (LocalTime t))).
Proof. reflexivity. Qed.

Lemma MakeDay_getters `{Host} (t : Z) :
  MakeDay (getFullYear t) (getMonth t) (getDate t) = Day (LocalTime t).
Proof. unfold getFullYear, getMonth, getDate. rewrite MakeDay_of_time. lia. Qed.

(** A second [setMonth] that names the month and the year of the start
    leads back to it. *)
Lemma setMonth_back `{Host} (t k k' : Z) :
  getDate t <= 28 ->
  k / 12 + k' / 12 = 0 -> k' mod 12 = getMonth t ->
  setMonth (setMonth t k) k' = t.
Proof.
  intros Hd Hq Hr.
  destruct (setMonth_civil t k Hd) as (Hy & _ & Hda & Ht).
  rewrite (setMonth_eq (setMonth t k)).
  rewrite Hy, Hda, Ht, MakeDay_carry, Hr.
  replace (getFullYear t + k / 12 + k' / 12) with (getFullYear t) by lia.
  rewrite MakeDay_getters.
  unfold MakeDate, UTC. pose proof (Day_TimeWithinDay (LocalTime t)) as Hdt.
  unfold LocalTime in *. lia.
Qed.

(** X19. In the monthly view, on a date whose day of the month is at most
    28, [changeDate] leads to the same day of the month and the same time of
    day in the month after (for ["prev"], before), into the next or the
    previous year from December or January, and next and previous undo each
    other. *)
Theorem changeDate_by_month `{Host} (currentDate : Z) :
  getDate currentDate <= 28 ->
  let next := changeDate currentDate "monthly" "next" in
  let prev := changeDate currentDate "monthly" "prev" in
  getDate next = getDate currentDate
  /\ getDate prev = getDate currentDate
  /\ getMonth next = (if getMonth currentDate =? 11 then 0 else getMonth currentDate + 1)
  /\ getMonth prev = (if getMonth currentDate =? 0 then 11 else getMonth currentDate - 1)
  /\ getFullYear next
     = (if getMonth currentDate =? 11
        then getFullYear currentDate + 1 else getFullYear currentDate)
  /\ getFullYear prev
     = (if getMonth currentDate =? 0
        then getFullYear currentDate - 1 else getFullYear currentDate)
  /\ TimeWithinDay (LocalTime next) = TimeWithinDay (LocalTime currentDate)
  /\ TimeWithinDay (LocalTime prev) = TimeWithinDay (LocalTime currentDate)
  /\ changeDate next "monthly" "prev" = currentDate
  /\ changeDate prev "monthly" "next" = currentDate.
Proof.
  intros Hd next prev. subst next prev. unfold changeDate.
  cbn [String.eqb Ascii.eqb Bool.eqb].
  pose proof (MonthFromTime_range (LocalTime currentDate)) as Hm.
  fold (getMonth currentDate) in Hm.
  destruct (setMonth_civil currentDate (getMonth currentDate + 1) Hd)
    as (Hyn & Hmn & Hdn & Htn).
  destruct (setMonth_civil currentDate (getMonth currentDate - 1) Hd)
    as (Hyp & Hmp & Hdp & Htp).
  rewrite Hyn, Hmn, Hdn, Htn, Hyp, Hmp, Hdp, Htp.
  split; [reflexivity |]. split; [reflexivity |].
  split; [destruct (Z.eqb_spec (getMonth currentDate) 11);
          Z.to_euclidean_division_equations; lia |].
  split; [destruct (Z.eqb_spec (getMonth currentDate) 0);
          Z.to_euclidean_division_equations; lia |].
  split; [destruct (Z.eqb_spec (getMonth currentDate) 11);
          Z.to_euclidean_division_equations; lia |].
  split; [destruct (Z.eqb_spec (getMonth currentDate) 0);
          Z.to_euclidean_division_equations; lia |].
  split; [reflexivity |]. split; [reflexivity |].
  split; apply setMonth_back; try exact Hd; Z.to_euclidean_division_equations; lia.
Qed.

(** The theorem of X19 at noon of 2024-01-15 in Japan: the months before and
    after January 2024 are December 2023 and February 2024. *)
Lemma changeDate_by_month_witness :
  @getDate JST mid_january <= 28
  /\ @changeDate JST mid_january "monthly" "next" = @newDate JST 2024 1 15 + 12 * msPerHour
  /\ @changeDate JST mid_january "monthly" "prev" = @newDate JST 2023 11 15 + 12 * msPerHour
  /\ @changeDate JST (@changeDate JST mid_january "monthly" "next") "monthly" "prev"
     = mid_january.
Proof.
  assert (Hd : @getDate JST mid_january <= 28) by (vm_compute; discriminate).
  split; [exact Hd |]. split; [vm_compute; reflexivity |]. split; [vm_compute; reflexivity |].
  destruct (@changeDate_by_month JST mid_january Hd)
    as (_ & _ & _ & _ & _ & _ & _ & _ & Hb & _).
  exact Hb.
Defined.

(** On a later day of the month the target day may not exist: [setMonth]
    then runs over into the month after, and next and previous no longer undo
    each other. From 2024-01-31 the next month is shown as 2024-03-02, and
    the month before that as 2024-02-02. *)
Example changeDate_month_overflow :
  let jan31 := @newDate JST 2024 0 31 in
  @changeDate JST jan31 "monthly" "next" = @newDate JST 2024 2 2
  /\ @changeDate JST (@changeDate JST jan31 "monthly" "next") "monthly" "prev"
     = @newDate JST 2024 1 2.
Proof. vm_compute. split; reflexivity. Qed.

(** ** Part 24. The age of an old meal *)

(** The same day of the month six months earlier lies 181 to 184 days
    back. *)
Lemma MakeDay_six_months (y m d : Z) :
  0 <= m <= 11 -> 181 <= MakeDay y m d - MakeDay y (m - 6) d <= 184.
Proof.
  intros Hm.
  assert (Hc : m = 0 \/ m = 1 \/ m = 2 \/ m = 3 \/ m = 4 \/ m = 5 \/ m = 6 \/ m = 7
               \/ m = 8 \/ m = 9 \/ m = 10 \/ m = 11) by lia.
  pose proof (DayFromYear_succ (y + -1)) as Hs.
  replace (y + -1 + 1) with y in Hs by lia.
  unfold MakeDay.
  repeat destruct Hc as [Hc | Hc]; subst m;
    match goal with
    | |- context [(?a - 6) / 12] =>
      let q := eval vm_compute in ((a - 6) / 12) in
      let r := eval vm_compute in ((a - 6) mod 12) in
      change ((a - 6) / 12) with q; change ((a - 6) mod 12) with r
    end;
    match goal with
    | |- context [?a / 12] =>
      let q := eval vm_compute in (a / 12) in
      let r := eval vm_compute in (a mod 12) in
      change (a / 12) with q; change (a mod 12) with r
    end;
    cbn [monthStart]; rewrite ?Z.add_0_r;
    destruct (DaysInYear_cases y) as [Hy | Hy]; rewrite ?Hy;
    destruct (DaysInYear_cases (y + -1)) as [Hy' | Hy']; rewrite ?Hy';
    cbn [Z.eqb Pos.eqb]; lia.
Qed.

(** X20. The time before which a meal is old, [now] with its month set six
    back, lies a whole number of days before [now], 181 to 184 of them: every
    meal that [getOldData()] returns is dated more than 181 days before
    [now], and every meal with a valid date more than 184 days before [now]
    is returned. When the day of the month of [now] is at most 28, that time
    is the same day of the month and time of day six months earlier. *)
Theorem old_data_age `{Host} (st : Tracker) (now : Z) :
  let sixMonthsAgo := setMonth now (getMonth now - 6) in
  (exists k, 181 <= k <= 184 /\ sixMonthsAgo = now - k * msPerDay)
  /\ (forall meal, In meal (getOldData st now) ->
        exists d, Date_parse (meal_date meal) = Some d /\ d < now - 181 * msPerDay)
  /\ (forall meal d, In meal (meals st) -> Date_parse (meal_date meal) = Some d ->
        d < now - 184 * msPerDay -> In meal (getOldData st now))
  /\ (getDate now <= 28 ->
      getDate sixMonthsAgo = getDate now
      /\ getMonth sixMonthsAgo
         = (if 6 <=? getMonth now then getMonth now - 6 else getMonth now + 6)
      /\ getFullYear sixMonthsAgo
         = (if 6 <=? getMonth now then getFullYear now else getFullYear now - 1)
      /\ TimeWithinDay (LocalTime sixMonthsAgo) = TimeWithinDay (LocalTime now)).
Proof.
  intros sixMonthsAgo.
  pose proof (MonthFromTime_range (LocalTime now)) as Hm. fold (getMonth now) in Hm.
  assert (Hk : exists k, 181 <= k <= 184 /\ sixMonthsAgo = now - k * msPerDay).
  { exists (MakeDay (getFullYear now) (getMonth now) (getDate now)
            - MakeDay (getFullYear now) (getMonth now - 6) (getDate now)).
    split; [apply MakeDay_six_months, Hm |].
    unfold sixMonthsAgo. rewrite setMonth_eq, MakeDay_getters.
    pose proof (Day_TimeWithinDay (LocalTime now)) as Hd.
    unfold UTC, MakeDate, LocalTime in *. lia. }
  split; [exact Hk |].
  destruct Hk as (k & Hkr & Hk).
  rewrite getOldData_eq. fold sixMonthsAgo. rewrite Hk.
  split; [| split].
  - intros meal Hin. apply filter_In in Hin. destruct Hin as [_ Hlt].
    destruct (Date_parse (meal_date meal)) as [d |]; [| discriminate Hlt].
    exists d. split; [reflexivity |]. cbn [date_lt] in Hlt.
    apply Z.ltb_lt in Hlt. unfold msPerDay in *. lia.
  - intros meal d Hin Hd Hlt. apply filter_In. split; [exact Hin |].
    rewrite Hd. cbn [date_lt]. apply Z.ltb_lt. unfold msPerDay in *. lia.
  - intros Hd. rewrite <- Hk.
    destruct (setMonth_civil now (getMonth now - 6) Hd) as (Hy' & Hm' & Hd' & Ht').
    fold sixMonthsAgo in Hy', Hm', Hd', Ht'.
    rewrite Hy', Hm', Hd', Ht'.
    split; [reflexivity |].
    split; [destruct (Z.leb_spec 6 (getMonth now)); Z.to_euclidean_division_equations; lia |].
    split; [destruct (Z.leb_spec 6 (getMonth now)); Z.to_euclidean_division_equations; lia |].
    reflexivity.
Qed.

(** ** Part 25. The day a meal is counted for *)

Lemma newDate_of_day `{Host} (t : Z) :
  ~ (0 <= getFullYear t <= 99) ->
  newDate (getFullYear t) (getMonth t) (getDate t) = UTC (Day (LocalTime t) * msPerDay).
Proof.
  intros Hy. unfold newDate. cbv zeta.
  destruct (Z.leb_spec 0 (getFullYear t));
    destruct (Z.leb_spec (getFullYear t) 99); cbn [andb]; try lia;
    rewrite MakeDay_getters; unfold MakeDate, MakeTime; f_equal; lia.
Qed.

(** X21. For a reference date whose local year is not one of 0 to 99, a
    date string that stands for midnight UTC of day [n] (the date-only form)
    passes the test of the daily window, [start <= date < end], exactly when
    the local day of the reference date is [n] moved by the whole days of the
    time zone offset: day [n] itself in a zone at or east of Greenwich, the
    day before [n] in a zone west of it. A meal with that date string that
    does not pass the test adds nothing to the daily total. *)
Theorem daily_window_by_local_day `{Host} (st : Tracker) (now targetDate n : Z)
    (date : string) :
  ~ (0 <= getFullYear targetDate <= 99) ->
  Date_parse date = Some (n * msPerDay) ->
  let s := calculateStats st now "daily" targetDate in
  let counted :=
    date_ge (Date_parse date) (startDate s) && date_lt (Date_parse date) (endDate s) in
  (counted = true <-> Day (LocalTime targetDate) = n + LocalTZA / msPerDay)
  /\ (0 <= LocalTZA < msPerDay -> (counted = true <-> Day (LocalTime targetDate) = n))
  /\ (- msPerDay <= LocalTZA < 0 ->
      (counted = true <-> Day (LocalTime targetDate) = n - 1))
  /\ (forall (menus' : list value) (total : Js.number) (props : list (string * value)),
        lookup_prop "date" props = Some (JStr date) ->
        counted = false ->
        Js.add_meal menus' (startDate s) (endDate s) total (JObj props) = Js.Ok total).
Proof.
  intros Hy Hp s counted. subst s counted.
  destruct (daily_window st now targetDate) as [Hs He]. cbv zeta in *.
  rewrite He, Hs, (newDate_of_day targetDate Hy). rewrite Hp. cbn [date_ge date_lt].
  generalize (Day (LocalTime targetDate)). intros D.
  assert (Hiff : ((UTC (D * msPerDay) <=? n * msPerDay)
                  && (n * msPerDay <? UTC (D * msPerDay) + msPerDay) = true)
                 <-> D = n + LocalTZA / msPerDay).
  { rewrite andb_true_iff, Z.leb_le, Z.ltb_lt. unfold UTC, msPerDay.
    split; intros; Z.to_euclidean_division_equations; lia. }
  split; [exact Hiff |]. split; [| split].
  - intros Hz. rewrite Hiff. rewrite (Z.div_small LocalTZA msPerDay) by exact Hz. lia.
  - intros Hz. rewrite Hiff.
    assert (Hq : LocalTZA / msPerDay = -1).
    { unfold msPerDay in *. Z.to_euclidean_division_equations. lia. }
    rewrite Hq. lia.
  - intros menus' total props Hd Hc. unfold Js.add_meal.
    cbn [Js.prop get mbind Js.result_bind]. rewrite Hd.
    cbn [Js.new_Date mbind Js.result_bind]. rewrite Hp. cbn [date_ge date_lt].
    rewrite Hc. reflexivity.
Qed.

(** The theorem of X21 in Japan: the date 2024-01-15 is counted for
    2024-01-15. *)
Lemma daily_window_by_local_day_witness :
  ~ (0 <= @getFullYear JST mid_january <= 99)
  /\ @Date_parse JST "2024-01-15" = Some (19737 * msPerDay)
  /\ @Day (@LocalTime JST mid_january) = 19737
  /\ date_ge (@Date_parse JST "2024-01-15")
       (startDate (@calculateStats JST january mid_january "daily" mid_january))
     && date_lt (@Date_parse JST "2024-01-15")
          (endDate (@calculateStats JST january mid_january "daily" mid_january))
     = true.
Proof.
  assert (Hy : ~ (0 <= @getFullYear JST mid_january <= 99)).
  { vm_compute. intros [_ Hc]. apply Hc. reflexivity. }
  assert (Hp : @Date_parse JST "2024-01-15" = Some (19737 * msPerDay))
    by (vm_compute; reflexivity).
  assert (Hd : @Day (@LocalTime JST mid_january) = 19737) by (vm_compute; reflexivity).
  split; [exact Hy |]. split; [exact Hp |]. split; [exact Hd |].
  destruct (@daily_window_by_local_day JST january mid_january mid_january _ _ Hy Hp)
    as (_ & Hz & _).
  apply Hz; [vm_compute; split; [discriminate | reflexivity] | exact Hd].
Defined.

(** Five hours west of Greenwich the meal dated 2024-01-15 is counted for
    2024-01-14: at local noon of 2024-01-15 the daily total is 0, a day
    earlier it is 300. *)
Example daily_total_west_of_Greenwich :
  let noon_15 := @newDate EST 2024 0 15 + 12 * msPerHour in
  let noon_14 := @newDate EST 2024 0 14 + 12 * msPerHour in
  @getDate EST noon_15 = 15
  /\ total (@calculateStats EST january noon_15 "daily" noon_15) = 0
  /\ total (@calculateStats EST january noon_14 "daily" noon_14) = 300.
Proof. vm_compute. repeat split. Qed.

(** ** Part 26. Navigation by days, and a backup merged back *)

(** X22. In the daily view, when neither the date of the view nor the date
    after [changeDate("next")] has a year from 0 to 99, the daily window of
    the next date starts where the daily window of the date ends. *)
Theorem daily_windows_follow `{Host} (st : Tracker) (now currentDate : Z) :
  ~ (0 <= getFullYear currentDate <= 99) ->
  ~ (0 <= getFullYear (changeDate currentDate "daily" "next") <= 99) ->
  startDate (calculateStats st now "daily" (changeDate currentDate "daily" "next"))
  = endDate (calculateStats st now "daily" currentDate).
Proof.
  intros Hy Hy'.
  destruct (daily_window st now currentDate) as [Hs He].
  destruct (daily_window st now (changeDate currentDate "daily" "next")) as [Hs' _].
  cbv zeta in *. rewrite He, Hs, Hs'.
  rewrite (newDate_of_day _ Hy), (newDate_of_day _ Hy').
  assert (Hc : changeDate currentDate "daily" "next" = currentDate + 1 * msPerDay).
  { unfold changeDate. cbn [String.eqb Ascii.eqb Bool.eqb]. rewrite setDate_shift. lia. }
  rewrite Hc, LocalTime_shift, Day_shift. unfold UTC. lia.
Qed.

(** The theorem of X22 at noon of 2024-01-15 in Japan: the window of the
    next day starts at the midnight that opens 2024-01-16. *)
Lemma daily_windows_follow_witness :
  ~ (0 <= @getFullYear JST mid_january <= 99)
  /\ ~ (0 <= @getFullYear JST (@changeDate JST mid_january "daily" "next") <= 99)
  /\ startDate (@calculateStats JST january mid_january "daily"
                  (@changeDate JST mid_january "daily" "next"))
     = endDate (@calculateStats JST january mid_january "daily" mid_january)
  /\ endDate (@calculateStats JST january mid_january "daily" mid_january)
     = @newDate JST 2024 0 16.
Proof.
  assert (Hy : ~ (0 <= @getFullYear JST mid_january <= 99)).
  { vm_compute. intros [_ Hc]. apply Hc. reflexivity. }
  assert (Hy' : ~ (0 <= @getFullYear JST (@changeDate JST mid_january "daily" "next") <= 99)).
  { vm_compute. intros [_ Hc]. apply Hc. reflexivity. }
  split; [exact Hy |]. split; [exact Hy' |].
  split; [exact (@daily_windows_follow JST january mid_january mid_january Hy Hy') |].
  vm_compute. reflexivity.
Defined.


(** ** Part 27. Records of the data model as values of the program *)

Ltac invert_decoder H :=
  repeat match type of H with
         | match ?x with _ => _ end = Some _ => destruct x; try discriminate H
         | (if ?x then _ else _) = Some _ => destruct x; try discriminate H
         end.

Lemma Menu_of_json_inv (v : value) (m : Menu) :
  Menu_of_json v = Some m -> v = Menu_to_json m.
Proof.
  intros H. unfold Menu_of_json in H. invert_decoder H.
  injection H as <-. reflexivity.
Qed.

Lemma num_of_inv (v : value) (o : option Z) : num_of v = Some o -> v = json_num o.
Proof. destruct v; cbn; intros H; try discriminate H; injection H as <-; reflexivity. Qed.

Lemma str_of_inv (v : value) (o : option string) : str_of v = Some o -> v = json_str o.
Proof. destruct v; cbn; intros H; try discriminate H; injection H as <-; reflexivity. Qed.

Lemma Meal_of_json_inv (v : value) (m : Meal) :
  Meal_of_json v = Some m -> v = Meal_to_json m.
Proof.
  intros H. unfold Meal_of_json in H.
  repeat match type of H with
         | match num_of ?x with _ => _ end = Some _ =>
           let E := fresh "E" in
           destruct (num_of x) eqn:E; [apply num_of_inv in E; subst x | discriminate H]
         | match str_of ?x with _ => _ end = Some _ =>
           let E := fresh "E" in
           destruct (str_of x) eqn:E; [apply str_of_inv in E; subst x | discriminate H]
         | match ?x with _ => _ end = Some _ => destruct x; try discriminate H
         | (if ?x then _ else _) = Some _ => destruct x; try discriminate H
         end.
  injection H as <-. reflexivity.
Qed.

Lemma Goals_of_json_inv (v : value) (g : Goals) :
  Goals_of_json v = Some g -> v = Goals_to_json g.
Proof.
  intros H. unfold Goals_of_json in H. invert_decoder H;
  injection H as <-; reflexivity.
Qed.

Lemma mapM_of_json_inv {A : Type} (of_json : value -> option A) (to_json : A -> value)
    (items : list value) (l : list A) :
  (forall v x, of_json v = Some x -> v = to_json x) ->
  mapM of_json items = Some l -> items = map to_json l.
Proof.
  intros Hinv. revert l. induction items as [| v items IH]; intros l H.
  - cbn in H. injection H as <-. reflexivity.
  - cbn in H. destruct (of_json v) as [x |] eqn:Hv; [| discriminate H].
    cbn in H. destruct (mapM of_json items) as [l' |]; [| discriminate H].
    cbn in H. injection H as <-. cbn. rewrite (Hinv _ _ Hv), (IH l' eq_refl). reflexivity.
Qed.

Lemma as_menus_inv (v : option value) (l : list Menu) :
  as_menus v = Some l -> v = Some (JArr (map Menu_to_json l)).
Proof.
  destruct v as [[| b | n | s | items | ps] |]; cbn; intros H; try discriminate H.
  rewrite (mapM_of_json_inv _ _ _ _ Menu_of_json_inv H). reflexivity.
Qed.

Lemma as_meals_inv (v : option value) (l : list Meal) :
  as_meals v = Some l -> v = Some (JArr (map Meal_to_json l)).
Proof.
  destruct v as [[| b | n | s | items | ps] |]; cbn; intros H; try discriminate H.
  rewrite (mapM_of_json_inv _ _ _ _ Meal_of_json_inv H). reflexivity.
Qed.

Lemma as_goals_inv (v : option value) (g : Goals) :
  as_goals v = Some g -> v = Some (Goals_to_json g).
Proof.
  destruct v as [v |]; cbn; intros H; [| discriminate H].
  rewrite (Goals_of_json_inv _ _ H). reflexivity.
Qed.

Lemma Menu_record : record_with_id Menu_to_json menu_id.
Proof. intros x. split; reflexivity. Qed.

Lemma Meal_record : record_with_id Meal_to_json meal_id.
Proof. intros x. split; reflexivity. Qed.

Lemma find_existing_records {A : Type} (to_json : A -> value) (id : A -> Z)
    (item : A) (merged : list A) :
  record_with_id to_json id ->
  Js.find_existing (to_json item) (map to_json merged)
  = Js.Ok (option_map to_json (List.find (fun existing => id existing =? id item) merged)).
Proof.
  intros Hr. induction merged as [| e merged IH]; [reflexivity |].
  cbn [map Js.find_existing List.find].
  rewrite (proj1 (Hr e)), (proj1 (Hr item)). cbn [mbind Js.result_bind Js.strict_eq].
  destruct (id e =? id item); [reflexivity | exact IH].
Qed.

Lemma mergeData_records {A : Type} (to_json : A -> value) (id : A -> Z)
    (cur new : list A) :
  record_with_id to_json id ->
  Js.mergeData (map to_json cur) (map to_json new)
  = Js.Ok (map to_json (mergeData id cur new)).
Proof.
  intros Hr. unfold Js.mergeData, mergeData. revert cur.
  induction new as [| item new IH]; intros cur; [reflexivity |].
  cbn [map fold_left]. cbn [mbind Js.result_bind].
  rewrite (find_existing_records _ _ _ _ Hr). cbn [mbind Js.result_bind].
  destruct (List.find _ cur) as [e |] eqn:Hf; cbn [option_map].
  - rewrite (proj2 (Hr e)). apply IH.
  - cbn [truthy]. rewrite <- (IH (cur ++ [item])). rewrite map_app. reflexivity.
Qed.

Lemma spread_Goals (cur imp : Goals) :
  Js.spread (Js.props (Some (Goals_to_json cur))) (Js.props (Some (Goals_to_json imp)))
  = Js.props (Some (Goals_to_json (spreadGoals cur imp))).
Proof. destruct cur as [dc [uc |]], imp as [di [ui |]]; reflexivity. Qed.

Lemma daily_of_Goals (g : Goals) :
  lookup_prop "daily" (Js.props (Some (Goals_to_json g))) = Some (JNum (daily g)).
Proof. reflexivity. Qed.

Lemma importMenus_records (st st1 : Tracker) (data : value) (validation : Validation)
    (options : ImportOptions) :
  importMenus st data validation options = Some st1 ->
  Js.importMenus (Js_of st) data validation options = Js.Ok (Js_of st1).
Proof.
  unfold importMenus, Js.importMenus.
  destruct (of_menus (details validation) && of_menus (types options));
    [| intros H; injection H as <-; reflexivity].
  destruct (as_menus (get data "menus")) as [l |] eqn:E; [| discriminate].
  apply as_menus_inv in E. rewrite E. cbn [mbind option_bind Js.items].
  intros H. injection H as <-.
  destruct (merge options); [| reflexivity].
  change (Js.menus (Js_of st)) with (map Menu_to_json (menus st)).
  rewrite (mergeData_records _ _ _ _ Menu_record). reflexivity.
Qed.

Lemma importMeals_records (st st1 : Tracker) (data : value) (validation : Validation)
    (options : ImportOptions) :
  importMeals st data validation options = Some st1 ->
  Js.importMeals (Js_of st) data validation options = Js.Ok (Js_of st1).
Proof.
  unfold importMeals, Js.importMeals.
  destruct (of_meals (details validation) && of_meals (types options));
    [| intros H; injection H as <-; reflexivity].
  destruct (as_meals (get data "meals")) as [l |] eqn:E; [| discriminate].
  apply as_meals_inv in E. rewrite E. cbn [mbind option_bind Js.items].
  intros H. injection H as <-.
  destruct (merge options); [| reflexivity].
  change (Js.meals (Js_of st)) with (map Meal_to_json (meals st)).
  rewrite (mergeData_records _ _ _ _ Meal_record). reflexivity.
Qed.

Lemma importGoals_records (st st1 : Tracker) (data : value) (validation : Validation)
    (options : ImportOptions) :
  importGoals st data validation options = Some st1 ->
  Js.importGoals (Js_of st) data validation options = Js_of st1.
Proof.
  unfold importGoals, Js.importGoals.
  destruct (of_goals (details validation) && of_goals (types options));
    [| intros H; injection H as <-; reflexivity].
  destruct (as_goals (get data "goals")) as [g |] eqn:E; [| discriminate].
  apply as_goals_inv in E. rewrite E. cbn [mbind option_bind].
  intros H. injection H as <-. cbv zeta.
  change (Js.goals (Js_of st)) with (Js.props (Some (Goals_to_json (goals st)))).
  destruct (merge options).
  - rewrite spread_Goals. reflexivity.
  - reflexivity.
Qed.

(** On records of the data model, an import of the record-based definitions
    is the import of the program. *)
Lemma importData_records (st st' : Tracker) (file : value) (options : ImportOptions)
    (r : ImportResult) :
  importData st file options = Some (st', r) ->
  Js.importData (Js_of st) file options = Some (Js_of st', r).
Proof.
  unfold importData, Js.importData.
  destruct file as [| b | n | s | items | ps];
    try (intros H; injection H as <- <-; reflexivity).
  cbn [Js.prop].
  destruct (negb (truthy (get (JObj ps) "data")) || negb (truthy (get (JObj ps) "exportedAt")));
    [intros H; injection H as <- <-; reflexivity |].
  cbv zeta. generalize (default JNull (get (JObj ps) "data")). intros data.
  destruct (negb (isValid (validateImportData data)));
    [intros H; injection H as <- <-; reflexivity |].
  destruct (importMenus st data _ options) as [st1 |] eqn:E1; [| discriminate].
  cbn [mbind option_bind].
  destruct (importMeals st1 data _ options) as [st2 |] eqn:E2; [| discriminate].
  cbn [mbind option_bind].
  destruct (importGoals st2 data _ options) as [st3 |] eqn:E3; [| discriminate].
  cbn [mbind option_bind]. intros H. injection H as <- <-.
  unfold Js.importSections.
  rewrite (importMenus_records _ _ _ _ _ E1), (importMeals_records _ _ _ _ _ E2),
    (importGoals_records _ _ _ _ _ E3).
  reflexivity.
Qed.

Lemma find_id_menus (id : Z) (ms : list Menu) :
  Js.find_id (Some (JNum id)) (map Menu_to_json ms)
  = Js.Ok (option_map Menu_to_json (List.find (fun m => menu_id m =? id) ms)).
Proof.
  induction ms as [| m ms IH]; [reflexivity |].
  cbn [map Js.find_id List.find]. cbn [Menu_to_json Js.prop get lookup_prop String.eqb
    Ascii.eqb Bool.eqb mbind Js.result_bind Js.strict_eq].
  destruct (menu_id m =? id); [reflexivity | exact IH].
Qed.

Lemma find_id_null (ms : list Menu) :
  Js.find_id (Some JNull) (map Menu_to_json ms) = Js.Ok None.
Proof. induction ms as [| m ms IH]; [reflexivity | exact IH]. Qed.

(** On records of the data model, the total of the record-based definitions
    is the total of the program, and it is a number. *)
Lemma calculateCaloriesForDateRange_records `{Host} (st : Tracker) (start end_ : Z) :
  Js.calculateCaloriesForDateRange (Js_of st) start end_
  = Js.Ok (Js.Int (calculateCaloriesForDateRange st start end_)).
Proof.
  unfold Js.calculateCaloriesForDateRange, calculateCaloriesForDateRange.
  change (Js.menus (Js_of st)) with (map Menu_to_json (menus st)).
  change (Js.meals (Js_of st)) with (map Meal_to_json (meals st)).
  generalize 0 at 1 3. generalize (meals st). intros l.
  induction l as [| meal l IH]; intros acc; [reflexivity |].
  cbn [map fold_left]. rewrite <- IH. f_equal.
  cbn [mbind Js.result_bind]. unfold Js.add_meal.
  cbn [Meal_to_json Js.prop get lookup_prop String.eqb Ascii.eqb Bool.eqb mbind
       Js.result_bind Js.new_Date].
  destruct (date_ge _ _ && date_lt _ _); [| reflexivity].
  destruct (customCalories meal) as [c |]; [reflexivity |].
  destruct (menuCalories meal) as [c |]; [reflexivity |].
  cbn [json_num Js.strict_eq negb].
  destruct (menuId meal) as [id |]; cbn [json_num].
  - rewrite find_id_menus. cbn [mbind Js.result_bind].
    destruct (List.find _ (menus st)) as [m |]; reflexivity.
  - rewrite find_id_null, find_none_false. reflexivity.
Qed.

Lemma repair_record (ms : list value) (meal : Meal) :
  Js.repair ms (Meal_to_json meal) = Js.Ok (Meal_to_json meal).
Proof.
  unfold Js.repair.
  cbn [Meal_to_json Js.prop get lookup_prop String.eqb Ascii.eqb Bool.eqb mbind
       Js.result_bind].
  destruct (menuName meal), (menuCalories meal); cbn [json_str json_num Js.strict_eq orb];
    rewrite andb_false_r; reflexivity.
Qed.

Lemma forEach_repair_records (ms : list value) (l : list Meal) :
  Js.forEach_repair ms (map Meal_to_json l) = Js.Ok (map Meal_to_json l).
Proof.
  induction l as [| meal l IH]; [reflexivity |].
  cbn [map Js.forEach_repair]. rewrite repair_record. cbn [mbind Js.result_bind].
  rewrite IH. reflexivity.
Qed.

(** On a storage that holds records of the data model, the constructor of
    the record-based definitions is the constructor of the program: its loop
    finds nothing to fill in. *)
Lemma newCalorieTracker_records (store : gmap string value) (st : Tracker) :
  newCalorieTracker store = Some st ->
  Js.newCalorieTracker store = Js.Ok (Js_of st).
Proof.
  unfold newCalorieTracker, Js.newCalorieTracker, Js.stored_array.
  assert (Hm : forall l, (if truthy (store !! "menus") then as_menus (store !! "menus")
                          else Some []) = Some l ->
               (if truthy (store !! "menus")
                then match store !! "menus" with Some (JArr l) => Js.Ok l | _ => Js.Beyond end
                else Js.Ok []) = Js.Ok (map Menu_to_json l)).
  { intros l. destruct (truthy (store !! "menus")).
    - intros E. apply as_menus_inv in E. rewrite E. reflexivity.
    - intros E. injection E as <-. reflexivity. }
  assert (Hl : forall l, (if truthy (store !! "meals") then as_meals (store !! "meals")
                          else Some []) = Some l ->
               (if truthy (store !! "meals")
                then match store !! "meals" with Some (JArr l) => Js.Ok l | _ => Js.Beyond end
                else Js.Ok []) = Js.Ok (map Meal_to_json l)).
  { intros l. destruct (truthy (store !! "meals")).
    - intros E. apply as_meals_inv in E. rewrite E. reflexivity.
    - intros E. injection E as <-. reflexivity. }
  destruct (if truthy (store !! "menus") then _ else _) as [l1 |] eqn:E1; [| discriminate].
  destruct (if truthy (store !! "meals") then _ else _) as [l2 |] eqn:E2; [| discriminate].
  rewrite (Hm _ eq_refl), (Hl _ eq_refl). cbn [mbind option_bind Js.result_bind].
  destruct (store !! "dailyGoal") as [[| b | n | s | items | ps] |];
    cbn [mbind option_bind Js.result_bind]; try discriminate;
    intros H; injection H as <-; rewrite forEach_repair_records;
    cbn [mbind Js.result_bind]; unfold Js_of, saveMeals, Js.saveMeals, setItem, Js.setItem;
    cbn [menus meals goals storage Js.menus Js.meals Js.goals Js.storage Goals_to_json
         userData daily Js.props app];
    (destruct (store !! "userData") as [u |]; [destruct (truthy (Some u)) |]);
    reflexivity.
Qed.

(** ** Part 28. The failures of an import *)







Lemma value_eq_JNull (v : value) : v = JNull \/ v <> JNull.
Proof. destruct v; [left; reflexivity | right; discriminate ..]. Qed.

(** The envelope and the payload of an import, case by case. *)
Lemma importData_cases (st : Js.Tracker) (file : value) (options : ImportOptions) :
  (file = JNull
   /\ Js.importData st file options = Some (st, Failure (HostTypeError "data")))
  \/ (file <> JNull
      /\ (truthy (get file "data") = false \/ truthy (get file "exportedAt") = false)
      /\ Js.importData st file options = Some (st, Failure InvalidFile))
  \/ exists data, get file "data" = Some data /\ truthy (Some data) = true
       /\ truthy (get file "exportedAt") = true
       /\ (isValid (validateImportData data) = false
           /\ Js.importData st file options = Some (st, Failure InvalidFormat)
           \/ isValid (validateImportData data) = true
              /\ Js.importData st file options
                 = Js.importSections st data (validateImportData data) options).
Proof.
  destruct (value_eq_JNull file) as [-> | Hnull]; [left; split; reflexivity |].
  right.
  assert (Hp : Js.prop file "data" = Js.Ok (get file "data"))
    by (destruct file; [congruence | reflexivity ..]).
  unfold Js.importData. rewrite Hp.
  destruct (truthy (get file "data")) eqn:Hd.
  - destruct (truthy (get file "exportedAt")) eqn:He.
    + right. destruct (get file "data") as [data |] eqn:Hg; [| discriminate Hd].
      exists data. repeat split; try assumption.
      cbn [negb orb]. unfold default. cbn [from_option id].
      destruct (isValid (validateImportData data)) eqn:Hv.
      * right. split; reflexivity.
      * left. split; reflexivity.
    + left. split; [exact Hnull |]. split; [right; reflexivity |]. reflexivity.
  - left. split; [exact Hnull |]. split; [left; reflexivity |]. reflexivity.
Qed.





(** ** Part 29. Totals with older records *)

Lemma add_meal_record `{Host} (ms : list Menu) (start end_ acc : Z) (meal : Meal) :
  Js.add_meal (map Menu_to_json ms) start end_ (Js.Int acc) (Meal_to_json meal)
  = Js.Ok (Js.Int
      (let mealDate := Date_parse (meal_date meal) in
       if date_ge mealDate start && date_lt mealDate end_ then
         match customCalories meal with
         | Some c => acc + c
         | None =>
           match menuCalories meal with
           | Some c => acc + c
           | None =>
             let menu := List.find (fun m =>
               match menuId meal with Some id => menu_id m =? id | None => false end) ms in
             acc + match menu with Some m => menu_calories m | None => 0 end
           end
         end
       else acc)).
Proof.
  unfold Js.add_meal. cbv zeta.
  cbn [Meal_to_json Js.prop get lookup_prop String.eqb Ascii.eqb Bool.eqb mbind
       Js.result_bind Js.new_Date].
  destruct (date_ge _ _ && date_lt _ _); [| reflexivity].
  destruct (customCalories meal) as [c |]; [reflexivity |].
  destruct (menuCalories meal) as [c |]; [reflexivity |].
  cbn [json_num Js.strict_eq negb].
  destruct (menuId meal) as [id |]; cbn [json_num].
  - rewrite find_id_menus. cbn [mbind Js.result_bind].
    destruct (List.find _ ms) as [m |]; reflexivity.
  - rewrite find_id_null, find_none_false. reflexivity.
Qed.

Lemma add_meal_record_NaN `{Host} (ms : list Menu) (start end_ : Z) (meal : Meal) :
  Js.add_meal (map Menu_to_json ms) start end_ Js.NaN (Meal_to_json meal) = Js.Ok Js.NaN.
Proof.
  unfold Js.add_meal.
  cbn [Meal_to_json Js.prop get lookup_prop String.eqb Ascii.eqb Bool.eqb mbind
       Js.result_bind Js.new_Date].
  destruct (date_ge _ _ && date_lt _ _); [| reflexivity].
  destruct (customCalories meal) as [c |]; [reflexivity |].
  destruct (menuCalories meal) as [c |]; [reflexivity |].
  cbn [json_num Js.strict_eq negb].
  destruct (menuId meal) as [id |]; cbn [json_num].
  - rewrite find_id_menus. cbn [mbind Js.result_bind].
    destruct (List.find _ ms) as [m |]; reflexivity.
  - rewrite find_id_null. reflexivity.
Qed.

Lemma reduce_records `{Host} (ms : list Menu) (start end_ : Z) (l : list Meal) (acc : Z) :
  exists total,
    fold_left (fun r meal => total ← r; Js.add_meal (map Menu_to_json ms) start end_ total meal)
      (map Meal_to_json l) (Js.Ok (Js.Int acc))
    = Js.Ok (Js.Int total).
Proof.
  revert acc. induction l as [| meal l IH]; intros acc; [eexists; reflexivity |].
  cbn [map fold_left mbind Js.result_bind]. rewrite add_meal_record. apply IH.
Qed.

Lemma reduce_records_NaN `{Host} (ms : list Menu) (start end_ : Z) (l : list Meal) :
  fold_left (fun r meal => total ← r; Js.add_meal (map Menu_to_json ms) start end_ total meal)
    (map Meal_to_json l) (Js.Ok Js.NaN)
  = Js.Ok Js.NaN.
Proof.
  induction l as [| meal l IH]; [reflexivity |].
  cbn [map fold_left mbind Js.result_bind]. rewrite add_meal_record_NaN. exact IH.
Qed.

(** C7, on the code. A meal that lacks the property [customCalories], or
    has it [null] and lacks [menuCalories] (a record from before these
    fields, also after the constructor has filled in the snapshot of its
    menu), and whose date is in the window, makes the total NaN, whatever
    the other meals, records of the data model, are: [undefined !== null]
    holds, so [undefined] is added and the live lookup is not reached. *)
Theorem legacy_meal_makes_total_NaN `{Host} (st : Js.Tracker) (ms : list Menu)
    (before after : list Meal) (props : list (string * value)) (date : string)
    (start end_ : Z) :
  Js.menus st = map Menu_to_json ms ->
  Js.meals st = map Meal_to_json before ++ JObj props :: map Meal_to_json after ->
  lookup_prop "date" props = Some (JStr date) ->
  lookup_prop "customCalories" props = None
  \/ lookup_prop "customCalories" props = Some JNull
     /\ lookup_prop "menuCalories" props = None ->
  date_ge (Date_parse date) start && date_lt (Date_parse date) end_ = true ->
  Js.calculateCaloriesForDateRange st start end_ = Js.Ok Js.NaN.
Proof.
  intros Hms Hmeals Hdate Hcal Hin.
  unfold Js.calculateCaloriesForDateRange. rewrite Hms, Hmeals, fold_left_app.
  destruct (reduce_records ms start end_ before 0) as [total ->].
  cbn [fold_left mbind Js.result_bind].
  assert (Hstep : Js.add_meal (map Menu_to_json ms) start end_ (Js.Int total) (JObj props)
                  = Js.Ok Js.NaN).
  { unfold Js.add_meal. cbn [Js.prop get mbind Js.result_bind]. rewrite Hdate.
    cbn [Js.new_Date mbind Js.result_bind]. rewrite Hin.
    destruct Hcal as [-> | [-> ->]]; reflexivity. }
  rewrite Hstep. apply reduce_records_NaN.
Qed.

(** The theorem of C7 on the storage that holds rice and a legacy meal of
    rice: the constructor fills in the name and the calories of rice, and the
    total of the day of the meal is NaN, where the sum of the effective
    calories is 250. *)
Lemma legacy_meal_makes_total_NaN_witness :
  exists st : Js.Tracker,
    Js.newCalorieTracker legacy_store = Js.Ok st
    /\ Js.meals st
       = [repaired_meal 3 "2024-01-15" rice]
    /\ @Js.calculateCaloriesForDateRange JST st (@newDate JST 2024 0 15) (@newDate JST 2024 0 16)
       = Js.Ok Js.NaN.
Proof.
  eexists. split; [vm_compute; reflexivity |]. split; [reflexivity |].
  apply (@legacy_meal_makes_total_NaN JST _ [rice] [] []
           [("id", JNum 3); ("date", JStr "2024-01-15"); ("menuId", JNum 1700000000001);
            ("menuName", JStr "rice"); ("menuCalories", JNum 250)] "2024-01-15");
    [reflexivity | reflexivity | reflexivity | left; reflexivity | reflexivity].
Defined.

(** ** Part 30. The constructor and older records *)

Lemma lookup_set_prop (k k' : string) (v : value) (l : list (string * value)) :
  lookup_prop k' (Js.set_prop k v l) = if String.eqb k' k then Some v else lookup_prop k' l.
Proof.
  induction l as [| [k0 v0] l IH]; cbn [Js.set_prop lookup_prop].
  - destruct (String.eqb k' k); reflexivity.
  - destruct (String.eqb_spec k k0) as [-> | Hk]; cbn [lookup_prop].
    + destruct (String.eqb k' k0); reflexivity.
    + rewrite IH. destruct (String.eqb_spec k' k0) as [-> | Hk']; [| reflexivity].
      destruct (String.eqb_spec k0 k) as [-> | _]; [congruence | reflexivity].
Qed.

Lemma lookup_delete_prop (k k' : string) (l : list (string * value)) :
  lookup_prop k' (Js.delete_prop k l) = if String.eqb k' k then None else lookup_prop k' l.
Proof.
  induction l as [| [k0 v0] l IH]; cbn [Js.delete_prop lookup_prop].
  - destruct (String.eqb k' k); reflexivity.
  - destruct (String.eqb_spec k k0) as [-> | Hk]; cbn [lookup_prop].
    + rewrite IH. destruct (String.eqb k' k0); reflexivity.
    + rewrite IH. destruct (String.eqb_spec k' k0) as [-> | Hk']; [| reflexivity].
      destruct (String.eqb_spec k0 k) as [-> | _]; [congruence | reflexivity].
Qed.

Lemma set_prop_same (k : string) (v : value) (l : list (string * value)) :
  lookup_prop k l = Some v -> Js.set_prop k v l = l.
Proof.
  induction l as [| [k0 v0] l IH]; cbn [Js.set_prop lookup_prop]; [discriminate |].
  destruct (String.eqb k k0); intros H.
  - injection H as ->. reflexivity.
  - rewrite (IH H). reflexivity.
Qed.

Lemma delete_prop_same (k : string) (l : list (string * value)) :
  lookup_prop k l = None -> Js.delete_prop k l = l.
Proof.
  induction l as [| [k0 v0] l IH]; cbn [Js.delete_prop lookup_prop]; [reflexivity |].
  destruct (String.eqb k k0); intros H; [discriminate H |].
  rewrite (IH H). reflexivity.
Qed.

Lemma get_assign (l : list (string * value)) (k k' : string) (v : option value) :
  get (Js.assign (JObj l) k v) k' = if String.eqb k' k then v else lookup_prop k' l.
Proof.
  destruct v as [v |]; cbn [Js.assign get];
    [apply lookup_set_prop | apply lookup_delete_prop].
Qed.

Lemma assign_same (o : value) (k : string) (v : option value) :
  get o k = v -> Js.assign o k v = o.
Proof.
  destruct o as [| b | n | s | l | ps]; try (destruct v; reflexivity).
  cbn [get]. intros <-.
  destruct (lookup_prop k ps) as [v |] eqn:E; cbn [Js.assign];
    [rewrite (set_prop_same _ _ _ E) | rewrite (delete_prop_same _ _ E)]; reflexivity.
Qed.

Lemma assign_is_object (l : list (string * value)) (k : string) (v : option value) :
  exists l', Js.assign (JObj l) k v = JObj l'.
Proof. destruct v; eexists; reflexivity. Qed.

(** The loop of the constructor finds nothing more to do on a meal it has
    been through. *)
Lemma repair_twice (ms : list value) (meal meal' : value) :
  Js.repair ms meal = Js.Ok meal' -> Js.repair ms meal' = Js.Ok meal'.
Proof.
  destruct meal as [| b | n | s | l | ps];
    try (intros H; cbn in H; first [discriminate H | injection H as <-; reflexivity]).
  unfold Js.repair at 1. cbn [Js.prop mbind Js.result_bind].
  set (o := JObj ps).
  destruct (truthy (get o "menuId")
            && (Js.strict_eq (get o "menuName") None
                || Js.strict_eq (get o "menuCalories") None)) eqn:Hc.
  - destruct (Js.find_id (get o "menuId") ms) as [menu | e |] eqn:Hf;
      cbn [mbind Js.result_bind]; try discriminate.
    destruct menu as [m |].
    + destruct (truthy (Some m)) eqn:Ht.
      * intros H. injection H as <-.
        destruct (assign_is_object ps "menuName" (get m "name")) as [l1 E1].
        destruct (assign_is_object l1 "menuCalories" (get m "calories")) as [l2 E2].
        pose proof (get_assign l1 "menuCalories" "menuId" (get m "calories")) as G2i.
        pose proof (get_assign ps "menuName" "menuId" (get m "name")) as G1i.
        pose proof (get_assign l1 "menuCalories" "menuName" (get m "calories")) as G2n.
        pose proof (get_assign ps "menuName" "menuName" (get m "name")) as G1n.
        pose proof (get_assign l1 "menuCalories" "menuCalories" (get m "calories")) as G2c.
        rewrite E1 in G1i, G1n. rewrite E2 in G2i, G2n, G2c.
        cbn [String.eqb Ascii.eqb Bool.eqb] in G1i, G1n, G2i, G2n, G2c.
        change (lookup_prop "menuId" l1) with (get (JObj l1) "menuId") in G2i.
        change (lookup_prop "menuName" l1) with (get (JObj l1) "menuName") in G2n.
        change (lookup_prop "menuId" ps) with (get o "menuId") in G1i.
        change (lookup_prop "menuId" l1) with (get (JObj l1) "menuId") in G2i.
        rewrite G1i in G2i. rewrite G1n in G2n.
        change (Js.repair ms
                  (Js.assign (Js.assign (JObj ps) "menuName" (get m "name"))
                     "menuCalories" (get m "calories"))
                = Js.Ok (Js.assign (Js.assign (JObj ps) "menuName" (get m "name"))
                           "menuCalories" (get m "calories"))).
        rewrite E1, E2. unfold Js.repair.
        cbn [Js.prop mbind Js.result_bind]. rewrite G2i.
        destruct (truthy (get o "menuId")
                  && (Js.strict_eq (get (JObj l2) "menuName") None
                      || Js.strict_eq (get (JObj l2) "menuCalories") None));
          [| reflexivity].
        rewrite Hf. cbn [mbind Js.result_bind]. rewrite Ht.
        rewrite (assign_same (JObj l2) "menuName" (get m "name")) by exact G2n.
        rewrite (assign_same (JObj l2) "menuCalories" (get m "calories")) by exact G2c.
        reflexivity.
      * intros H. injection H as <-. subst o. unfold Js.repair.
        cbn [Js.prop mbind Js.result_bind]. rewrite Hc, Hf.
        cbn [mbind Js.result_bind]. rewrite Ht. reflexivity.
    + intros H. injection H as <-. subst o. unfold Js.repair.
      cbn [Js.prop mbind Js.result_bind]. rewrite Hc, Hf. reflexivity.
  - intros H. injection H as <-. subst o. unfold Js.repair.
    cbn [Js.prop mbind Js.result_bind]. rewrite Hc. reflexivity.
Qed.

Lemma forEach_repair_twice (ms : list value) (l l' : list value) :
  Js.forEach_repair ms l = Js.Ok l' -> Js.forEach_repair ms l' = Js.Ok l'.
Proof.
  revert l'. induction l as [| meal l IH]; intros l'; cbn [Js.forEach_repair].
  - intros H. injection H as <-. reflexivity.
  - destruct (Js.repair ms meal) as [meal' | e |] eqn:Hr; cbn [mbind Js.result_bind];
      try discriminate.
    destruct (Js.forEach_repair ms l) as [rest | e |] eqn:Hl; cbn [mbind Js.result_bind];
      try discriminate.
    intros H. injection H as <-. cbn [Js.forEach_repair].
    rewrite (repair_twice _ _ _ Hr). cbn [mbind Js.result_bind].
    rewrite (IH rest eq_refl). reflexivity.
Qed.

(** X6. The tracker that [new CalorieTracker()] builds from a storage, with
    the snapshots that its loop has filled in on older records, is built
    again as it is from the storage it leaves: the loop finds nothing more to
    fill in, and the meals it wrote back are the meals in memory. *)
Theorem newCalorieTracker_restart (store : gmap string value) (st : Js.Tracker) :
  Js.newCalorieTracker store = Js.Ok st ->
  Js.newCalorieTracker (Js.storage st) = Js.Ok st.
Proof.
  unfold Js.newCalorieTracker at 1.
  destruct (Js.stored_array (store !! "menus")) as [ms | e |] eqn:Hms;
    cbn [mbind Js.result_bind]; try discriminate.
  destruct (Js.stored_array (store !! "meals")) as [ml | e |] eqn:Hml;
    cbn [mbind Js.result_bind]; try discriminate.
  destruct (match store !! "dailyGoal" with
            | None => Js.Ok 2000
            | Some (JNum n) => Js.Ok (if n =? 0 then 2000 else n)
            | Some _ => Js.Beyond
            end) as [d | e |] eqn:Hd; cbn [mbind Js.result_bind]; try discriminate.
  destruct (Js.forEach_repair ms ml) as [repaired | e |] eqn:Hr;
    cbn [mbind Js.result_bind]; try discriminate.
  intros H. injection H as <-.
  unfold Js.newCalorieTracker, Js.saveMeals, Js.setItem. cbn [Js.storage Js.meals].
  rewrite lookup_insert_eq.
  repeat (rewrite lookup_insert_ne by discriminate).
  rewrite Hms. cbn [mbind Js.result_bind Js.stored_array truthy].
  rewrite Hd. cbn [mbind Js.result_bind].
  rewrite (forEach_repair_twice _ _ _ Hr). cbn [mbind Js.result_bind].
  cbn [Js.menus Js.meals Js.goals Js.storage].
  rewrite insert_insert_eq. reflexivity.
Qed.

(** The theorem of X6 on the storage that holds rice and a legacy meal of
    rice. *)
Lemma newCalorieTracker_restart_witness :
  exists st : Js.Tracker,
    Js.newCalorieTracker legacy_store = Js.Ok st
    /\ Js.meals st
       = [repaired_meal 3 "2024-01-15" rice]
    /\ Js.newCalorieTracker (Js.storage st) = Js.Ok st.
Proof.
  assert (H : exists st, Js.newCalorieTracker legacy_store = Js.Ok st
              /\ Js.meals st
                 = [repaired_meal 3 "2024-01-15" rice]).
  { eexists. split; [vm_compute; reflexivity | reflexivity]. }
  destruct H as (st & Hn & Hm). exists st. split; [exact Hn |]. split; [exact Hm |].
  exact (newCalorieTracker_restart _ _ Hn).
Defined.

(** What it says of a tracker that a restart gives it back as it is. *)
Lemma restart_gives_back (st : Js.Tracker) :
  Js.newCalorieTracker (Js.storage st) = Js.Ok st ->
  Js.stored_array (Js.storage st !! "menus") = Js.Ok (Js.menus st)
  /\ Js.storage st !! "meals" = Some (JArr (Js.meals st))
  /\ exists d, match Js.storage st !! "dailyGoal" with
               | None => Js.Ok 2000
               | Some (JNum n) => Js.Ok (if n =? 0 then 2000 else n)
               | Some _ => Js.Beyond
               end = Js.Ok d
       /\ Js.goals st
          = [("daily", JNum d);
             ("userData", if truthy (Js.storage st !! "userData")
                          then default JNull (Js.storage st !! "userData") else JNull)].
Proof.
  unfold Js.newCalorieTracker.
  destruct (Js.stored_array (Js.storage st !! "menus")) as [ms | e |];
    cbn [mbind Js.result_bind]; try discriminate.
  destruct (Js.stored_array (Js.storage st !! "meals")) as [ml | e |];
    cbn [mbind Js.result_bind]; try discriminate.
  destruct (match Js.storage st !! "dailyGoal" with
            | None => Js.Ok 2000
            | Some (JNum n) => Js.Ok (if n =? 0 then 2000 else n)
            | Some _ => Js.Beyond
            end) as [d | e |]; cbn [mbind Js.result_bind]; try discriminate.
  destruct (Js.forEach_repair ms ml) as [repaired | e |];
    cbn [mbind Js.result_bind]; try discriminate.
  intros H. injection H as H.
  pose proof (f_equal Js.menus H) as Hm. pose proof (f_equal Js.meals H) as Hl.
  pose proof (f_equal Js.goals H) as Hg. pose proof (f_equal Js.storage H) as Hs.
  cbn [Js.saveMeals Js.setItem Js.menus Js.meals Js.goals Js.storage] in Hm, Hl, Hg, Hs.
  split; [rewrite Hm; reflexivity |]. split.
  - rewrite <- Hs at 1. rewrite lookup_insert_eq, Hl. reflexivity.
  - exists d. split; [reflexivity | symmetry; exact Hg].
Qed.

Lemma importMenus_stored (st st1 : Js.Tracker) (data : value) (validation : Validation)
    (options : ImportOptions) :
  Js.importMenus st data validation options = Js.Ok st1 ->
  Js.stored_array (Js.storage st !! "menus") = Js.Ok (Js.menus st) ->
  Js.stored_array (Js.storage st1 !! "menus") = Js.Ok (Js.menus st1)
  /\ (forall k, k <> "menus" -> Js.storage st1 !! k = Js.storage st !! k)
  /\ Js.meals st1 = Js.meals st
  /\ Js.goals st1 = Js.goals st.
Proof.
  unfold Js.importMenus. intros H Hs.
  destruct (_ && _).
  - destruct (if merge options then _ else _) as [l | e |];
      cbn [mbind Js.result_bind] in H; try discriminate H.
    injection H as <-.
    cbn [Js.saveMenus Js.set_menus Js.setItem Js.menus Js.meals Js.goals Js.storage].
    rewrite lookup_insert_eq. repeat split.
    intros k Hk. apply lookup_insert_ne. congruence.
  - injection H as <-. repeat split. exact Hs.
Qed.

Lemma importMeals_stored (st st1 : Js.Tracker) (data : value) (validation : Validation)
    (options : ImportOptions) :
  Js.importMeals st data validation options = Js.Ok st1 ->
  Js.storage st !! "meals" = Some (JArr (Js.meals st)) ->
  Js.storage st1 !! "meals" = Some (JArr (Js.meals st1))
  /\ (forall k, k <> "meals" -> Js.storage st1 !! k = Js.storage st !! k)
  /\ Js.menus st1 = Js.menus st
  /\ Js.goals st1 = Js.goals st.
Proof.
  unfold Js.importMeals. intros H Hs.
  destruct (_ && _).
  - destruct (if merge options then _ else _) as [l | e |];
      cbn [mbind Js.result_bind] in H; try discriminate H.
    injection H as <-.
    cbn [Js.saveMeals Js.set_meals Js.setItem Js.menus Js.meals Js.goals Js.storage].
    rewrite lookup_insert_eq. repeat split.
    intros k Hk. apply lookup_insert_ne. congruence.
  - injection H as <-. repeat split. exact Hs.
Qed.

(** X10. After a successful import that brings no goals into a tracker that
    a restart gives back as it is, a restart gives the tracker in memory
    with the loop of the constructor gone through its meals: the tracker
    itself when the loop finds nothing to fill in, and otherwise the tracker
    with the older records filled in from the menus as they are after the
    import. *)
Theorem import_then_restart (st st' : Js.Tracker) (file : value)
    (options : ImportOptions) (imported : Sections) :
  Js.newCalorieTracker (Js.storage st) = Js.Ok st ->
  Js.importData st file options = Some (st', Success imported) ->
  of_goals imported = false ->
  Js.newCalorieTracker (Js.storage st')
  = (repaired ← Js.forEach_repair (Js.menus st') (Js.meals st');
     Js.Ok (Js.saveMeals (Js.set_meals st' repaired)))
  /\ (Js.forEach_repair (Js.menus st') (Js.meals st') = Js.Ok (Js.meals st') ->
      Js.newCalorieTracker (Js.storage st') = Js.Ok st').
Proof.
  intros Hstable Hi Hgoals.
  destruct (restart_gives_back st Hstable) as (Hms & Hml & d & Hd & Hg).
  assert (Hst' : Js.stored_array (Js.storage st' !! "menus") = Js.Ok (Js.menus st')
                 /\ Js.storage st' !! "meals" = Some (JArr (Js.meals st'))
                 /\ Js.storage st' !! "dailyGoal" = Js.storage st !! "dailyGoal"
                 /\ Js.storage st' !! "userData" = Js.storage st !! "userData"
                 /\ Js.goals st' = Js.goals st).
  { destruct (importData_cases st file options)
      as [[_ Hc] | [(_ & _ & Hc) | (data & _ & _ & _ & [[_ Hc] | [_ Hc]])]];
      rewrite Hc in Hi; try discriminate Hi.
    unfold Js.importSections in Hi.
    destruct (Js.importMenus st data _ options) as [st1 | e |] eqn:E1;
      try discriminate Hi.
    destruct (Js.importMeals st1 data _ options) as [st2 | e |] eqn:E2;
      try discriminate Hi.
    injection Hi as Hi Hflags. rewrite <- Hflags in Hgoals.
    change (of_goals (details (validateImportData data)) && of_goals (types options) = false)
      in Hgoals.
    unfold Js.importGoals in Hi. rewrite Hgoals in Hi. subst st'.
    destruct (importMenus_stored _ _ _ _ _ E1 Hms) as (Hms1 & Hk1 & Hl1 & Hg1).
    rewrite <- Hl1, <- (Hk1 "meals") in Hml by discriminate.
    destruct (importMeals_stored _ _ _ _ _ E2 Hml) as (Hml2 & Hk2 & Hm2 & Hg2).
    rewrite (Hk2 "menus"), (Hk2 "dailyGoal"), (Hk2 "userData") by discriminate.
    rewrite (Hk1 "dailyGoal"), (Hk1 "userData") by discriminate.
    rewrite Hm2, Hg2, Hg1. repeat split; assumption. }
  destruct Hst' as (Hms' & Hml' & Hd' & Hu' & Hg').
  assert (Hrestart : Js.newCalorieTracker (Js.storage st')
                     = (repaired ← Js.forEach_repair (Js.menus st') (Js.meals st');
                        Js.Ok (Js.saveMeals (Js.set_meals st' repaired)))).
  { unfold Js.newCalorieTracker. rewrite Hms', Hml', Hd', Hu', Hd.
    cbn [mbind Js.result_bind Js.stored_array truthy].
    destruct (Js.forEach_repair (Js.menus st') (Js.meals st')) as [repaired | e |];
      cbn [mbind Js.result_bind]; try reflexivity.
    unfold Js.saveMeals, Js.setItem, Js.set_meals.
    cbn [Js.menus Js.meals Js.goals Js.storage]. rewrite Hg', Hg. reflexivity. }
  split; [exact Hrestart |].
  intros Hr. rewrite Hrestart, Hr. cbn [mbind Js.result_bind].
  destruct st' as [ms' ml' g' s']. unfold Js.saveMeals, Js.setItem, Js.set_meals.
  cbn [Js.menus Js.meals Js.goals Js.storage] in *.
  rewrite (insert_id _ _ _ Hml'). reflexivity.
Qed.

Lemma rice_file_into_legacy_tracker :
  exists st' : Js.Tracker,
    Js.importData legacy_tracker rice_file defaultImportOptions
    = Some (st', Success {| of_menus := true; of_meals := false; of_goals := false |})
    /\ Js.menus st' = [Menu_to_json rice]
    /\ Js.meals st' = [legacy_meal 3 "2024-01-15" 1700000000001].
Proof. eexists. split; [vm_compute; reflexivity | split; reflexivity]. Defined.

(** The theorem of X10 on the tracker that holds a legacy meal of rice and
    no menu: a restart gives it back as it is; once the menu rice is
    imported, the meal in memory is as before, and a restart fills in its
    snapshot. *)
Lemma import_then_restart_witness :
  Js.newCalorieTracker (Js.storage legacy_tracker) = Js.Ok legacy_tracker
  /\ exists st' : Js.Tracker,
       Js.importData legacy_tracker rice_file defaultImportOptions
       = Some (st', Success {| of_menus := true; of_meals := false; of_goals := false |})
       /\ Js.meals st' = [legacy_meal 3 "2024-01-15" 1700000000001]
       /\ Js.newCalorieTracker (Js.storage st')
          = Js.Ok (Js.saveMeals (Js.set_meals st' [repaired_meal 3 "2024-01-15" rice])).
Proof.
  assert (Hs : Js.newCalorieTracker (Js.storage legacy_tracker) = Js.Ok legacy_tracker)
    by (vm_compute; reflexivity).
  split; [exact Hs |].
  destruct rice_file_into_legacy_tracker as (st' & Hi & Hm & Hl).
  exists st'. split; [exact Hi |]. split; [exact Hl |].
  destruct (import_then_restart _ _ _ _ _ Hs Hi eq_refl) as [Hr _].
  rewrite Hr, Hm, Hl. reflexivity.
Defined.
